(** * Quality-control reports: the report model, the artifact store and
      the report index of [app.py], embedded in Rocq.

    The development follows the source file top-down:

    - text ([str]) is [string], a sequence of UTF-8 code units; quotes,
      slashes, dots and ASCII letters are single code units, the white
      space [str.strip] removes takes one to three, and every other code
      unit is carried through unchanged;
    - [json.dump(..., ensure_ascii=False, indent=2)] and [json.load] are the
      functions [json_dump] and [json_load] of module [Json];
    - [pathlib.Path] values are lists of components ([Pathlib]), and the
      file system is a tree of directories and files ([Fs]) threaded through
      every operation that touches the disk;
    - the dataclasses, [asdict], [construir_pdf], [guardar_informe],
      [cargar_informes] and the two page handlers keep their names. *)

From Stdlib Require Import String Ascii List Bool Arith NArith Lia.
From Stdlib Require Import Sorted Permutation Orders Mergesort.
From Stdlib Require Import DecimalString.
Import ListNotations.
Local Open Scope list_scope.
Local Open Scope string_scope.

(* ================================================================= *)
(** ** Text *)

Module Text.

Definition dquote : ascii := "034"%char.
Definition bslash : ascii := "092"%char.
Definition newline : ascii := "010"%char.

Definition str1 (c : ascii) : string := String c EmptyString.

Lemma append_nil_r (s : string) : s ++ "" = s.
Proof. induction s as [|c s IH]; simpl; [reflexivity | now rewrite IH]. Qed.

Lemma append_assoc (a b c : string) : (a ++ b) ++ c = a ++ (b ++ c).
Proof. induction a as [|x a IH]; simpl; [reflexivity | now rewrite IH]. Qed.

Lemma length_append (a b : string) :
  String.length (a ++ b) = String.length a + String.length b.
Proof. induction a as [|x a IH]; simpl; [reflexivity | now rewrite IH]. Qed.

Lemma append_inv_head (a b c : string) : a ++ b = a ++ c -> b = c.
Proof.
  induction a as [|x a IH]; simpl; intros H; [exact H|].
  injection H as H. now apply IH.
Qed.

(** [sep.join(l)]. *)
Fixpoint join (sep : string) (l : list string) : string :=
  match l with
  | [] => ""
  | x :: xs =>
      match xs with
      | [] => x
      | _ :: _ => x ++ sep ++ join sep xs
      end
  end.

(** [s.startswith(p)], returning what follows the prefix. *)
Fixpoint strip_prefix (p s : string) : option string :=
  match p with
  | EmptyString => Some s
  | String a p' =>
      match s with
      | EmptyString => None
      | String b s' => if (a =? b)%char then strip_prefix p' s' else None
      end
  end.

Lemma strip_prefix_append (p r : string) : strip_prefix p (p ++ r) = Some r.
Proof.
  induction p as [|a p IH]; simpl; [reflexivity|].
  now rewrite Ascii.eqb_refl.
Qed.

Fixpoint rev_string (acc s : string) : string :=
  match s with
  | EmptyString => acc
  | String c s' => rev_string (String c acc) s'
  end.

(** [s.endswith(suf)]. *)
Definition ends_with (suf s : string) : bool :=
  match strip_prefix (rev_string "" suf) (rev_string "" s) with
  | Some _ => true
  | None => false
  end.

Lemma rev_string_acc (s acc : string) :
  rev_string acc s = rev_string "" s ++ acc.
Proof.
  revert acc; induction s as [|c s IH]; intros acc; simpl; [reflexivity|].
  rewrite (IH (String c acc)), (IH (String c "")), append_assoc. reflexivity.
Qed.

Lemma rev_string_append (a b : string) :
  rev_string "" (a ++ b) = rev_string "" b ++ rev_string "" a.
Proof.
  induction a as [|c a IH]; simpl.
  - now rewrite append_nil_r.
  - rewrite rev_string_acc, IH, (rev_string_acc a (String c "")), append_assoc.
    reflexivity.
Qed.

Lemma ends_with_append (a suf : string) : ends_with suf (a ++ suf) = true.
Proof.
  unfold ends_with. now rewrite rev_string_append, strip_prefix_append.
Qed.

End Text.
Import Text.

(* ================================================================= *)
(** ** JSON values, [json.dump] and [json.load]

    The encoder is CPython's [json.encoder] as [guardar_informe] calls it:
    [ensure_ascii=False] (only the quote, the backslash and the control
    characters below 0x20 are escaped) and [indent=2] (one item per line,
    item separator [","], key separator [": "]).  The decoder is the
    scanner of [json.decoder]/[json.scanner]: strict strings, the number
    grammar, the literals, and nothing but white space after the value.

    A number is kept as the text of its literal.  An object is kept as its
    members in file order; [dict_get] reads the last member of a key, which
    is what the [dict] built by [json.load] answers. *)

Module Json.

#[warnings="-register-all"]
Inductive json : Type :=
| JNull
| JBool (b : bool)
| JNum (lit : string)
| JStr (s : string)
| JArr (l : list json)
| JObj (m : list (string * json)).

(** Induction over [json] that reaches the values held in arrays and
    objects. *)
Section JsonInd.
Variable P : json -> Prop.
Hypothesis HNull : P JNull.
Hypothesis HBool : forall b, P (JBool b).
Hypothesis HNum : forall lit, P (JNum lit).
Hypothesis HStr : forall s, P (JStr s).
Hypothesis HArr : forall l, Forall P l -> P (JArr l).
Hypothesis HObj : forall m, Forall (fun kv => P (snd kv)) m -> P (JObj m).

Fixpoint json_nested_ind (v : json) : P v :=
  match v with
  | JNull => HNull
  | JBool b => HBool b
  | JNum lit => HNum lit
  | JStr s => HStr s
  | JArr l =>
      HArr l ((fix go (l : list json) : Forall P l :=
                 match l with
                 | [] => Forall_nil P
                 | x :: xs => Forall_cons x (json_nested_ind x) (go xs)
                 end) l)
  | JObj m =>
      HObj m ((fix go (m : list (string * json))
                 : Forall (fun kv => P (snd kv)) m :=
                 match m with
                 | [] => Forall_nil _
                 | kv :: xs =>
                     Forall_cons kv (json_nested_ind (snd kv)) (go xs)
                 end) m)
  end.
End JsonInd.

(** *** Encoder *)

Definition hex_digit (n : N) : ascii :=
  ascii_of_N (if (n <? 10)%N then 48 + n else 87 + n).

(** [ESCAPE_DCT] of [json.encoder]. *)
Definition escape_char (c : ascii) : string :=
  let n := N_of_ascii c in
  if (c =? dquote)%char then String bslash (str1 dquote)
  else if (c =? bslash)%char then String bslash (str1 bslash)
  else if (n =? 8)%N then String bslash "b"
  else if (n =? 12)%N then String bslash "f"
  else if (n =? 10)%N then String bslash "n"
  else if (n =? 13)%N then String bslash "r"
  else if (n =? 9)%N then String bslash "t"
  else if (n <? 32)%N then
    String bslash
      (String "u" (String "0" (String "0"
         (String (hex_digit (n / 16)) (str1 (hex_digit (n mod 16)))))))
  else str1 c.

Fixpoint escape (s : string) : string :=
  match s with
  | EmptyString => ""
  | String c r => escape_char c ++ escape r
  end.

(** [encode_basestring]. *)
Definition encode_basestring (s : string) : string :=
  String dquote (escape s ++ str1 dquote).

Fixpoint spaces (n : nat) : string :=
  match n with
  | 0 => ""
  | S k => String " " (spaces k)
  end.

(** ["\n" + _indent * _current_indent_level], with [indent=2]. *)
Definition newline_indent (lvl : nat) : string :=
  String newline (spaces (2 * lvl)).

Definition item_sep (lvl : nat) : string := "," ++ newline_indent lvl.

(** [_iterencode] at a given indent level. *)
Fixpoint iterencode (lvl : nat) (v : json) : string :=
  match v with
  | JNull => "null"
  | JBool b => if b then "true" else "false"
  | JNum lit => lit
  | JStr s => encode_basestring s
  | JArr l =>
      match l with
      | [] => "[]"
      | _ :: _ =>
          "[" ++ newline_indent (S lvl)
              ++ join (item_sep (S lvl)) (map (iterencode (S lvl)) l)
              ++ newline_indent lvl ++ "]"
      end
  | JObj m =>
      match m with
      | [] => "{}"
      | _ :: _ =>
          "{" ++ newline_indent (S lvl)
              ++ join (item_sep (S lvl))
                   (map (fun kv => encode_basestring (fst kv) ++ ": "
                                     ++ iterencode (S lvl) (snd kv)) m)
              ++ newline_indent lvl ++ "}"
      end
  end.

(** [json.dumps(v, ensure_ascii=False, indent=2)]: the text [json.dump]
    writes. *)
Definition json_dump (v : json) : string := iterencode 0 v.

(** *** Decoder *)

Definition is_ws (c : ascii) : bool :=
  (c =? " ")%char || (c =? "009")%char || (c =? "010")%char
  || (c =? "013")%char.

Fixpoint skip_ws (s : string) : string :=
  match s with
  | EmptyString => ""
  | String c r => if is_ws c then skip_ws r else s
  end.

Definition hex_val (c : ascii) : option N :=
  let n := N_of_ascii c in
  if ((48 <=? n) && (n <=? 57))%N then Some (n - 48)%N
  else if ((97 <=? n) && (n <=? 102))%N then Some (n - 87)%N
  else if ((65 <=? n) && (n <=? 70))%N then Some (n - 55)%N
  else None.

Definition hex4 (a b c d : ascii) : option N :=
  match hex_val a, hex_val b, hex_val c, hex_val d with
  | Some x, Some y, Some z, Some w => Some (((x * 16 + y) * 16 + z) * 16 + w)%N
  | _, _, _, _ => None
  end.

(** The UTF-8 code units of a code point (a lone surrogate is written as
    its three-unit form). *)
Definition utf8 (cp : N) : string :=
  if (cp <? 128)%N then str1 (ascii_of_N cp)
  else if (cp <? 2048)%N then
    String (ascii_of_N (192 + cp / 64)) (str1 (ascii_of_N (128 + cp mod 64)))
  else if (cp <? 65536)%N then
    String (ascii_of_N (224 + cp / 4096))
      (String (ascii_of_N (128 + (cp / 64) mod 64))
         (str1 (ascii_of_N (128 + cp mod 64))))
  else
    String (ascii_of_N (240 + cp / 262144))
      (String (ascii_of_N (128 + (cp / 4096) mod 64))
         (String (ascii_of_N (128 + (cp / 64) mod 64))
            (str1 (ascii_of_N (128 + cp mod 64))))).

Definition is_high (cp : N) : bool := ((55296 <=? cp) && (cp <=? 56319))%N.
Definition is_low (cp : N) : bool := ((56320 <=? cp) && (cp <=? 57343))%N.
Definition join_surrogates (hi lo : N) : N :=
  (65536 + ((hi - 55296) * 1024 + (lo - 56320)))%N.

(** [BACKSLASH] of [json.decoder]. *)
Definition unescape (e : ascii) : option ascii :=
  if (e =? dquote)%char then Some dquote
  else if (e =? bslash)%char then Some bslash
  else if (e =? "/")%char then Some "/"%char
  else if (e =? "b")%char then Some "008"%char
  else if (e =? "f")%char then Some "012"%char
  else if (e =? "n")%char then Some "010"%char
  else if (e =? "r")%char then Some "013"%char
  else if (e =? "t")%char then Some "009"%char
  else None.

Definition prepend (p : string) (o : option (string * string))
  : option (string * string) :=
  match o with
  | Some (t, r) => Some (p ++ t, r)
  | None => None
  end.

(** [scanstring], entered after the opening quote: the decoded string and
    what follows the closing quote. *)
Fixpoint scanstring (s : string) : option (string * string) :=
  match s with
  | EmptyString => None
  | String c r =>
    if (c =? dquote)%char then Some ("", r)
    else if (c =? bslash)%char then
      match r with
      | EmptyString => None
      | String e r1 =>
        if (e =? "u")%char then
          match r1 with
          | String h1 (String h2 (String h3 (String h4 r2))) =>
            match hex4 h1 h2 h3 h4 with
            | None => None
            | Some hi =>
              if is_high hi then
                match r2 with
                | String b (String u r3) =>
                  if ((b =? bslash) && (u =? "u"))%char then
                    match r3 with
                    | String l1 (String l2 (String l3 (String l4 r4))) =>
                      match hex4 l1 l2 l3 l4 with
                      | None => None
                      | Some lo =>
                        if is_low lo
                        then prepend (utf8 (join_surrogates hi lo))
                                     (scanstring r4)
                        else prepend (utf8 hi) (scanstring r2)
                      end
                    | _ => None
                    end
                  else prepend (utf8 hi) (scanstring r2)
                | _ => prepend (utf8 hi) (scanstring r2)
                end
              else prepend (utf8 hi) (scanstring r2)
            end
          | _ => None
          end
        else
          match unescape e with
          | Some ch => prepend (str1 ch) (scanstring r1)
          | None => None
          end
      end
    else if (N_of_ascii c <? 32)%N then None
    else prepend (str1 c) (scanstring r)
  end.

Definition is_digit (c : ascii) : bool :=
  ((48 <=? N_of_ascii c) && (N_of_ascii c <=? 57))%N.

(** The longest run of digits at the head of [s], and the rest. *)
Fixpoint span_digits (s : string) : string * string :=
  match s with
  | EmptyString => ("", "")
  | String c r =>
      if is_digit c
      then let (ds, r') := span_digits r in (String c ds, r')
      else ("", s)
  end.

(** [(\.\d+)?] *)
Definition match_frac (s : string) : string * string :=
  match s with
  | String "." r =>
      match span_digits r with
      | (EmptyString, _) => ("", s)
      | (ds, r') => (String "." ds, r')
      end
  | _ => ("", s)
  end.

(** [([eE][-+]?\d+)?] *)
Definition match_exp (s : string) : string * string :=
  match s with
  | String e r =>
      if ((e =? "e") || (e =? "E"))%char then
        let (sign, r0) :=
          match r with
          | String g r' =>
              if ((g =? "+") || (g =? "-"))%char then (str1 g, r') else ("", r)
          | EmptyString => ("", r)
          end in
        match span_digits r0 with
        | (EmptyString, _) => ("", s)
        | (ds, r') => (String e (sign ++ ds), r')
        end
      else ("", s)
  | EmptyString => ("", s)
  end.

(** [NUMBER_RE]: an optional minus sign, then [0] or a digit run that does
    not start with [0], then an optional fraction and an optional exponent. *)
Definition match_number (s : string) : option (string * string) :=
  let (sign, s1) :=
    match s with
    | String "-" r => ("-", r)
    | _ => ("", s)
    end in
  match s1 with
  | EmptyString => None
  | String c r =>
      if (c =? "0")%char then
        let (fr, r1) := match_frac r in
        let (ex, r2) := match_exp r1 in
        Some (sign ++ "0" ++ fr ++ ex, r2)
      else if is_digit c then
        let (ds, r0) := span_digits r in
        let (fr, r1) := match_frac r0 in
        let (ex, r2) := match_exp r1 in
        Some (sign ++ String c ds ++ fr ++ ex, r2)
      else None
  end.

(** A value that is neither a string, an array nor an object. *)
Definition scan_atom (s : string) : option (json * string) :=
  match strip_prefix "null" s with
  | Some r => Some (JNull, r)
  | None =>
  match strip_prefix "true" s with
  | Some r => Some (JBool true, r)
  | None =>
  match strip_prefix "false" s with
  | Some r => Some (JBool false, r)
  | None =>
  match match_number s with
  | Some (lit, r) => Some (JNum lit, r)
  | None =>
  match strip_prefix "NaN" s with
  | Some r => Some (JNum "NaN", r)
  | None =>
  match strip_prefix "Infinity" s with
  | Some r => Some (JNum "Infinity", r)
  | None =>
  match strip_prefix "-Infinity" s with
  | Some r => Some (JNum "-Infinity", r)
  | None => None
  end end end end end end end.

(** The text after the character [c], when [s] starts with it. *)
Definition expect (c : ascii) (s : string) : option string :=
  match s with
  | EmptyString => None
  | String c' r => if (c' =? c)%char then Some r else None
  end.

(** [scan_once], [JSONArray] and [JSONObject].  [fuel] bounds the nesting
    of calls; every call that descends has consumed a character. *)
Fixpoint scan_once (fuel : nat) (s : string) {struct fuel}
  : option (json * string) :=
  match fuel with
  | 0 => None
  | S n =>
    match s with
    | EmptyString => None
    | String c r =>
      if (c =? dquote)%char then
        match scanstring r with
        | Some (t, r') => Some (JStr t, r')
        | None => None
        end
      else if (c =? "{")%char then
        match expect "}" (skip_ws r) with
        | Some r' => Some (JObj [], r')
        | None =>
            match scan_members n (skip_ws r) with
            | Some (m, r') => Some (JObj m, r')
            | None => None
            end
        end
      else if (c =? "[")%char then
        match expect "]" (skip_ws r) with
        | Some r' => Some (JArr [], r')
        | None =>
            match scan_items n (skip_ws r) with
            | Some (l, r') => Some (JArr l, r')
            | None => None
            end
        end
      else scan_atom s
    end
  end

(** The items of a non-empty array, from the first character of an item to
    the closing bracket. *)
with scan_items (fuel : nat) (s : string) {struct fuel}
  : option (list json * string) :=
  match fuel with
  | 0 => None
  | S n =>
    match scan_once n s with
    | None => None
    | Some (v, r) =>
      match expect "]" (skip_ws r) with
      | Some r' => Some ([v], r')
      | None =>
        match expect "," (skip_ws r) with
        | Some r' =>
            match scan_items n (skip_ws r') with
            | Some (l, r'') => Some (v :: l, r'')
            | None => None
            end
        | None => None
        end
      end
    end
  end

(** The members of a non-empty object, from the opening quote of a key to
    the closing brace. *)
with scan_members (fuel : nat) (s : string) {struct fuel}
  : option (list (string * json) * string) :=
  match fuel with
  | 0 => None
  | S n =>
    match expect dquote s with
    | None => None
    | Some r =>
      match scanstring r with
      | None => None
      | Some (k, r1) =>
        match expect ":" (skip_ws r1) with
        | None => None
        | Some r2 =>
          match scan_once n (skip_ws r2) with
          | None => None
          | Some (v, r3) =>
            match expect "}" (skip_ws r3) with
            | Some r' => Some ([(k, v)], r')
            | None =>
              match expect "," (skip_ws r3) with
              | Some r' =>
                  match scan_members n (skip_ws r') with
                  | Some (m, r'') => Some ((k, v) :: m, r'')
                  | None => None
                  end
              | None => None
              end
            end
          end
        end
      end
    end
  end.

(** [json.loads]: white space, one value, white space, end of text. *)
Definition json_load (s : string) : option json :=
  match scan_once (S (String.length s)) (skip_ws s) with
  | Some (v, r) =>
      match skip_ws r with
      | EmptyString => Some v
      | String _ _ => None
      end
  | None => None
  end.

(** [d.get(k, default)] on the dictionary of a decoded object. *)
Fixpoint dict_get (k : string) (m : list (string * json)) (default : json)
  : json :=
  match m with
  | [] => default
  | (k', v) :: m' => dict_get k m' (if (k' =? k)%string then v else default)
  end.


(** *** The decoder reads back what the encoder writes *)

Lemma scan_escape_char (c : ascii) (r : string) :
  scanstring (escape_char c ++ r) = prepend (str1 c) (scanstring r).
Proof.
  destruct c as [[] [] [] [] [] [] [] []]; reflexivity.
Qed.

Lemma scanstring_escape (s rest : string) :
  scanstring (escape s ++ String dquote rest) = Some (s, rest).
Proof.
  induction s as [|c s IH]; simpl escape.
  - reflexivity.
  - rewrite append_assoc, scan_escape_char, IH. reflexivity.
Qed.

Lemma scanstring_encode (s rest : string) :
  exists r, encode_basestring s ++ rest = String dquote r
            /\ scanstring r = Some (s, rest).
Proof.
  exists (escape s ++ String dquote rest). split.
  - unfold encode_basestring, str1. simpl. now rewrite append_assoc.
  - apply scanstring_escape.
Qed.

Fixpoint no_num (v : json) : bool :=
  match v with
  | JNum _ => false
  | JArr l => forallb no_num l
  | JObj m => forallb (fun kv => no_num (snd kv)) m
  | _ => true
  end.

Fixpoint jsize (v : json) : nat :=
  match v with
  | JArr l => S (list_sum (map (fun x => S (jsize x)) l))
  | JObj m => S (list_sum (map (fun kv => S (jsize (snd kv))) m))
  | _ => 1
  end.

Definition value_start (c : ascii) : bool :=
  negb (is_ws c) && negb (c =? "]")%char && negb (c =? "}")%char
  && negb (c =? ",")%char.

Lemma skip_ws_spaces (n : nat) (r : string) : skip_ws (spaces n ++ r) = skip_ws r.
Proof. induction n as [|n IH]; simpl; [reflexivity | exact IH]. Qed.

Lemma skip_ws_newline_indent (lvl : nat) (r : string) :
  skip_ws (newline_indent lvl ++ r) = skip_ws r.
Proof. unfold newline_indent. cbn [append skip_ws]. cbn. apply skip_ws_spaces. Qed.

Lemma skip_ws_start (c : ascii) (r : string) :
  is_ws c = false -> skip_ws (String c r) = String c r.
Proof. intros H. simpl. now rewrite H. Qed.

Lemma value_start_ws c : value_start c = true -> is_ws c = false.
Proof.
  unfold value_start. intros H.
  repeat (apply andb_prop in H; destruct H as [H ?]).
  now apply negb_true_iff.
Qed.

Lemma expect_same c r : expect c (String c r) = Some r.
Proof. simpl. now rewrite Ascii.eqb_refl. Qed.

Lemma expect_other c d r : (d =? c)%char = false -> expect c (String d r) = None.
Proof. intros H; simpl; now rewrite H. Qed.

Lemma iterencode_start (lvl : nat) (v : json) :
  no_num v = true ->
  exists c r, iterencode lvl v = String c r /\ value_start c = true.
Proof.
  destruct v as [|b|lit|s|l|m]; simpl; intros H; try discriminate.
  - now exists "n"%char, "ull".
  - destruct b; [now exists "t"%char, "rue" | now exists "f"%char, "alse"].
  - unfold encode_basestring. now eexists _, _.
  - destruct l; [now exists "["%char, "]" | now eexists _, _].
  - destruct m; [now exists "{"%char, "}" | now eexists _, _].
Qed.

Lemma scan_once_S n s :
  scan_once (S n) s =
    match s with
    | EmptyString => None
    | String c r =>
      if (c =? dquote)%char then
        match scanstring r with
        | Some (t, r') => Some (JStr t, r')
        | None => None
        end
      else if (c =? "{")%char then
        match expect "}" (skip_ws r) with
        | Some r' => Some (JObj [], r')
        | None =>
            match scan_members n (skip_ws r) with
            | Some (m, r') => Some (JObj m, r')
            | None => None
            end
        end
      else if (c =? "[")%char then
        match expect "]" (skip_ws r) with
        | Some r' => Some (JArr [], r')
        | None =>
            match scan_items n (skip_ws r) with
            | Some (l, r') => Some (JArr l, r')
            | None => None
            end
        end
      else scan_atom s
    end.
Proof. reflexivity. Qed.

Lemma scan_items_S n s :
  scan_items (S n) s =
    match scan_once n s with
    | None => None
    | Some (v, r) =>
      match expect "]" (skip_ws r) with
      | Some r' => Some ([v], r')
      | None =>
        match expect "," (skip_ws r) with
        | Some r' =>
            match scan_items n (skip_ws r') with
            | Some (l, r'') => Some (v :: l, r'')
            | None => None
            end
        | None => None
        end
      end
    end.
Proof. reflexivity. Qed.

Lemma scan_members_S n s :
  scan_members (S n) s =
    match expect dquote s with
    | None => None
    | Some r =>
      match scanstring r with
      | None => None
      | Some (k, r1) =>
        match expect ":" (skip_ws r1) with
        | None => None
        | Some r2 =>
          match scan_once n (skip_ws r2) with
          | None => None
          | Some (v, r3) =>
            match expect "}" (skip_ws r3) with
            | Some r' => Some ([(k, v)], r')
            | None =>
              match expect "," (skip_ws r3) with
              | Some r' =>
                  match scan_members n (skip_ws r') with
                  | Some (m, r'') => Some ((k, v) :: m, r'')
                  | None => None
                  end
              | None => None
              end
            end
          end
        end
      end
    end.
Proof. reflexivity. Qed.

(** What the round trip says of one value. *)
Definition scans_back (v : json) : Prop :=
  no_num v = true ->
  forall lvl fuel rest, jsize v <= fuel ->
    scan_once fuel (iterencode lvl v ++ rest) = Some (v, rest).

Lemma skip_ws_iterencode lvl v rest :
  no_num v = true ->
  skip_ws (iterencode lvl v ++ rest) = iterencode lvl v ++ rest.
Proof.
  intros H. destruct (iterencode_start lvl v H) as (c & r & E & S).
  rewrite E. simpl append. apply skip_ws_start, value_start_ws, S.
Qed.

Lemma expect_iterencode lvl v rest c :
  no_num v = true -> (c = "]" \/ c = "}" \/ c = ",")%char ->
  expect c (iterencode lvl v ++ rest) = None.
Proof.
  intros H Hc. destruct (iterencode_start lvl v H) as (d & r & E & S).
  rewrite E. simpl append. apply expect_other.
  unfold value_start in S.
  repeat (apply andb_prop in S; destruct S as [S ?]).
  destruct Hc as [-> | [-> | ->]]; now apply negb_true_iff.
Qed.

Lemma skip_ws_item_sep L r : skip_ws (item_sep L ++ r) = item_sep L ++ r.
Proof. reflexivity. Qed.

Lemma expect_item_sep L r :
  expect "," (item_sep L ++ r) = Some (newline_indent L ++ r).
Proof. reflexivity. Qed.

Lemma expect_close_item_sep c L r :
  (c = "]" \/ c = "}")%char -> expect c (item_sep L ++ r) = None.
Proof. intros [-> | ->]; reflexivity. Qed.

Lemma skip_ws_close lvl c rest :
  is_ws c = false ->
  skip_ws (newline_indent lvl ++ String c rest) = String c rest.
Proof. intros H. rewrite skip_ws_newline_indent. now apply skip_ws_start. Qed.

Lemma join_cons2 sep (x y : string) (l : list string) :
  join sep (x :: y :: l) = x ++ sep ++ join sep (y :: l).
Proof. reflexivity. Qed.

Lemma scan_items_join (L lvl : nat) (l : list json) :
  Forall scans_back l -> forallb no_num l = true -> l <> [] ->
  forall fuel rest, list_sum (map (fun x => S (jsize x)) l) <= fuel ->
    scan_items fuel
      (join (item_sep L) (map (iterencode L) l)
         ++ newline_indent lvl ++ String "]" rest)
    = Some (l, rest).
Proof.
  induction l as [|x xs IH]; intros HF Hn Hne fuel rest Hf; [congruence|].
  inversion HF as [|? ? Hx Hxs]; subst.
  simpl in Hn. apply andb_prop in Hn. destruct Hn as [Hnx Hnxs].
  simpl in Hf. destruct fuel as [|n]; [lia|].
  rewrite scan_items_S.
  destruct xs as [|y ys].
  - cbn [map join].
    rewrite (Hx Hnx L n _ ltac:(lia)).
    rewrite skip_ws_close by reflexivity.
    now rewrite expect_same.
  - cbn [map]. rewrite join_cons2, !append_assoc.
    rewrite (Hx Hnx L n _ ltac:(lia)).
    rewrite skip_ws_item_sep, expect_close_item_sep by now left.
    rewrite expect_item_sep, skip_ws_newline_indent.
    assert (Hy : no_num y = true)
      by (simpl in Hnxs; now apply andb_prop in Hnxs).
    specialize (IH Hxs Hnxs ltac:(discriminate) n rest).
    cbn [map] in IH.
    assert (Hs : forall r,
               skip_ws (join (item_sep L)
                          (iterencode L y :: map (iterencode L) ys) ++ r)
               = join (item_sep L)
                   (iterencode L y :: map (iterencode L) ys) ++ r).
    { intros r. destruct (map (iterencode L) ys).
      - cbn [join]. now apply skip_ws_iterencode.
      - rewrite join_cons2, !append_assoc. now apply skip_ws_iterencode. }
    rewrite Hs, IH; [reflexivity|]. simpl in *. lia.
Qed.

Lemma encode_basestring_append (k X : string) :
  encode_basestring k ++ X = String dquote (escape k ++ String dquote X).
Proof. unfold encode_basestring, str1. simpl. now rewrite append_assoc. Qed.

Lemma skip_ws_colon r : skip_ws (": " ++ r) = ": " ++ r.
Proof. reflexivity. Qed.

Lemma expect_colon r : expect ":" (": " ++ r) = Some (" " ++ r).
Proof. reflexivity. Qed.

Lemma skip_ws_space r : skip_ws (" " ++ r) = skip_ws r.
Proof. reflexivity. Qed.

Definition member_text (L : nat) (kv : string * json) : string :=
  encode_basestring (fst kv) ++ ": " ++ iterencode L (snd kv).

Lemma skip_ws_member L kv r : skip_ws (member_text L kv ++ r) = member_text L kv ++ r.
Proof. unfold member_text. now rewrite append_assoc, encode_basestring_append. Qed.

Lemma scan_members_join (L lvl : nat) (m : list (string * json)) :
  Forall (fun kv => scans_back (snd kv)) m ->
  forallb (fun kv => no_num (snd kv)) m = true -> m <> [] ->
  forall fuel rest, list_sum (map (fun kv => S (jsize (snd kv))) m) <= fuel ->
    scan_members fuel
      (join (item_sep L) (map (member_text L) m)
         ++ newline_indent lvl ++ String "}" rest)
    = Some (m, rest).
Proof.
  induction m as [|[k x] xs IH]; intros HF Hn Hne fuel rest Hf; [congruence|].
  inversion HF as [|? ? Hx Hxs]; subst.
  simpl in Hn. apply andb_prop in Hn. destruct Hn as [Hnx Hnxs].
  simpl in Hf, Hx. destruct fuel as [|n]; [lia|].
  rewrite scan_members_S.
  assert (Hone : forall r,
    match expect dquote (member_text L (k, x) ++ r) with
    | None => None
    | Some r0 =>
      match scanstring r0 with
      | None => None
      | Some (k', r1) =>
        match expect ":" (skip_ws r1) with
        | None => None
        | Some r2 =>
          match scan_once n (skip_ws r2) with
          | None => None
          | Some (v, r3) => Some (k', v, r3)
          end
        end
      end
    end = Some (k, x, r)).
  { intros r. unfold member_text. cbn [fst snd].
    rewrite append_assoc, encode_basestring_append, expect_same.
    rewrite scanstring_escape. rewrite append_assoc.
    rewrite skip_ws_colon, expect_colon, skip_ws_space.
    rewrite skip_ws_iterencode by exact Hnx.
    now rewrite (Hx Hnx L n _ ltac:(lia)). }
  destruct xs as [|y ys].
  - cbn [map join].
    remember (newline_indent lvl ++ String "}" rest) as tl eqn:Etl.
    specialize (Hone tl).
    destruct (expect dquote _) as [r0|]; [|discriminate].
    destruct (scanstring r0) as [[k' r1]|]; [|discriminate].
    destruct (expect ":" _) as [r2|]; [|discriminate].
    destruct (scan_once n _) as [[v r3]|]; [|discriminate].
    injection Hone as -> -> ->. subst tl.
    rewrite skip_ws_close by reflexivity.
    now rewrite expect_same.
  - cbn [map]. rewrite join_cons2, !append_assoc.
    remember (item_sep L ++ join (item_sep L)
                 (member_text L y :: map (member_text L) ys)
                 ++ newline_indent lvl ++ String "}" rest) as tl eqn:Etl.
    specialize (Hone tl).
    destruct (expect dquote _) as [r0|]; [|discriminate].
    destruct (scanstring r0) as [[k' r1]|]; [|discriminate].
    destruct (expect ":" _) as [r2|]; [|discriminate].
    destruct (scan_once n _) as [[v r3]|]; [|discriminate].
    injection Hone as -> -> ->. subst tl.
    rewrite skip_ws_item_sep, expect_close_item_sep by now right.
    rewrite expect_item_sep, skip_ws_newline_indent.
    specialize (IH Hxs Hnxs ltac:(discriminate) n rest).
    cbn [map] in IH.
    assert (Hs : forall r,
               skip_ws (join (item_sep L)
                          (member_text L y :: map (member_text L) ys) ++ r)
               = join (item_sep L)
                   (member_text L y :: map (member_text L) ys) ++ r).
    { intros r. destruct (map (member_text L) ys).
      - cbn [join]. apply skip_ws_member.
      - rewrite join_cons2, !append_assoc. apply skip_ws_member. }
    rewrite Hs, IH; [reflexivity|]. simpl in *. lia.
Qed.

Lemma scan_once_iterencode (v : json) : scans_back v.
Proof.
  induction v as [|b|lit|s|l IHl|m IHm] using json_nested_ind;
    intros Hn lvl fuel rest Hf; try discriminate;
    (destruct fuel as [|n]; [simpl in Hf; lia|]).
  - reflexivity.
  - destruct b; reflexivity.
  - cbn [iterencode]. rewrite encode_basestring_append, scan_once_S.
    rewrite Ascii.eqb_refl, scanstring_escape. reflexivity.
  - destruct l as [|x xs]; [reflexivity|].
    cbn [iterencode]. rewrite scan_once_S.
    change ((String "[" EmptyString ++ newline_indent (S lvl)
               ++ join (item_sep (S lvl)) (map (iterencode (S lvl)) (x :: xs))
               ++ newline_indent lvl ++ "]") ++ rest)
      with (String "["%char ((newline_indent (S lvl)
               ++ join (item_sep (S lvl)) (map (iterencode (S lvl)) (x :: xs))
               ++ newline_indent lvl ++ "]") ++ rest)).
    cbv iota. 
    change (("[" =? dquote)%char) with false.
    change (("[" =? "{")%char) with false.
    change (("[" =? "[")%char) with true. cbv iota.
    rewrite !append_assoc, skip_ws_newline_indent.
    assert (Hs : forall r,
               skip_ws (join (item_sep (S lvl))
                          (map (iterencode (S lvl)) (x :: xs)) ++ r)
               = join (item_sep (S lvl))
                   (map (iterencode (S lvl)) (x :: xs)) ++ r
               /\ expect "]" (join (item_sep (S lvl))
                          (map (iterencode (S lvl)) (x :: xs)) ++ r) = None).
    { intros r. simpl in Hn. apply andb_prop in Hn. destruct Hn as [Hx _].
      cbn [map]. destruct (map (iterencode (S lvl)) xs).
      - cbn [join]. split; [now apply skip_ws_iterencode|].
        apply expect_iterencode; auto.
      - rewrite join_cons2, !append_assoc.
        split; [now apply skip_ws_iterencode|].
        apply expect_iterencode; auto. }
    destruct (Hs (newline_indent lvl ++ "]" ++ rest)) as [-> ->].
    change ("]" ++ rest) with (String "]" rest).
    rewrite (scan_items_join (S lvl) lvl (x :: xs) IHl Hn ltac:(discriminate));
      [reflexivity|]. simpl in *. lia.
  - destruct m as [|x xs]; [reflexivity|].
    cbn [iterencode]. rewrite scan_once_S.
    fold (member_text (S lvl)).
    change ((String "{" EmptyString ++ newline_indent (S lvl)
               ++ join (item_sep (S lvl)) (map (member_text (S lvl)) (x :: xs))
               ++ newline_indent lvl ++ "}") ++ rest)
      with (String "{"%char ((newline_indent (S lvl)
               ++ join (item_sep (S lvl)) (map (member_text (S lvl)) (x :: xs))
               ++ newline_indent lvl ++ "}") ++ rest)).
    cbv iota.
    change (("{" =? dquote)%char) with false.
    change (("{" =? "{")%char) with true. cbv iota.
    rewrite !append_assoc, skip_ws_newline_indent.
    assert (Hs : forall r,
               skip_ws (join (item_sep (S lvl))
                          (map (member_text (S lvl)) (x :: xs)) ++ r)
               = join (item_sep (S lvl))
                   (map (member_text (S lvl)) (x :: xs)) ++ r
               /\ expect "}" (join (item_sep (S lvl))
                          (map (member_text (S lvl)) (x :: xs)) ++ r) = None).
    { intros r. cbn [map]. destruct (map (member_text (S lvl)) xs).
      - cbn [join]. split; [apply skip_ws_member|].
        unfold member_text. now rewrite append_assoc, encode_basestring_append.
      - rewrite join_cons2, !append_assoc.
        split; [apply skip_ws_member|].
        unfold member_text. now rewrite append_assoc, encode_basestring_append. }
    destruct (Hs (newline_indent lvl ++ "}" ++ rest)) as [-> ->].
    change ("}" ++ rest) with (String "}" rest).
    rewrite (scan_members_join (S lvl) lvl (x :: xs) IHm Hn ltac:(discriminate));
      [reflexivity|]. simpl in *. lia.
Qed.

Lemma join_length_lower {A : Type} (size : A -> nat) (f : A -> string)
      (sep : string) (l : list A) :
  Forall (fun x => size x <= String.length (f x)) l ->
  1 <= String.length sep ->
  list_sum (map (fun x => S (size x)) l)
  <= S (String.length (join sep (map f l))).
Proof.
  intros HF Hsep. induction HF as [|x xs Hx _ IH]; [simpl; lia|].
  destruct xs as [|y ys].
  - simpl. lia.
  - cbn [map] in *. rewrite join_cons2, !length_append.
    unfold list_sum in *. cbn [fold_right] in *. lia.
Qed.

Lemma newline_indent_length lvl : 1 <= String.length (newline_indent lvl).
Proof. simpl. lia. Qed.

Lemma jsize_length (v : json) :
  no_num v = true -> forall lvl, jsize v <= String.length (iterencode lvl v).
Proof.
  induction v as [|b|lit|s|l IHl|m IHm] using json_nested_ind;
    intros Hn lvl; try discriminate.
  - simpl. lia.
  - destruct b; simpl; lia.
  - simpl. lia.
  - destruct l as [|x xs]; [simpl; lia|].
    cbn [iterencode jsize]. rewrite !length_append.
    assert (H := join_length_lower jsize (iterencode (S lvl))
                   (item_sep (S lvl)) (x :: xs)).
    simpl in Hn.
    assert (HF : Forall (fun x => jsize x <= String.length (iterencode (S lvl) x))
                   (x :: xs)).
    { rewrite Forall_forall in IHl |- *. intros y Hy. apply IHl; [exact Hy|].
      change (forallb no_num (x :: xs) = true) in Hn.
      rewrite forallb_forall in Hn. now apply Hn. }
    specialize (H HF ltac:(simpl; lia)).
    pose proof (newline_indent_length (S lvl)).
    pose proof (newline_indent_length lvl). lia.
  - destruct m as [|x xs]; [simpl; lia|].
    cbn [iterencode jsize]. rewrite !length_append.
    fold (member_text (S lvl)).
    assert (H := join_length_lower (fun kv => jsize (snd kv))
                   (member_text (S lvl)) (item_sep (S lvl)) (x :: xs)).
    assert (HF : Forall (fun kv => jsize (snd kv)
                                   <= String.length (member_text (S lvl) kv))
                   (x :: xs)).
    { rewrite Forall_forall in IHm |- *. intros y Hy.
      unfold member_text. rewrite !length_append.
      cbn [no_num] in Hn. rewrite forallb_forall in Hn.
      specialize (IHm y Hy (Hn y Hy) (S lvl)). lia. }
    specialize (H HF ltac:(simpl; lia)).
    pose proof (newline_indent_length (S lvl)).
    pose proof (newline_indent_length lvl). lia.
Qed.

Theorem json_load_dump (v : json) :
  no_num v = true -> json_load (json_dump v) = Some v.
Proof.
  intros Hn. unfold json_load, json_dump.
  rewrite <- (append_nil_r (iterencode 0 v)) at 2.
  rewrite skip_ws_iterencode by exact Hn.
  rewrite (scan_once_iterencode v Hn 0 _ "").
  - reflexivity.
  - pose proof (jsize_length v Hn 0). lia.
Qed.

End Json.
Import Json.

(* ================================================================= *)
(** ** The report model (the dataclasses and [asdict]) *)

Module Modelo.

Record ChecklistItem : Type := {
  descripcion : string;
  estado : string;
  observacion : string
}.

Record Seccion : Type := {
  titulo : string;
  items : list ChecklistItem;
  observacion_general : string
}.

Record InformeQC : Type := {
  identificador : string;
  modelo : string;
  cliente : string;
  fecha_inspeccion : string;
  fecha_fabricacion : string;
  documento : string;
  secciones : list Seccion;
  creado_en : string
}.

(** [ChecklistItem(d)]: the two other fields take their defaults. *)
Definition item (d : string) : ChecklistItem :=
  {| descripcion := d; estado := ""; observacion := "" |}.

Definition secciones_por_defecto : list Seccion :=
  [ {| titulo := "REVISIONES ELÉCTRICAS";
       items := [ item "Consumo total (0.7A – 0.9A)";
                  item "Revisión de cortocircuitos";
                  item "Revisión visual de conexiones";
                  item "Tensión de alimentación del procesador" ];
       observacion_general := "" |};
    {| titulo := "REVISIONES DE SOFTWARE";
       items := [ item "Conexión WiFi";
                  item "Señal de Apagar con fuente de alimentación";
                  item "Conexión Ethernet";
                  item "Señal de Reinicio con fuente de alimentación";
                  item "Configuración de fecha y hora";
                  item "Lectura CAN";
                  item "Configuración";
                  item "Descarga de datos automática" ];
       observacion_general := "" |};
    {| titulo := "REVISIONES DE HARDWARE";
       items := [ item "Tornillos conector militar 19 pines";
                  item "Temperatura (70 – 80 ºC)";
                  item "Tornillos conector militar 6 pines";
                  item "Revisión visual de la carcasa";
                  item "Tornillos ventilador";
                  item "Funcionamiento del ventilador";
                  item "Tornillos disipador";
                  item "Colocación de las baterías";
                  item "Tornillos carcasa";
                  item "Revisión de soldaduras";
                  item "Tornillo placa relé";
                  item "Revisión de cableado" ];
       observacion_general := "" |} ].

(** [dataclasses.asdict]: a dictionary per dataclass, keys in field order,
    lists kept as lists. *)
Definition asdict_item (it : ChecklistItem) : json :=
  JObj [ ("descripcion", JStr (descripcion it));
         ("estado", JStr (estado it));
         ("observacion", JStr (observacion it)) ].

Definition asdict_seccion (s : Seccion) : json :=
  JObj [ ("titulo", JStr (titulo s));
         ("items", JArr (map asdict_item (items s)));
         ("observacion_general", JStr (observacion_general s)) ].

Definition asdict (informe : InformeQC) : json :=
  JObj [ ("identificador", JStr (identificador informe));
         ("modelo", JStr (modelo informe));
         ("cliente", JStr (cliente informe));
         ("fecha_inspeccion", JStr (fecha_inspeccion informe));
         ("fecha_fabricacion", JStr (fecha_fabricacion informe));
         ("documento", JStr (documento informe));
         ("secciones", JArr (map asdict_seccion (secciones informe)));
         ("creado_en", JStr (creado_en informe)) ].

(** [str.isspace] on the characters of one code unit: the controls 9 to
    13 and 28 to 31, and the space. *)
Definition isspace (c : ascii) : bool :=
  let n := N_of_ascii c in
  (((9 <=? n) && (n <=? 13)) || ((28 <=? n) && (n <=? 32)))%N.

(** The code unit [c] is the number [n]. *)
Definition es (n : N) (c : ascii) : bool := (N_of_ascii c =? n)%N.

(** The two code units of U+0085 or of U+00A0. *)
Definition espacio2 (a b : ascii) : bool :=
  es 194 a && (es 133 b || es 160 b).

(** The three code units of U+1680, of U+2000 to U+200A, of U+2028, U+2029
    or U+202F, of U+205F, or of U+3000.  With those of [isspace] and
    [espacio2] these are the characters [str.strip] removes. *)
Definition espacio3 (a b c : ascii) : bool :=
  (es 225 a && es 154 b && es 128 c)
  || (es 226 a && es 128 b
      && (((128 <=? N_of_ascii c) && (N_of_ascii c <=? 138))%N
          || es 168 c || es 169 c || es 175 c))
  || (es 226 a && es 129 b && es 159 c)
  || (es 227 a && es 128 b && es 128 c).

(** [s] without the white-space character it starts with, if it starts
    with one. *)
Definition quita_espacio (s : string) : option string :=
  match s with
  | EmptyString => None
  | String a r =>
      if isspace a then Some r
      else
        match r with
        | EmptyString => None
        | String b r1 =>
            if espacio2 a b then Some r1
            else
              match r1 with
              | EmptyString => None
              | String c r2 => if espacio3 a b c then Some r2 else None
              end
        end
  end.

(** The same on a reversed text, which starts with the last code unit. *)
Definition quita_espacio_rev (s : string) : option string :=
  match s with
  | EmptyString => None
  | String c r =>
      if isspace c then Some r
      else
        match r with
        | EmptyString => None
        | String b r1 =>
            if espacio2 b c then Some r1
            else
              match r1 with
              | EmptyString => None
              | String a r2 => if espacio3 a b c then Some r2 else None
              end
        end
  end.

(** The loop of [lstrip] and [rstrip]: characters are removed while [q]
    finds one, at most [n] times. *)
Fixpoint quitar (q : string -> option string) (n : nat) (s : string)
  : string :=
  match n with
  | O => s
  | S n' =>
      match q s with
      | Some r => quitar q n' r
      | None => s
      end
  end.

Definition lstrip (s : string) : string :=
  quitar quita_espacio (String.length s) s.

Definition rstrip (s : string) : string :=
  rev_string ""
    (quitar quita_espacio_rev (String.length s) (rev_string "" s)).

(** [str.strip]. *)
Definition strip (s : string) : string := rstrip (lstrip s).

(** Truth value of a [str]. *)
Definition truthy (s : string) : bool :=
  match s with
  | EmptyString => false
  | String _ _ => true
  end.

(** [x or "-"]. *)
Definition or_dash (x : string) : string := if truthy x then x else "-".

(** The flowables [construir_pdf] hands to ReportLab. *)
Inductive flowable : Type :=
| Paragraph (text : string) (style : string)
| Spacer (width height : nat)
| Table (data : list (list string)) (colWidths : list nat)
        (background : string) (valign : string).

Definition fila_item (it : ChecklistItem) : list string :=
  [descripcion it; or_dash (estado it); or_dash (observacion it)].

Definition contenido_seccion (seccion : Seccion) : list flowable :=
  [ Paragraph (titulo seccion) "Heading2";
    Table (["Descripción"; "Estado"; "Observación"]
             :: map fila_item (items seccion))
          [260; 70; 220] "lightgrey" "TOP" ]
  ++ (if truthy (strip (observacion_general seccion))
      then [ Spacer 1 6;
             Paragraph ("Observaciones: " ++ observacion_general seccion)
                       "Normal" ]
      else [])
  ++ [ Spacer 1 12 ].

(** The list [contenido] that [construir_pdf] builds before [doc.build]. *)
Definition contenido (informe : InformeQC) : list flowable :=
  [ Paragraph ("Informe de Control de Calidad — " ++ identificador informe)
              "Title";
    Spacer 1 8;
    Table [ ["N.º Identificador"; identificador informe;
             "Fecha de inspección"; fecha_inspeccion informe];
            ["Modelo"; modelo informe;
             "Fecha de fabricación"; fecha_fabricacion informe];
            ["Cliente"; cliente informe;
             "N.º de documento"; documento informe];
            ["Creado en"; creado_en informe; ""; ""] ]
          [110; 180; 140; 120] "whitesmoke" "MIDDLE";
    Spacer 1 12 ]
  ++ flat_map contenido_seccion (secciones informe).

(** *** Facts about [asdict] *)

Lemma map_injective {A B : Type} (f : A -> B) :
  (forall x y, f x = f y -> x = y) ->
  forall l l', map f l = map f l' -> l = l'.
Proof.
  intros Hf l. induction l as [|x l IH]; intros [|y l'] H;
    try discriminate; [reflexivity|].
  simpl in H. injection H as Hxy Hl. f_equal; [now apply Hf | now apply IH].
Qed.

Lemma asdict_item_inj (a b : ChecklistItem) :
  asdict_item a = asdict_item b -> a = b.
Proof.
  destruct a, b. unfold asdict_item. simpl. intros H.
  injection H as -> -> ->. reflexivity.
Qed.

Lemma asdict_seccion_inj (a b : Seccion) :
  asdict_seccion a = asdict_seccion b -> a = b.
Proof.
  destruct a, b. unfold asdict_seccion. simpl. intros H.
  injection H as -> Hitems ->.
  apply (map_injective _ asdict_item_inj) in Hitems. now subst.
Qed.

Lemma asdict_inj (a b : InformeQC) : asdict a = asdict b -> a = b.
Proof.
  destruct a, b. unfold asdict. simpl. intros H.
  injection H as -> -> -> -> -> -> Hs ->.
  apply (map_injective _ asdict_seccion_inj) in Hs. now subst.
Qed.

Lemma no_num_asdict (informe : InformeQC) : no_num (asdict informe) = true.
Proof.
  unfold asdict. cbn [no_num forallb snd andb].
  rewrite andb_true_r. apply forallb_forall. intros v Hv.
  apply in_map_iff in Hv. destruct Hv as (s & <- & _).
  unfold asdict_seccion. cbn [no_num forallb snd andb].
  rewrite andb_true_r. apply forallb_forall. intros w Hw.
  apply in_map_iff in Hw. destruct Hw as (it & <- & _). reflexivity.
Qed.

Lemma json_load_dump_asdict (informe : InformeQC) :
  json_load (json_dump (asdict informe)) = Some (asdict informe).
Proof. apply json_load_dump, no_num_asdict. Qed.

End Modelo.
Import Modelo.

(* ================================================================= *)
(** ** Paths ([pathlib.PurePosixPath])

    A path is the list of its components below the root [/]; every path
    of the program is absolute ([REPORTS_DIR] and the save folder are
    passed through [resolve()]).  Components [..] are kept by [pathlib]
    and resolved by the file system. *)

Module Pathlib.

Definition path : Type := list string.

(** [s.split("/")]. *)
Fixpoint split_slash (s : string) : list string :=
  match s with
  | EmptyString => [""]
  | String c r =>
      if (c =? "/")%char then "" :: split_slash r
      else match split_slash r with
           | h :: t => String c h :: t
           | [] => [str1 c]
           end
  end.

(** Empty components and [.] are dropped when a path is parsed. *)
Definition keep_part (c : string) : bool :=
  negb (c =? "")%string && negb (c =? ".")%string.

Definition parts (s : string) : list string :=
  filter keep_part (split_slash s).

Definition is_absolute (s : string) : bool :=
  match s with
  | EmptyString => false
  | String c _ => (c =? "/")%char
  end.

(** [base / s]: an absolute right operand replaces the left one. *)
Definition joinpath (base : path) (s : string) : path :=
  if is_absolute s then parts s else (base ++ parts s)%list.

(** [str(p)]. *)
Definition str (p : path) : string := "/" ++ join "/" p.

(** [p.parent]. *)
Definition parent (p : path) : path := removelast p.

(** Index of the last dot of [s], counting from [i] ([str.rfind]). *)
Fixpoint rfind_dot (s : string) (i : nat) : option nat :=
  match s with
  | EmptyString => None
  | String c r =>
      match rfind_dot r (S i) with
      | Some j => Some j
      | None => if (c =? ".")%char then Some i else None
      end
  end.

(** [PurePath.suffix] of a final component (CPython 3.12): what starts at
    the last dot, unless that dot is the first or the last character. *)
Definition suffix (name : string) : string :=
  match rfind_dot name 0 with
  | Some i =>
      if ((0 <? i) && (i <? String.length name - 1))%nat
      then substring i (String.length name - i) name
      else ""
  | None => ""
  end.

(** The final component after [with_suffix(suf)]. *)
Definition with_suffix_name (name suf : string) : string :=
  match suffix name with
  | EmptyString => name ++ suf
  | String _ _ as old =>
      substring 0 (String.length name - String.length old) name ++ suf
  end.

(** [p.with_suffix(suf)]; [None] is the [ValueError] for a path with no
    name. *)
Definition with_suffix (p : path) (suf : string) : option path :=
  match rev p with
  | [] => None
  | n :: rp => Some (rev rp ++ [with_suffix_name n suf])%list
  end.

End Pathlib.
Import Pathlib.

(* ================================================================= *)
(** ** The file system

    A tree of directories and regular files below the root directory.
    There are no links and no permissions; a file holds text (what
    [open(..., encoding="utf-8")] reads or writes).  Path resolution walks
    the components from the root as the operating system does: every
    component but the last must be an existing directory, and [..] moves to
    the parent of the directory reached so far. *)

Module Fs.

#[warnings="-register-all"]
Inductive node : Type :=
| File (content : string)
| Dir (entries : list (string * node)).

(** The disk: the entries of the root directory. *)
Definition disco : Type := list (string * node).

(** The exceptions the program can meet. *)
Inductive exn : Type :=
| FileNotFoundError
| FileExistsError
| NotADirectoryError
| IsADirectoryError
| BuildError        (* raised inside [doc.build] *)
| AttributeError.   (* [None] has no attribute [identificador] *)

Inductive result (A : Type) : Type :=
| Ok (a : A)
| Err (e : exn).
Arguments Ok {A} a.
Arguments Err {A} e.

Fixpoint find (name : string) (es : list (string * node)) : option node :=
  match es with
  | [] => None
  | (k, n) :: es' => if (k =? name)%string then Some n else find name es'
  end.

(** The node a path without [..] names, below the node [n]. *)
Fixpoint lookup (n : node) (p : path) : option node :=
  match p with
  | [] => Some n
  | c :: p' =>
      match n with
      | File _ => None
      | Dir es =>
          match find c es with
          | Some child => lookup child p'
          | None => None
          end
      end
  end.

(** What [os.stat] tells of a node: a file with its text, or a directory. *)
Inductive entry : Type :=
| IsFile (content : string)
| IsDir.

Definition stat (d : disco) (p : path) : option entry :=
  match lookup (Dir d) p with
  | Some (File c) => Some (IsFile c)
  | Some (Dir _) => Some IsDir
  | None => None
  end.

(** Resolution of a directory path from the directory [cur]. *)
Fixpoint walk (d : disco) (cur : path) (comps : path) : result path :=
  match comps with
  | [] => Ok cur
  | c :: rest =>
      if (c =? "..")%string then walk d (removelast cur) rest
      else
        match stat d (cur ++ [c])%list with
        | Some IsDir => walk d (cur ++ [c])%list rest
        | Some (IsFile _) => Err NotADirectoryError
        | None => Err FileNotFoundError
        end
  end.

(** A path cut into its directory part and its final component. *)
Definition split_last (p : path) : option (path * string) :=
  match rev p with
  | [] => None
  | n :: rp => Some (rev rp, n)
  end.

(** The resolved path of a file named by [p]: its directory must exist;
    [None] when [p] names the root or ends in [..] (a directory). *)
Definition resolve_file (d : disco) (p : path) : result (option path) :=
  match split_last p with
  | None => Ok None
  | Some (dir, name) =>
      match walk d [] dir with
      | Err e => Err e
      | Ok cur =>
          if (name =? "..")%string then Ok None
          else Ok (Some (cur ++ [name])%list)
      end
  end.

Fixpoint set_entry (name : string) (new : node) (es : list (string * node))
  : list (string * node) :=
  match es with
  | [] => [(name, new)]
  | (k, n) :: es' =>
      if (k =? name)%string then (name, new) :: es'
      else (k, n) :: set_entry name new es'
  end.

(** The entries [es] with [new] at the resolved path [q], whose parent
    exists: the entry is replaced, or added at the end. *)
Fixpoint update (q : path) (new : node) (es : list (string * node))
  : list (string * node) :=
  match q with
  | [] => es
  | c :: q' =>
      match q' with
      | [] => set_entry c new es
      | _ :: _ =>
          match find c es with
          | Some (Dir sub) => set_entry c (Dir (update q' new sub)) es
          | _ => es
          end
      end
  end.

(** [os.mkdir(p)]. *)
Definition os_mkdir (d : disco) (p : path) : result disco :=
  match resolve_file d p with
  | Err e => Err e
  | Ok None => Err FileExistsError
  | Ok (Some q) =>
      match stat d q with
      | Some _ => Err FileExistsError
      | None => Ok (update q (Dir []) d)
      end
  end.

(** [p.is_dir()]. *)
Definition is_dir (d : disco) (p : path) : bool :=
  match walk d [] p with
  | Ok _ => true
  | Err _ => false
  end.

(** [Path.mkdir(parents=True, exist_ok=True)], on the reversed path: the
    recursion of [pathlib] is on [self.parent].  The result holds the
    exception raised, if any, and the disk reached (parents created before
    a failure stay). *)
Fixpoint mkdir_rev (d : disco) (rp : list string) : option exn * disco :=
  match os_mkdir d (rev rp) with
  | Ok d' => (None, d')
  | Err FileNotFoundError =>
      match rp with
      | [] => (Some FileNotFoundError, d)
      | _ :: rparent =>
          match mkdir_rev d rparent with
          | (Some e, d1) => (Some e, d1)
          | (None, d1) =>
              match os_mkdir d1 (rev rp) with
              | Ok d2 => (None, d2)
              | Err FileNotFoundError => (Some FileNotFoundError, d1)
              | Err e =>
                  if is_dir d1 (rev rp) then (None, d1) else (Some e, d1)
              end
          end
      end
  | Err e => if is_dir d (rev rp) then (None, d) else (Some e, d)
  end.

Definition mkdir_parents (d : disco) (p : path) : option exn * disco :=
  mkdir_rev d (rev p).

(** [open(p, "w")] followed by the write of [content] and the close. *)
Definition write_file (d : disco) (p : path) (content : string)
  : result disco :=
  match resolve_file d p with
  | Err e => Err e
  | Ok None => Err IsADirectoryError
  | Ok (Some q) =>
      match stat d q with
      | Some IsDir => Err IsADirectoryError
      | _ => Ok (update q (File content) d)
      end
  end.

(** [open(p)] followed by [read()]. *)
Definition read_file (d : disco) (p : path) : result string :=
  match resolve_file d p with
  | Err e => Err e
  | Ok None => Err IsADirectoryError
  | Ok (Some q) =>
      match stat d q with
      | Some IsDir => Err IsADirectoryError
      | Some (IsFile c) => Ok c
      | None => Err FileNotFoundError
      end
  end.

End Fs.
Import Fs.

(** *** Facts about the file system *)

Module FsFacts.
Local Open Scope list_scope.

Lemma find_set_entry_same (c : string) (new : node) (es : list (string * node)) :
  find c (set_entry c new es) = Some new.
Proof.
  induction es as [|[k n] es IH]; simpl.
  - now rewrite String.eqb_refl.
  - destruct (k =? c)%string eqn:E; simpl.
    + now rewrite String.eqb_refl.
    + now rewrite E.
Qed.

Lemma find_set_entry_other (c d : string) (new : node)
      (es : list (string * node)) :
  c <> d -> find d (set_entry c new es) = find d es.
Proof.
  intros Hcd. induction es as [|[k n] es IH]; simpl.
  - destruct (String.eqb_spec c d); [contradiction | reflexivity].
  - destruct (String.eqb_spec k c) as [->|Hkc]; simpl.
    + destruct (String.eqb_spec c d); [contradiction | reflexivity].
    + now rewrite IH.
Qed.

(** A node with nothing below it. *)
Definition hoja (n : node) : Prop :=
  match n with
  | File _ => True
  | Dir es => es = []
  end.

Lemma lookup_hoja (n : node) (p : path) :
  hoja n -> p <> [] -> lookup n p = None.
Proof.
  destruct p as [|c p]; [congruence|].
  destruct n as [x|es]; simpl; intros H _; [reflexivity | now subst].
Qed.

Lemma lookup_file (x : string) (p : path) :
  p <> [] -> lookup (File x) p = None.
Proof. destruct p; [congruence | reflexivity]. Qed.

Lemma lookup_update_same (D : path) (c : string) (new : node) :
  forall es sub,
    lookup (Dir es) D = Some (Dir sub) ->
    lookup (Dir (update (D ++ [c]) new es)) (D ++ [c]) = Some new.
Proof.
  induction D as [|d D IH]; intros es sub H.
  - simpl. now rewrite find_set_entry_same.
  - simpl in H. destruct (find d es) as [child|] eqn:Hf; [|discriminate].
    assert (Hc : exists sub0, child = Dir sub0).
    { destruct child as [x|sub0]; [|now eexists].
      destruct D; simpl in H; discriminate. }
    destruct Hc as [sub0 ->].
    assert (Hq : exists a l, D ++ [c] = a :: l).
    { destruct D; simpl; now eexists _, _. }
    destruct Hq as (a & l & Hq).
    change ((d :: D) ++ [c]) with (d :: (D ++ [c])).
    cbn [update]. rewrite Hq, Hf, <- Hq.
    cbn [lookup]. rewrite find_set_entry_same.
    now apply (IH sub0 sub).
Qed.

Lemma stat_nil (d : disco) : stat d [] = Some IsDir.
Proof. reflexivity. Qed.

Lemma stat_update_other (q : path) (new : node) :
  hoja new ->
  forall (es : disco) (q' : path),
    q <> q' -> stat es q <> Some IsDir ->
    stat (update q new es) q' = stat es q'.
Proof.
  intros Hnew. induction q as [|c q IH]; intros es q' Hne Hold; [reflexivity|].
  destruct q as [|c2 q2].
  - (* the entry [c] of this directory *)
    cbn [update]. destruct q' as [|d t]; [reflexivity|].
    unfold stat. cbn [lookup].
    destruct (String.eqb_spec c d) as [<-|Hcd].
    + rewrite find_set_entry_same.
      assert (Ht : t <> []) by (intros E; apply Hne; now rewrite E).
      rewrite (lookup_hoja new t Hnew Ht).
      unfold stat in Hold. cbn [lookup] in Hold.
      destruct (find c es) as [[x|sub]|]; [| now elim Hold |reflexivity].
      now rewrite lookup_file.
    + now rewrite find_set_entry_other.
  - cbn [update].
    destruct (find c es) as [[x|sub]|] eqn:Hf; try reflexivity.
    destruct q' as [|d t]; [reflexivity|].
    unfold stat. cbn [lookup].
    destruct (String.eqb_spec c d) as [<-|Hcd].
    + rewrite find_set_entry_same, Hf.
      apply (IH sub t).
      * intros E. apply Hne. now rewrite E.
      * unfold stat in Hold |- *. cbn [lookup] in Hold. now rewrite Hf in Hold.
    + now rewrite find_set_entry_other.
Qed.

Lemma stat_update_same (D : path) (c : string) (new : node) (es : disco) :
  stat es D = Some IsDir ->
  lookup (Dir (update (D ++ [c]) new es)) (D ++ [c]) = Some new.
Proof.
  unfold stat. intros H.
  destruct (lookup (Dir es) D) as [[x|sub]|] eqn:E; try discriminate.
  now apply (lookup_update_same D c new es sub).
Qed.

Lemma app_last_neq {A : Type} (D : list A) (a b : A) :
  a <> b -> D ++ [a] <> D ++ [b].
Proof. intros H E. apply app_inv_head in E. congruence. Qed.

Lemma walk_update (q : path) (new : node) (d : disco) :
  hoja new -> stat d q <> Some IsDir ->
  forall comps cur r,
    walk d cur comps = Ok r -> walk (update q new d) cur comps = Ok r.
Proof.
  intros Hnew Hold. induction comps as [|c rest IH]; intros cur r H.
  - exact H.
  - cbn [walk] in *. destruct (c =? "..")%string; [now apply IH|].
    destruct (stat d (cur ++ [c])) as [[x|]|] eqn:E; try discriminate.
    rewrite stat_update_other; auto.
    + rewrite E. now apply IH.
    + intros ->. now rewrite E in Hold.
Qed.

Lemma walk_app (d : disco) (a b : path) :
  forall cur,
    walk d cur (a ++ b)
    = match walk d cur a with
      | Ok c => walk d c b
      | Err e => Err e
      end.
Proof.
  induction a as [|x a IH]; intros cur; [reflexivity|].
  cbn [app walk]. destruct (x =? "..")%string; [apply IH|].
  destruct (stat d (cur ++ [x])) as [[y|]|]; try reflexivity. apply IH.
Qed.

Lemma lookup_app (n : node) (a b : path) :
  lookup n (a ++ b)
  = match lookup n a with
    | Some m => lookup m b
    | None => None
    end.
Proof.
  revert n. induction a as [|x a IH]; intros n; [reflexivity|].
  cbn [app lookup]. destruct n as [y|es]; [reflexivity|].
  destruct (find x es); [apply IH | reflexivity].
Qed.

Lemma stat_removelast (d : disco) (cur : path) :
  stat d cur = Some IsDir -> stat d (removelast cur) = Some IsDir.
Proof.
  destruct cur as [|x cur] using rev_ind; [trivial|].
  rewrite removelast_last. unfold stat. rewrite lookup_app.
  destruct (lookup (Dir d) cur) as [[y|sub]|]; try discriminate; trivial.
Qed.

Lemma walk_dir (d : disco) :
  forall comps cur r,
    stat d cur = Some IsDir -> walk d cur comps = Ok r ->
    stat d r = Some IsDir.
Proof.
  induction comps as [|c rest IH]; intros cur r Hc H.
  - injection H as <-. exact Hc.
  - cbn [walk] in H. destruct (c =? "..")%string.
    + apply (IH (removelast cur)); [now apply stat_removelast | exact H].
    + destruct (stat d (cur ++ [c])) as [[x|]|] eqn:E; try discriminate.
      now apply (IH (cur ++ [c])).
Qed.

Lemma split_last_app (D : path) (c : string) :
  split_last (D ++ [c]) = Some (D, c).
Proof. unfold split_last. now rewrite rev_unit, rev_involutive. Qed.

Lemma resolve_file_inv (d : disco) (p q : path) :
  resolve_file d p = Ok (Some q) ->
  exists D c cur,
    p = D ++ [c] /\ q = cur ++ [c] /\ c <> ".."
    /\ walk d [] D = Ok cur /\ stat d cur = Some IsDir.
Proof.
  unfold resolve_file, split_last.
  destruct (rev p) as [|c rp] eqn:E; [discriminate|].
  destruct (walk d [] (rev rp)) as [cur|e] eqn:W; [|discriminate].
  destruct (String.eqb_spec c ".."); [discriminate|].
  intros H. injection H as <-.
  exists (rev rp), c, cur. repeat split; auto.
  - rewrite <- (rev_involutive p), E. reflexivity.
  - now apply (walk_dir d (rev rp) []).
Qed.

Lemma resolve_file_update (q : path) (new : node) (d : disco) (p : path)
      (r : option path) :
  hoja new -> stat d q <> Some IsDir ->
  resolve_file d p = Ok r -> resolve_file (update q new d) p = Ok r.
Proof.
  intros Hnew Hold. unfold resolve_file.
  destruct (split_last p) as [[D c]|]; [|trivial].
  destruct (walk d [] D) as [cur|e] eqn:W; [|discriminate].
  now rewrite (walk_update q new d Hnew Hold D [] cur W).
Qed.

Lemma write_file_inv (d d' : disco) (p : path) (x : string) :
  write_file d p x = Ok d' ->
  exists q, resolve_file d p = Ok (Some q) /\ stat d q <> Some IsDir
            /\ d' = update q (File x) d.
Proof.
  unfold write_file. destruct (resolve_file d p) as [[q|]|e]; try discriminate.
  intros H. exists q. split; [reflexivity|].
  destruct (stat d q) as [[y|]|]; try discriminate;
    injection H as <-; (split; [discriminate | reflexivity]).
Qed.

(** What was written is what is read back. *)
Lemma read_after_write (d d' : disco) (p : path) (x : string) :
  write_file d p x = Ok d' -> read_file d' p = Ok x.
Proof.
  intros H. destruct (write_file_inv _ _ _ _ H) as (q & Hq & Hold & ->).
  unfold read_file.
  rewrite (resolve_file_update q (File x) d p _ I Hold Hq).
  destruct (resolve_file_inv _ _ _ Hq) as (D & c & cur & -> & -> & _ & _ & Hd).
  unfold stat. now rewrite (stat_update_same cur c (File x) d Hd).
Qed.

(** A write leaves the other files as they are. *)
Lemma read_other_after_write (d d' : disco) (D : path) (a b x y : string) :
  a <> b ->
  write_file d (D ++ [b]) y = Ok d' ->
  read_file d (D ++ [a]) = Ok x ->
  read_file d' (D ++ [a]) = Ok x.
Proof.
  intros Hab Hw Hr.
  destruct (write_file_inv _ _ _ _ Hw) as (q & Hq & Hold & ->).
  unfold read_file in *.
  destruct (resolve_file d (D ++ [a])) as [[qa|]|e] eqn:Ra; try discriminate.
  rewrite (resolve_file_update q (File y) d _ _ I Hold Ra).
  destruct (resolve_file_inv _ _ _ Hq) as (D1 & c1 & cur1 & E1 & -> & _ & W1 & _).
  destruct (resolve_file_inv _ _ _ Ra) as (D2 & c2 & cur2 & E2 & -> & _ & W2 & _).
  apply app_inj_tail in E1, E2.
  destruct E1 as [<- <-], E2 as [<- <-].
  rewrite W1 in W2. injection W2 as <-.
  rewrite (stat_update_other (cur1 ++ [b]) (File y) I d (cur1 ++ [a])); auto.
  apply app_last_neq. congruence.
Qed.

End FsFacts.
Import FsFacts.

(** *** Facts about paths *)

Module PathFacts.
Local Open Scope list_scope.

(** No slash in [s]. *)
Fixpoint sin_barra (s : string) : bool :=
  match s with
  | EmptyString => true
  | String c r => negb (c =? "/")%char && sin_barra r
  end.

(** A name that is one component of a path: not empty, no slash, neither
    [.] nor [..]. *)
Definition nombre_simple (s : string) : bool :=
  sin_barra s && keep_part s && negb (s =? "..")%string.

Lemma split_slash_plain (s : string) :
  sin_barra s = true -> split_slash s = [s].
Proof.
  induction s as [|c r IH]; simpl; [reflexivity|].
  intros H. apply andb_prop in H. destruct H as [Hc Hr].
  apply negb_true_iff in Hc. rewrite Hc, (IH Hr). reflexivity.
Qed.

Lemma split_slash_nonempty (s : string) : split_slash s <> [].
Proof.
  destruct s as [|c r]; simpl; [discriminate|].
  destruct (c =? "/")%char; [discriminate|].
  destruct (split_slash r); discriminate.
Qed.

Lemma split_slash_append (s t : string) :
  sin_barra t = true ->
  split_slash (s ++ t)%string
  = removelast (split_slash s) ++ [(last (split_slash s) "" ++ t)%string].
Proof.
  intros Ht. induction s as [|c r IH].
  - simpl. now apply split_slash_plain.
  - cbn [append split_slash]. rewrite IH.
    pose proof (split_slash_nonempty r) as Hne.
    destruct (split_slash r) as [|h tl]; [congruence|].
    destruct (c =? "/")%char.
    + destruct tl; reflexivity.
    + destruct tl; reflexivity.
Qed.

Lemma keep_part_long (s : string) :
  2 <= String.length s -> keep_part s = true.
Proof.
  unfold keep_part. intros H.
  destruct (String.eqb_spec s ""%string) as [->|_]; [simpl in H; lia|].
  destruct (String.eqb_spec s "."%string) as [->|_]; [simpl in H; lia|].
  reflexivity.
Qed.

Lemma is_absolute_append (s t u : string) :
  is_absolute t = is_absolute u ->
  is_absolute (s ++ t)%string = is_absolute (s ++ u)%string.
Proof. destruct s; simpl; auto. Qed.

Lemma parts_append (s t : string) :
  sin_barra t = true -> 2 <= String.length t ->
  parts (s ++ t)%string
  = filter keep_part (removelast (split_slash s))
    ++ [(last (split_slash s) "" ++ t)%string].
Proof.
  intros Ht Hl. unfold parts. rewrite split_slash_append by exact Ht.
  rewrite filter_app. cbn [filter].
  rewrite keep_part_long; [reflexivity|].
  rewrite length_append. lia.
Qed.

(** The two artifacts of one save lie in the same directory and differ in
    their names, whatever the identifier. *)
Lemma rutas_artefactos (base : path) (id : string) :
  exists D l,
    joinpath base (id ++ ".json")%string = D ++ [(l ++ ".json")%string]
    /\ joinpath base (id ++ ".pdf")%string = D ++ [(l ++ ".pdf")%string].
Proof.
  unfold joinpath.
  rewrite (is_absolute_append id ".json" ".pdf") by reflexivity.
  rewrite !parts_append by (reflexivity || (simpl; lia)).
  destruct (is_absolute (id ++ ".pdf")%string).
  - now eexists _, _.
  - rewrite !app_assoc. now eexists _, _.
Qed.

Lemma json_pdf_distintos (l : string) :
  (l ++ ".json")%string <> (l ++ ".pdf")%string.
Proof. intros E. apply append_inv_head in E. discriminate. Qed.

Lemma nombre_simple_parts (s : string) :
  nombre_simple s = true ->
  parts s = [s] /\ is_absolute s = false /\ s <> ".."%string.
Proof.
  unfold nombre_simple. intros H.
  apply andb_prop in H. destruct H as [H Hdd].
  apply andb_prop in H. destruct H as [Hs Hk].
  repeat split.
  - unfold parts. rewrite split_slash_plain by exact Hs.
    cbn [filter]. now rewrite Hk.
  - destruct s as [|c r]; [reflexivity|]. simpl in Hs |- *.
    apply andb_prop in Hs. destruct Hs as [Hc _].
    now apply negb_true_iff in Hc.
  - apply negb_true_iff in Hdd. now destruct (String.eqb_spec s "..").
Qed.

Lemma sin_barra_append (s t : string) :
  sin_barra (s ++ t)%string = sin_barra s && sin_barra t.
Proof.
  induction s as [|c r IH]; simpl; [reflexivity|].
  now rewrite IH, andb_assoc.
Qed.

Lemma nombre_simple_append (s t : string) :
  nombre_simple s = true -> sin_barra t = true -> 2 <= String.length t ->
  nombre_simple (s ++ t)%string = true.
Proof.
  unfold nombre_simple. intros H Ht Hl.
  apply andb_prop in H. destruct H as [H _].
  apply andb_prop in H. destruct H as [Hs Hk].
  rewrite sin_barra_append, Hs, Ht.
  rewrite keep_part_long by (rewrite length_append; lia).
  destruct (String.eqb_spec (s ++ t)%string "..") as [E|_]; [|reflexivity].
  apply (f_equal String.length) in E. rewrite length_append in E.
  destruct s; [discriminate Hk|]. simpl in E. lia.
Qed.

Lemma joinpath_simple (base : path) (s : string) :
  nombre_simple s = true -> joinpath base s = base ++ [s].
Proof.
  intros H. destruct (nombre_simple_parts s H) as (Hp & Ha & _).
  unfold joinpath. now rewrite Ha, Hp.
Qed.

End PathFacts.
Import PathFacts.

(* ================================================================= *)
(** ** The rows of the index, and [sort_values] *)


Module Indice.

(** One dictionary appended to [rows] by [cargar_informes]: what
    [data.get] returned for the seven keys, and the three paths. *)
Record fila : Type := {
  col_identificador : json;
  col_modelo : json;
  col_cliente : json;
  col_fecha_inspeccion : json;
  col_fecha_fabricacion : json;
  col_documento : json;
  col_creado_en : json;
  col_carpeta : string;
  col_json : string;
  col_pdf : string
}.

Definition es_texto (v : json) : bool :=
  match v with
  | JStr _ => true
  | _ => false
  end.

(** The sort key of a row whose ["creado_en"] is text. *)
Definition clave (r : fila) : string :=
  match col_creado_en r with
  | JStr s => s
  | _ => ""
  end.

(** Descending order of the keys; [str] comparison is the comparison of
    the code units, first difference first. *)
Module OrdenFila <: TotalLeBool.
Definition t : Type := fila.
Definition leb (a b : fila) : bool := (clave b <=? clave a)%string.
Lemma leb_total (a b : fila) : leb a b = true \/ leb b a = true.
Proof. unfold leb. apply String.leb_total. Qed.
End OrdenFila.

Module Orden := Mergesort.Sort OrdenFila.

(** [df.sort_values(by="creado_en", ascending=False)] on a column of text.
    [None]: the column holds a value that is not text; what pandas does
    then (numeric order, missing values last, or a [TypeError] for mixed
    types) is outside this model. *)
Definition sort_values (rows : list fila) : option (list fila) :=
  if forallb (fun r => es_texto (col_creado_en r)) rows
  then Some (Orden.sort rows)
  else None.

End Indice.
Import Indice.

(* ================================================================= *)
(** ** [Series.str.contains(pat, case=False, na=False)]

    pandas compiles [pat] as a regular expression ([regex=True] is the
    default) with [re.IGNORECASE] and keeps the rows in which
    [re.search] finds a match.  The fragment modelled here: a pattern made
    of ordinary characters and of [.]; any other special character of
    [re] puts the pattern outside the fragment.  Case is folded on the
    ASCII letters; [.] stands for one character other than a newline, that
    is, a code unit that does not continue a character, with the code units
    that continue it. *)

Module Regex.

Inductive atomo : Type :=
| Lit (c : ascii)
| Punto.

(** The special characters of [re], the dot apart. *)
Definition especial (c : ascii) : bool :=
  existsb (fun m => (c =? m)%char)
    [ bslash; "^"; "$"; "*"; "+"; "?"; "{"; "}"; "["; "]"; "|"; "("; ")" ]%char.

(** A code unit of an ASCII character. *)
Definition ascii7 (c : ascii) : bool := (N_of_ascii c <? 128)%N.

(** The pattern, when it is in the fragment modelled here: ASCII
    characters, none of them special but the dot.  With [re.IGNORECASE] a
    letter outside ASCII matches its other case, which is not modelled. *)
Fixpoint compilar (pat : string) : option (list atomo) :=
  match pat with
  | EmptyString => Some []
  | String c r =>
      if especial c || negb (ascii7 c) then None
      else
        match compilar r with
        | None => None
        | Some l => Some ((if (c =? ".")%char then Punto else Lit c) :: l)
        end
  end.

Definition lower (c : ascii) : ascii :=
  let n := N_of_ascii c in
  if ((65 <=? n) && (n <=? 90))%N then ascii_of_N (n + 32) else c.

(** A code unit that continues a character. *)
Definition continua (c : ascii) : bool :=
  ((128 <=? N_of_ascii c) && (N_of_ascii c <? 192))%N.

Fixpoint salta_continuas (s : string) : string :=
  match s with
  | EmptyString => ""
  | String c r => if continua c then salta_continuas r else s
  end.

(** The text holds one of the four letters outside ASCII that
    [re.IGNORECASE] matches with an ASCII letter: U+0130 and U+0131 (with
    [i]), U+017F (with [s]), U+212A (with [k]). *)
Fixpoint letra_especial (s : string) : bool :=
  match s with
  | EmptyString => false
  | String a r =>
      match r with
      | EmptyString => false
      | String b r1 =>
          (es 196 a && (es 176 b || es 177 b))
          || (es 197 a && es 191 b)
          || match r1 with
             | EmptyString => false
             | String c _ => es 226 a && es 132 b && es 170 c
             end
          || letra_especial r
      end
  end.

(** The pattern matches at the head of [s]. *)
Fixpoint match_here (l : list atomo) (s : string) : bool :=
  match l with
  | [] => true
  | a :: l' =>
      match s with
      | EmptyString => false
      | String d r =>
          match a with
          | Lit c => (lower c =? lower d)%char && match_here l' r
          | Punto =>
              negb (d =? newline)%char && negb (continua d)
              && match_here l' (salta_continuas r)
          end
      end
  end.

(** [re.search]: the pattern matches somewhere in [s]. *)
Fixpoint search (l : list atomo) (s : string) : bool :=
  match_here l s
  || match s with
     | EmptyString => false
     | String _ r => search l r
     end.

End Regex.
Import Regex.

(* ================================================================= *)
(** ** The program *)

Section App.

(** [REPORTS_DIR], resolved when the module is loaded. *)
Variable REPORTS_DIR : path.

(** [SimpleDocTemplate.build]: the bytes ReportLab produces for a list of
    flowables when the wall clock reads [reloj] (the document information of
    a PDF holds its creation time), or [None] when the build raises. *)
Variable doc_build : N -> list flowable -> option string.

(** *** Disk effects: a state and error monad *)

Definition M (A : Type) : Type := disco -> result A * disco.

Definition ret {A : Type} (a : A) : M A := fun disk => (Ok a, disk).

Definition bind {A B : Type} (m : M A) (k : A -> M B) : M B :=
  fun disk =>
    match m disk with
    | (Ok a, disk') => k a disk'
    | (Err e, disk') => (Err e, disk')
    end.

Notation "x <- m ;; k" := (bind m (fun x => k))
  (at level 61, m at next level, right associativity).
Notation "m ;;; k" := (bind m (fun _ => k))
  (at level 61, right associativity).

Definition mkdir (p : path) : M unit :=
  fun disk =>
    match mkdir_parents disk p with
    | (None, disk') => (Ok tt, disk')
    | (Some e, disk') => (Err e, disk')
    end.

Definition escribir (p : path) (content : string) : M unit :=
  fun disk =>
    match write_file disk p content with
    | Ok disk' => (Ok tt, disk')
    | Err e => (Err e, disk)
    end.

(** *** [construir_pdf] and [guardar_informe] *)

Definition construir_pdf (reloj : N) (informe : InformeQC)
           (destino_pdf : path) : M unit :=
  fun disk =>
    match doc_build reloj (contenido informe) with
    | None => (Err BuildError, disk)
    | Some bytes => escribir destino_pdf bytes disk
    end.

Definition guardar_informe (reloj : N) (informe : InformeQC)
           (base_dir : option path) : M (path * path) :=
  let base_root := match base_dir with
                   | Some d => d
                   | None => REPORTS_DIR
                   end in
  let base := joinpath base_root (identificador informe) in
  mkdir base ;;;
  let json_path := joinpath base (identificador informe ++ ".json") in
  let pdf_path := joinpath base (identificador informe ++ ".pdf") in
  escribir json_path (json_dump (asdict informe)) ;;;
  construir_pdf reloj informe pdf_path ;;;
  ret (json_path, pdf_path).

(** *** [cargar_informes] *)

(** [dir.rglob("*.json")] on the directory [n] found at [here]: the
    matching entries of a directory, then those of its subdirectories. *)
Fixpoint rglob_json (n : node) (here : path) : list path :=
  match n with
  | File _ => []
  | Dir es =>
      (map (fun kv => here ++ [fst kv])
           (filter (fun kv => ends_with ".json" (fst kv)) es)
       ++ (fix sub (es : list (string * node)) : list path :=
             match es with
             | [] => []
             | kv :: es' =>
                 rglob_json (snd kv) (here ++ [fst kv]) ++ sub es'
             end) es)%list
  end.

Definition rglob (disk : disco) (dir : path) : list path :=
  match lookup (Dir disk) dir with
  | Some n => rglob_json n dir
  | None => []
  end.

(** The body of the [try]: the row of one file, or [None] when an
    exception is raised (the file is skipped). *)
Definition leer_fila (disk : disco) (jf : path) : option fila :=
  match read_file disk jf with
  | Err _ => None
  | Ok text =>
      match json_load text with
      | Some (JObj data) =>
          match with_suffix jf ".pdf" with
          | None => None
          | Some pdf =>
              Some {| col_identificador := dict_get "identificador" data (JStr "");
                      col_modelo := dict_get "modelo" data (JStr "");
                      col_cliente := dict_get "cliente" data (JStr "");
                      col_fecha_inspeccion :=
                        dict_get "fecha_inspeccion" data (JStr "");
                      col_fecha_fabricacion :=
                        dict_get "fecha_fabricacion" data (JStr "");
                      col_documento := dict_get "documento" data (JStr "");
                      col_creado_en := dict_get "creado_en" data (JStr "");
                      col_carpeta := str (parent jf);
                      col_json := str jf;
                      col_pdf := str pdf |}
          end
      | _ => None
      end
  end.

(** The list [rows] when the loop ends. *)
Definition recoger (disk : disco) : list fila :=
  flat_map (fun jf => match leer_fila disk jf with
                      | Some r => [r]
                      | None => []
                      end)
           (rglob disk REPORTS_DIR).

Definition cargar_informes (disk : disco) : option (list fila) :=
  sort_values (recoger disk).

(** *** The filter of [pagina_consultar] *)

(** One cell of [col.str.contains(pat, case=False, na=False)]: a cell
    that is not text gives [False]. *)
Definition str_contains (l : list atomo) (v : json) : bool :=
  match v with
  | JStr s => search l s
  | _ => false
  end.

(** A cell that is text with one of the letters of [letra_especial]. *)
Definition celda_especial (v : json) : bool :=
  match v with
  | JStr s => letra_especial s
  | _ => false
  end.

Definition fila_especial (r : fila) : bool :=
  celda_especial (col_identificador r) || celda_especial (col_cliente r)
  || celda_especial (col_modelo r).

(** [df[mask]], or [df] itself for an empty [buscador].  [None]: the
    search is outside the modelled fragment of [re]: the pattern is, or a
    searched cell holds a letter outside ASCII that an ASCII letter
    matches when case is ignored. *)
Definition filtrar (df : list fila) (buscador : string)
  : option (list fila) :=
  if truthy buscador then
    match compilar buscador with
    | None => None
    | Some l =>
        if existsb fila_especial df then None
        else
          Some (filter (fun r => str_contains l (col_identificador r)
                                 || str_contains l (col_cliente r)
                                 || str_contains l (col_modelo r)) df)
    end
  else Some df.

(** *** The messages of [pagina_nuevo_informe] *)

Inductive aviso : Type :=
| ErrorObligatorio
| ErrorGuardado (e : exn)
| Guardado (pdf_path : path) (descarga : string).

(** The three entries of [st.session_state] that [pagina_nuevo_informe]
    sets, with the staged report by value. *)
Record sesion : Type := {
  informe_pendiente : option InformeQC;
  dir_guardado : option string;
  confirmar_guardado : bool
}.

End App.

(* ================================================================= *)
(** ** Saving a report *)

Section Guardar.
Local Open Scope list_scope.

Variable REPORTS_DIR : path.
Variable doc_build : N -> list flowable -> option string.

(** The folder of a report. *)
Definition carpeta_de (informe : InformeQC) (base_dir : option path) : path :=
  joinpath (match base_dir with
            | Some d => d
            | None => REPORTS_DIR
            end) (identificador informe).

(** The steps a successful [guardar_informe] went through. *)
Lemma guardar_informe_inv (reloj : N) (informe : InformeQC)
      (base_dir : option path) (disk disk' : disco) (jp pp : path) :
  guardar_informe REPORTS_DIR doc_build reloj informe base_dir disk
  = (Ok (jp, pp), disk') ->
  exists disk1 disk2 bytes,
    mkdir_parents disk (carpeta_de informe base_dir) = (None, disk1)
    /\ jp = joinpath (carpeta_de informe base_dir)
              (identificador informe ++ ".json")%string
    /\ pp = joinpath (carpeta_de informe base_dir)
              (identificador informe ++ ".pdf")%string
    /\ write_file disk1 jp (json_dump (asdict informe)) = Ok disk2
    /\ doc_build reloj (contenido informe) = Some bytes
    /\ write_file disk2 pp bytes = Ok disk'.
Proof.
  unfold guardar_informe, bind, mkdir, escribir, construir_pdf, ret, carpeta_de.
  set (base := joinpath _ (identificador informe)).
  destruct (mkdir_parents disk base) as [[e|] disk1]; [discriminate|].
  destruct (write_file disk1 _ _) as [disk2|e] eqn:W1; [|discriminate].
  destruct (doc_build reloj (contenido informe)) as [bytes|]; [|discriminate].
  unfold escribir.
  destruct (write_file disk2 _ bytes) as [disk3|e] eqn:W2; [|discriminate].
  intros H. injection H as <- <- <-.
  exists disk1, disk2, bytes. repeat split; assumption.
Qed.

(** After a successful save both artifacts are read back from the paths
    returned. *)
Lemma guardar_informe_lee (reloj : N) (informe : InformeQC)
      (base_dir : option path) (disk disk' : disco) (jp pp : path) :
  guardar_informe REPORTS_DIR doc_build reloj informe base_dir disk
  = (Ok (jp, pp), disk') ->
  read_file disk' jp = Ok (json_dump (asdict informe))
  /\ exists bytes, doc_build reloj (contenido informe) = Some bytes
                   /\ read_file disk' pp = Ok bytes.
Proof.
  intros H. apply guardar_informe_inv in H.
  destruct H as (disk1 & disk2 & bytes & _ & Ej & Ep & W1 & Hb & W2).
  destruct (rutas_artefactos (carpeta_de informe base_dir)
              (identificador informe)) as (D & l & EJ & EP).
  rewrite EJ in Ej. rewrite EP in Ep. subst jp pp.
  split.
  - apply (read_other_after_write disk2 disk' D _ _ _ bytes
             (json_pdf_distintos l) W2).
    now apply read_after_write in W1.
  - exists bytes. split; [exact Hb|]. now apply read_after_write in W2.
Qed.

Lemma resolve_file_hijo (disk : disco) (D cur : path) (c : string) :
  walk disk [] D = Ok cur -> c <> ".."%string ->
  resolve_file disk (D ++ [c]) = Ok (Some (cur ++ [c])).
Proof.
  intros W Hc. unfold resolve_file. rewrite split_last_app, W.
  now destruct (String.eqb_spec c "..").
Qed.

Lemma write_file_ok (disk : disco) (p q : path) (x : string) :
  resolve_file disk p = Ok (Some q) -> stat disk q <> Some IsDir ->
  write_file disk p x = Ok (update q (File x) disk).
Proof.
  intros R H. unfold write_file. rewrite R.
  destruct (stat disk q) as [[y|]|]; try reflexivity. now elim H.
Qed.

Lemma stat_hijo_none (disk : disco) (a b : path) :
  stat disk a = None -> stat disk (a ++ b) = None.
Proof.
  unfold stat. rewrite lookup_app.
  destruct (lookup (Dir disk) a) as [[x|sub]|]; try discriminate. reflexivity.
Qed.

Lemma walk_hijo (disk : disco) (D cur : path) (c : string) :
  walk disk [] D = Ok cur -> c <> ".."%string ->
  stat disk (cur ++ [c]) = Some IsDir ->
  walk disk [] (D ++ [c]) = Ok (cur ++ [c]).
Proof.
  intros W Hc Hs. rewrite walk_app, W. cbn [walk].
  destruct (String.eqb_spec c ".."); [contradiction|]. now rewrite Hs.
Qed.

(** [mkdir(parents=True, exist_ok=True)] of a child of an existing
    directory. *)
Lemma mkdir_parents_hijo (disk : disco) (D cur : path) (c : string) :
  walk disk [] D = Ok cur -> c <> ".."%string ->
  mkdir_parents disk (D ++ [c])
  = match stat disk (cur ++ [c]) with
    | None => (None, update (cur ++ [c]) (Dir []) disk)
    | Some IsDir => (None, disk)
    | Some (IsFile _) => (Some FileExistsError, disk)
    end.
Proof.
  intros W Hc. unfold mkdir_parents. rewrite rev_unit. cbn [mkdir_rev].
  replace (rev (c :: rev D)) with (D ++ [c])
    by (cbn [rev]; now rewrite rev_involutive).
  unfold os_mkdir. rewrite (resolve_file_hijo disk D cur c W Hc).
  destruct (stat disk (cur ++ [c])) as [[x|]|] eqn:E; [| |reflexivity].
  - unfold is_dir. rewrite walk_app, W. cbn [walk].
    destruct (String.eqb_spec c ".."); [contradiction|]. now rewrite E.
  - unfold is_dir. now rewrite (walk_hijo disk D cur c W Hc E).
Qed.

(** The folder of an identifier is absent, or it is a directory in which
    neither artifact name is taken by a directory. *)
Definition carpeta_libre (disk : disco) (dir : path) (id : string) : Prop :=
  stat disk dir = None
  \/ (stat disk dir = Some IsDir
      /\ stat disk (dir ++ [(id ++ ".json")%string]) <> Some IsDir
      /\ stat disk (dir ++ [(id ++ ".pdf")%string]) <> Some IsDir).

Lemma app_neq_self {A : Type} (a : list A) (x : A) : a <> a ++ [x].
Proof.
  intros E. apply (f_equal (@length A)) in E.
  rewrite length_app in E. simpl in E. lia.
Qed.

Lemma mkdir_carpeta (disk : disco) (root croot : path) (id : string) :
  walk disk [] root = Ok croot -> id <> ".."%string ->
  carpeta_libre disk (croot ++ [id]) id ->
  exists disk1,
    mkdir_parents disk (root ++ [id]) = (None, disk1)
    /\ walk disk1 [] (root ++ [id]) = Ok (croot ++ [id])
    /\ forall x, stat disk (croot ++ [id] ++ [x]) <> Some IsDir ->
                 stat disk1 (croot ++ [id] ++ [x])
                 = stat disk (croot ++ [id] ++ [x]).
Proof.
  intros W Hid Hl. rewrite (mkdir_parents_hijo disk root croot id W Hid).
  assert (Hd : stat disk croot = Some IsDir)
    by (apply (walk_dir disk root [] croot (stat_nil disk) W)).
  destruct Hl as [Hn | (Hdir & _ & _)].
  - rewrite Hn. eexists. split; [reflexivity|].
    assert (Hold : stat disk (croot ++ [id]) <> Some IsDir) by congruence.
    split.
    + apply walk_hijo; auto.
      * now apply walk_update.
      * unfold stat. now rewrite (stat_update_same croot id (Dir []) disk Hd).
    + intros x _. rewrite app_assoc. apply stat_update_other; auto.
      * reflexivity.
      * apply app_neq_self.
  - rewrite Hdir. exists disk. split; [reflexivity|].
    split; [now apply walk_hijo | reflexivity].
Qed.

(** A save with an identifier that is a plain name, under an existing
    root whose folder for it is free: both artifacts are written in the
    folder [root/id]; when the build of the document raises, the JSON file
    written before it stays and the document is left as it was. *)
Lemma guardar_informe_simple (reloj : N) (informe : InformeQC)
      (root croot : path) (disk : disco) :
  let id := identificador informe in
  let jp := root ++ [id; (id ++ ".json")%string] in
  let pp := root ++ [id; (id ++ ".pdf")%string] in
  nombre_simple id = true ->
  walk disk [] root = Ok croot ->
  carpeta_libre disk (croot ++ [id]) id ->
  exists disk',
    read_file disk' jp = Ok (json_dump (asdict informe))
    /\ match doc_build reloj (contenido informe) with
       | Some bytes =>
           guardar_informe REPORTS_DIR doc_build reloj informe (Some root) disk
           = (Ok (jp, pp), disk')
           /\ read_file disk' pp = Ok bytes
       | None =>
           guardar_informe REPORTS_DIR doc_build reloj informe (Some root) disk
           = (Err BuildError, disk')
           /\ stat disk' (croot ++ [id; (id ++ ".pdf")%string])
              = stat disk (croot ++ [id; (id ++ ".pdf")%string])
       end.
Proof.
  intros id jp pp Hid W Hl.
  destruct (nombre_simple_parts id Hid) as (_ & _ & Hdd).
  assert (Hj : nombre_simple (id ++ ".json")%string = true)
    by (apply nombre_simple_append; auto; simpl; lia).
  assert (Hp : nombre_simple (id ++ ".pdf")%string = true)
    by (apply nombre_simple_append; auto; simpl; lia).
  destruct (nombre_simple_parts _ Hj) as (_ & _ & Hjdd).
  destruct (nombre_simple_parts _ Hp) as (_ & _ & Hpdd).
  destruct (mkdir_carpeta disk root croot id W Hdd Hl) as (disk1 & M1 & W1 & S1).
  assert (Hfree : stat disk (croot ++ [id] ++ [(id ++ ".json")%string])
                  <> Some IsDir
                  /\ stat disk (croot ++ [id] ++ [(id ++ ".pdf")%string])
                     <> Some IsDir).
  { rewrite !app_assoc. destruct Hl as [Hn | (_ & A & B)]; [|now split].
    rewrite !(stat_hijo_none disk _ _ Hn). split; discriminate. }
  destruct Hfree as [Fj Fp].
  pose proof (S1 _ Fj) as Sj. pose proof (S1 _ Fp) as Sp.
  rewrite app_assoc in Sj, Sp, Fj, Fp.
  set (qj := (croot ++ [id]) ++ [(id ++ ".json")%string]) in *.
  set (qp := (croot ++ [id]) ++ [(id ++ ".pdf")%string]) in *.
  assert (Ejp : jp = (root ++ [id]) ++ [(id ++ ".json")%string])
    by (unfold jp; now rewrite <- app_assoc).
  assert (Epp : pp = (root ++ [id]) ++ [(id ++ ".pdf")%string])
    by (unfold pp; now rewrite <- app_assoc).
  assert (Rj : resolve_file disk1 jp = Ok (Some qj))
    by (rewrite Ejp; now apply resolve_file_hijo).
  assert (Rp : resolve_file disk1 pp = Ok (Some qp))
    by (rewrite Epp; now apply resolve_file_hijo).
  assert (Oj : stat disk1 qj <> Some IsDir) by (now rewrite Sj).
  assert (Op : stat disk1 qp <> Some IsDir) by (now rewrite Sp).
  pose proof (write_file_ok disk1 jp qj (json_dump (asdict informe)) Rj Oj)
    as Wj.
  set (disk2 := update qj (File (json_dump (asdict informe))) disk1) in *.
  assert (Hne : qj <> qp) by (apply app_last_neq, json_pdf_distintos).
  assert (Rp2 : resolve_file disk2 pp = Ok (Some qp))
    by (now apply resolve_file_update).
  assert (Op2 : stat disk2 qp <> Some IsDir)
    by (unfold disk2; now rewrite stat_update_other).
  assert (Hstep :
    guardar_informe REPORTS_DIR doc_build reloj informe (Some root) disk
    = match doc_build reloj (contenido informe) with
      | None => (Err BuildError, disk2)
      | Some bytes =>
          match write_file disk2 pp bytes with
          | Ok d3 => (Ok (jp, pp), d3)
          | Err e => (Err e, disk2)
          end
      end).
  { unfold guardar_informe, bind, mkdir, escribir, construir_pdf, ret.
    fold id. rewrite (joinpath_simple root id Hid), M1.
    rewrite (joinpath_simple _ _ Hj), (joinpath_simple _ _ Hp).
    rewrite <- Ejp, <- Epp, Wj.
    destruct (doc_build reloj (contenido informe)) as [bytes|]; [|reflexivity].
    unfold escribir. now destruct (write_file disk2 pp bytes). }
  destruct (doc_build reloj (contenido informe)) as [bytes|] eqn:B.
  - pose proof (write_file_ok disk2 pp qp bytes Rp2 Op2) as Wp.
    rewrite Wp in Hstep. eexists. split; [|split; [exact Hstep|]].
    + rewrite Ejp, Epp in *.
      apply (read_other_after_write disk2 _ (root ++ [id]) _ _ _ bytes
               (json_pdf_distintos id) Wp).
      now apply read_after_write in Wj.
    + now apply read_after_write in Wp.
  - exists disk2. split; [now apply read_after_write in Wj|].
    split; [exact Hstep|].
    change (croot ++ [id; (id ++ ".pdf")%string])
      with (croot ++ [id] ++ [(id ++ ".pdf")%string]).
    rewrite app_assoc. fold qp. unfold disk2.
    rewrite stat_update_other; auto. reflexivity.
Qed.

End Guardar.

(* ================================================================= *)
(** ** Listing the reports *)

(** *** Facts about [with_suffix] *)

Module SuffixFacts.

Lemma rfind_dot_append (a b : string) :
  forall i,
    rfind_dot (a ++ b) i
    = match rfind_dot b (i + String.length a) with
      | Some j => Some j
      | None => rfind_dot a i
      end.
Proof.
  induction a as [|c r IH]; intros i.
  - simpl. rewrite Nat.add_0_r. now destruct (rfind_dot b i).
  - cbn [append rfind_dot String.length]. rewrite IH.
    replace (i + S (String.length r)) with (S i + String.length r) by lia.
    now destruct (rfind_dot b (S i + String.length r)).
Qed.

Lemma substring_head (a b : string) :
  substring 0 (String.length a) (a ++ b) = a.
Proof.
  induction a as [|c r IH]; simpl.
  - now destruct b.
  - now rewrite IH.
Qed.

Lemma substring_all (b : string) : substring 0 (String.length b) b = b.
Proof. induction b as [|c r IH]; simpl; [reflexivity | now rewrite IH]. Qed.

Lemma substring_tail (a b : string) :
  substring (String.length a) (String.length b) (a ++ b) = b.
Proof.
  induction a as [|c r IH]; simpl; [apply substring_all | exact IH].
Qed.

(** The suffix [.json] of a name with a non-empty stem is replaced. *)
Lemma with_suffix_name_json (stem : string) :
  stem <> "" ->
  with_suffix_name (stem ++ ".json") ".pdf" = stem ++ ".pdf".
Proof.
  intros Hne.
  assert (Hl : 0 < String.length stem) by (destruct stem; [congruence | simpl; lia]).
  assert (Hs : suffix (stem ++ ".json") = ".json").
  { unfold suffix. rewrite rfind_dot_append. cbn [rfind_dot Ascii.eqb Bool.eqb].
    cbn [Nat.add]. rewrite length_append. cbn [String.length].
    replace (0 <? String.length stem)%nat with true
      by (symmetry; apply Nat.ltb_lt; lia).
    replace (String.length stem <? String.length stem + 5 - 1)%nat with true
      by (symmetry; apply Nat.ltb_lt; lia).
    cbn [andb].
    replace (String.length stem + 5 - String.length stem) with
      (String.length ".json") by (simpl; lia).
    apply substring_tail. }
  unfold with_suffix_name. rewrite Hs.
  rewrite length_append. cbn [String.length].
  replace (String.length stem + 5 - 5) with (String.length stem) by lia.
  now rewrite substring_head.
Qed.

(** A file named [.json] has no suffix: [.pdf] is added to its name. *)
Lemma with_suffix_name_dot_json : with_suffix_name ".json" ".pdf" = ".json.pdf".
Proof. reflexivity. Qed.

Lemma with_suffix_app (D : path) (name suf : string) :
  with_suffix (D ++ [name])%list suf
  = Some (D ++ [with_suffix_name name suf])%list.
Proof. unfold with_suffix. now rewrite rev_unit, rev_involutive. Qed.

End SuffixFacts.
Import SuffixFacts.

Module OrdenFacts.

Lemma ascii_compare_refl (c : ascii) : (c ?= c)%char = Eq.
Proof. unfold Ascii.compare. apply N.compare_refl. Qed.

Lemma string_compare_trans_lt_eq :
  forall a b c : string,
    (a ?= b)%string <> Gt -> (b ?= c)%string <> Gt -> (a ?= c)%string <> Gt.
Proof.
  induction a as [|x a IH]; intros [|y b] [|z c]; simpl; try congruence.
  unfold Ascii.compare.
  destruct (N.compare_spec (N_of_ascii x) (N_of_ascii y)) as [Exy|Lxy|Gxy];
    destruct (N.compare_spec (N_of_ascii y) (N_of_ascii z)) as [Eyz|Lyz|Gyz];
    destruct (N.compare_spec (N_of_ascii x) (N_of_ascii z)) as [Exz|Lxz|Gxz];
    try congruence; try lia; try (intros; discriminate).
  apply IH.
Qed.

(** The order of [str] values is transitive. *)
Lemma string_leb_trans (a b c : string) :
  (a <=? b)%string = true -> (b <=? c)%string = true ->
  (a <=? c)%string = true.
Proof.
  unfold String.leb. intros H1 H2.
  pose proof (string_compare_trans_lt_eq a b c) as T.
  destruct (a ?= b)%string; destruct (b ?= c)%string;
    destruct (a ?= c)%string; try discriminate; try reflexivity;
    exfalso; apply T; congruence.
Qed.

(** Rows in descending order of their keys. *)
Definition descendente (a b : fila) : Prop :=
  (clave b <=? clave a)%string = true.

Lemma sort_values_ordenado (rows sorted : list fila) :
  sort_values rows = Some sorted ->
  StronglySorted descendente sorted /\ Permutation rows sorted
  /\ Forall (fun r => es_texto (col_creado_en r) = true) sorted.
Proof.
  unfold sort_values.
  destruct (forallb _ rows) eqn:F; [|discriminate].
  intros H. injection H as <-.
  pose proof (Orden.Permuted_sort rows) as P.
  split; [|split; [exact P|]].
  - apply Sorted_StronglySorted.
    + intros a b c Hab Hbc. unfold descendente in *.
      now apply (string_leb_trans _ (clave b)).
    + exact (Orden.Sorted_sort rows).
  - rewrite forallb_forall in F. apply Forall_forall. intros r Hr.
    apply F. now apply (Permutation_in _ (Permutation_sym P)).
Qed.

End OrdenFacts.
Import OrdenFacts.

Section Listado.
Local Open Scope list_scope.

Variable REPORTS_DIR : path.

Lemma find_In (k : string) (n : node) (es : list (string * node)) :
  find k es = Some n -> In (k, n) es.
Proof.
  induction es as [|[k' n'] es IH]; simpl; [discriminate|].
  destruct (String.eqb_spec k' k) as [->|_].
  - intros H. injection H as ->. now left.
  - intros H. right. now apply IH.
Qed.

(** [rglob_json] of a directory: its own matches, then those below each of
    its entries. *)
Lemma rglob_json_Dir (es : list (string * node)) (here : path) :
  rglob_json (Dir es) here
  = map (fun kv => here ++ [fst kv])
        (filter (fun kv => ends_with ".json" (fst kv)) es)
    ++ flat_map (fun kv => rglob_json (snd kv) (here ++ [fst kv])) es.
Proof.
  cbn [rglob_json]. f_equal.
Qed.

(** Every entry below [n] whose name ends in [.json] is found. *)
Lemma rglob_json_completo (D : path) (name : string) :
  forall (n x : node) (here : path),
    lookup n (D ++ [name]) = Some x ->
    ends_with ".json" name = true ->
    In (here ++ D ++ [name]) (rglob_json n here).
Proof.
  induction D as [|d D IH]; intros n x here Hl He.
  - cbn [app lookup] in Hl. destruct n as [y|es]; [discriminate|].
    destruct (find name es) as [child|] eqn:Hf; [|discriminate].
    rewrite rglob_json_Dir. apply in_or_app. left.
    apply in_map_iff. exists (name, child). split; [reflexivity|].
    apply filter_In. split; [now apply find_In | exact He].
  - cbn [app lookup] in Hl. destruct n as [y|es]; [discriminate|].
    destruct (find d es) as [child|] eqn:Hf; [|discriminate].
    rewrite rglob_json_Dir. apply in_or_app. right.
    apply in_flat_map. exists (d, child). split; [now apply find_In|].
    cbn [fst snd]. specialize (IH child x (here ++ [d]) Hl He).
    now rewrite <- app_assoc in IH.
Qed.

Lemma lookup_prefix_dir (n m : node) (a b : path) :
  lookup n (a ++ b) = Some m -> b <> [] ->
  exists sub, lookup n a = Some (Dir sub).
Proof.
  rewrite lookup_app. destruct (lookup n a) as [[x|sub]|]; try discriminate.
  - intros H Hb. now rewrite lookup_file in H.
  - intros _ _. now exists sub.
Qed.

(** A path without [..] that names a directory resolves to itself. *)
Lemma walk_canonico (disk : disco) (comps : path) :
  forall cur sub,
    Forall (fun c => c <> ".."%string) comps ->
    lookup (Dir disk) (cur ++ comps) = Some (Dir sub) ->
    walk disk cur comps = Ok (cur ++ comps).
Proof.
  induction comps as [|c rest IH]; intros cur sub HF Hl.
  - now rewrite app_nil_r.
  - inversion HF as [|? ? Hc Hrest]; subst. cbn [walk].
    destruct (String.eqb_spec c ".."); [contradiction|].
    change (cur ++ c :: rest) with (cur ++ [c] ++ rest) in *.
    rewrite app_assoc in *.
    assert (Hd : stat disk (cur ++ [c]) = Some IsDir).
    { unfold stat. destruct rest as [|r rest'].
      - rewrite app_nil_r in Hl. now rewrite Hl.
      - destruct (lookup_prefix_dir _ _ _ _ Hl ltac:(discriminate)) as [s ->].
        reflexivity. }
    rewrite Hd. now apply (IH _ sub).
Qed.

(** A file found in the tree at a path without [..] is read through that
    path. *)
Lemma read_file_lookup (disk : disco) (p : path) (x : string) :
  Forall (fun c => c <> ".."%string) p ->
  lookup (Dir disk) p = Some (File x) ->
  read_file disk p = Ok x.
Proof.
  intros HF Hl. destruct p as [|c p] using rev_ind; [discriminate|].
  clear IHp. apply Forall_app in HF. destruct HF as [HD Hc].
  inversion Hc as [|? ? Hc' _]; subst.
  destruct (lookup_prefix_dir _ _ _ _ Hl ltac:(discriminate)) as [sub Hs].
  unfold read_file.
  rewrite (resolve_file_hijo disk p p c); auto.
  - unfold stat. now rewrite Hl.
  - apply (walk_canonico disk p [] sub HD Hs).
Qed.

(** The row of a file that holds a JSON object. *)
Definition fila_de (carpeta : path) (nombre : string)
           (data : list (string * json)) : fila :=
  {| col_identificador := dict_get "identificador" data (JStr "");
     col_modelo := dict_get "modelo" data (JStr "");
     col_cliente := dict_get "cliente" data (JStr "");
     col_fecha_inspeccion := dict_get "fecha_inspeccion" data (JStr "");
     col_fecha_fabricacion := dict_get "fecha_fabricacion" data (JStr "");
     col_documento := dict_get "documento" data (JStr "");
     col_creado_en := dict_get "creado_en" data (JStr "");
     col_carpeta := str carpeta;
     col_json := str (carpeta ++ [nombre]);
     col_pdf := str (carpeta ++ [with_suffix_name nombre ".pdf"]) |}.

Lemma leer_fila_objeto (disk : disco) (D : path) (name text : string)
      (data : list (string * json)) :
  read_file disk (D ++ [name]) = Ok text ->
  json_load text = Some (JObj data) ->
  leer_fila disk (D ++ [name]) = Some (fila_de D name data).
Proof.
  intros Hr Hj. unfold leer_fila, fila_de, parent.
  now rewrite Hr, Hj, with_suffix_app, removelast_last.
Qed.

Lemma leer_fila_inv (disk : disco) (jf : path) (r : fila) :
  leer_fila disk jf = Some r ->
  exists D name text data,
    jf = D ++ [name] /\ read_file disk jf = Ok text
    /\ json_load text = Some (JObj data) /\ r = fila_de D name data.
Proof.
  unfold leer_fila.
  destruct (read_file disk jf) as [text|e] eqn:Hr; [|discriminate].
  destruct (json_load text) as [[| | | | |data]|] eqn:Hj; try discriminate.
  destruct jf as [|name D] using rev_ind; [discriminate|]. clear IHD.
  rewrite with_suffix_app. intros H. injection H as <-.
  exists D, name, text, data. unfold fila_de, parent.
  now rewrite removelast_last.
Qed.

Lemma In_recoger (disk : disco) (r : fila) :
  In r (recoger REPORTS_DIR disk)
  <-> exists jf, In jf (rglob disk REPORTS_DIR)
                 /\ leer_fila disk jf = Some r.
Proof.
  unfold recoger. rewrite in_flat_map. split.
  - intros (jf & Hin & Hr). exists jf. split; [exact Hin|].
    destruct (leer_fila disk jf) as [r'|]; [|contradiction].
    destruct Hr as [->|[]]. reflexivity.
  - intros (jf & Hin & Hr). exists jf. split; [exact Hin|].
    rewrite Hr. now left.
Qed.

Lemma ends_with_json_pdf (s : string) :
  ends_with ".json" (s ++ ".pdf")%string = false.
Proof. unfold ends_with. now rewrite rev_string_append. Qed.

(** A directory is not opened as a file: it gives no row. *)
Lemma leer_fila_dir (disk : disco) (p : path) (sub : list (string * node)) :
  Forall (fun c => c <> ".."%string) p ->
  lookup (Dir disk) p = Some (Dir sub) ->
  leer_fila disk p = None.
Proof.
  intros HF Hl. unfold leer_fila.
  assert (H : exists e, read_file disk p = Err e); [|now destruct H as [e ->]].
  destruct p as [|c p] using rev_ind.
  - now exists IsADirectoryError.
  - clear IHp. apply Forall_app in HF. destruct HF as [HD Hc].
    inversion Hc as [|? ? Hc' _]; subst.
    destruct (lookup_prefix_dir _ _ _ _ Hl ltac:(discriminate)) as [s Hs].
    unfold read_file. rewrite (resolve_file_hijo disk p p c); auto.
    + unfold stat. rewrite Hl. now exists IsADirectoryError.
    + apply (walk_canonico disk p [] s HD Hs).
Qed.

(** A file whose text is not JSON gives no row. *)
Lemma leer_fila_corrupto (disk : disco) (p : path) (text : string) :
  read_file disk p = Ok text -> json_load text = None ->
  leer_fila disk p = None.
Proof. intros Hr Hj. unfold leer_fila. now rewrite Hr, Hj. Qed.

(** The folder that [guardar_informe] leaves for a name: the JSON text
    and the document. *)
Definition carpeta_informe (nombre json_text pdf : string) : node :=
  Dir [ ((nombre ++ ".json")%string, File json_text);
        ((nombre ++ ".pdf")%string, File pdf) ].

Lemma rglob_carpeta_informe (nombre json_text pdf : string) (here : path) :
  rglob_json (carpeta_informe nombre json_text pdf) here
  = [here ++ [(nombre ++ ".json")%string]].
Proof.
  unfold carpeta_informe. rewrite rglob_json_Dir. cbn [filter fst snd].
  now rewrite ends_with_append, ends_with_json_pdf.
Qed.

(** The members of the dictionary [asdict] builds. *)
Definition campos (informe : InformeQC) : list (string * json) :=
  match asdict informe with
  | JObj m => m
  | _ => []
  end.

(** One folder with the JSON of a report and one folder whose JSON file
    does not parse, in either order: the listing is the row of the
    report. *)
Lemma cargar_informes_uno_valido (disk : disco) (informe : InformeQC)
      (fa fb na nb pa pb bad : string) (es : list (string * node)) :
  Forall (fun c => c <> ".."%string) REPORTS_DIR ->
  fa <> ".."%string -> fb <> ".."%string -> fa <> fb ->
  json_load bad = None ->
  lookup (Dir disk) REPORTS_DIR = Some (Dir es) ->
  es = [ (fa, carpeta_informe na (json_dump (asdict informe)) pa);
         (fb, carpeta_informe nb bad pb) ]
  \/ es = [ (fb, carpeta_informe nb bad pb);
            (fa, carpeta_informe na (json_dump (asdict informe)) pa) ] ->
  cargar_informes REPORTS_DIR disk
  = Some [ fila_de (REPORTS_DIR ++ [fa]) (na ++ ".json")%string
                   (campos informe) ].
Proof.
  intros HRD Hfa Hfb Hab Hbad Hl Hes.
  set (A := carpeta_informe na (json_dump (asdict informe)) pa) in *.
  set (B := carpeta_informe nb bad pb) in *.
  assert (Hba : fb <> fa) by congruence.
  (* the four paths the scan can meet *)
  assert (LA : lookup (Dir disk) (REPORTS_DIR ++ [fa]) = Some A).
  { rewrite lookup_app, Hl. cbn [lookup].
    destruct Hes as [-> | ->]; cbn [find].
    - now rewrite String.eqb_refl.
    - destruct (String.eqb_spec fb fa); [contradiction|].
      now rewrite String.eqb_refl. }
  assert (LB : lookup (Dir disk) (REPORTS_DIR ++ [fb]) = Some B).
  { rewrite lookup_app, Hl. cbn [lookup].
    destruct Hes as [-> | ->]; cbn [find].
    - destruct (String.eqb_spec fa fb); [contradiction|].
      now rewrite String.eqb_refl.
    - now rewrite String.eqb_refl. }
  assert (FA : Forall (fun c => c <> ".."%string) (REPORTS_DIR ++ [fa]))
    by (apply Forall_app; split; [exact HRD | now constructor]).
  assert (FB : Forall (fun c => c <> ".."%string) (REPORTS_DIR ++ [fb]))
    by (apply Forall_app; split; [exact HRD | now constructor]).
  assert (NJ : forall s, (s ++ ".json")%string <> ".."%string).
  { intros s E. apply (f_equal String.length) in E.
    rewrite length_append in E. simpl in E. lia. }
  assert (RA : leer_fila disk ((REPORTS_DIR ++ [fa]) ++ [(na ++ ".json")%string])
               = Some (fila_de (REPORTS_DIR ++ [fa]) (na ++ ".json")%string
                               (campos informe))).
  { apply (leer_fila_objeto disk _ _ (json_dump (asdict informe))).
    - apply read_file_lookup.
      + apply Forall_app; split; [exact FA | constructor; [apply NJ | constructor]].
      + rewrite lookup_app, LA. unfold A, carpeta_informe. cbn [lookup find].
        now rewrite String.eqb_refl.
    - apply json_load_dump_asdict. }
  assert (RB : leer_fila disk ((REPORTS_DIR ++ [fb]) ++ [(nb ++ ".json")%string])
               = None).
  { apply (leer_fila_corrupto disk _ bad); [|exact Hbad].
    apply read_file_lookup.
    - apply Forall_app; split; [exact FB | constructor; [apply NJ | constructor]].
    - rewrite lookup_app, LB. unfold B, carpeta_informe. cbn [lookup find].
      now rewrite String.eqb_refl. }
  assert (DA : leer_fila disk (REPORTS_DIR ++ [fa]) = None)
    by (apply (leer_fila_dir disk _ _ FA LA)).
  assert (DB : leer_fila disk (REPORTS_DIR ++ [fb]) = None)
    by (apply (leer_fila_dir disk _ _ FB LB)).
  (* the rows collected *)
  assert (Hrows : recoger REPORTS_DIR disk
                  = [ fila_de (REPORTS_DIR ++ [fa]) (na ++ ".json")%string
                              (campos informe) ]).
  { unfold recoger, rglob. rewrite Hl, rglob_json_Dir.
    destruct Hes as [-> | ->]; cbn [filter map flat_map fst snd];
      unfold A, B; rewrite !rglob_carpeta_informe;
      destruct (ends_with ".json" fa); destruct (ends_with ".json" fb);
      cbn [map app flat_map fst snd];
      rewrite ?DA, ?DB, ?RA, ?RB; reflexivity. }
  unfold cargar_informes. rewrite Hrows. reflexivity.
Qed.

End Listado.

(* ================================================================= *)
(** ** Searching the listing *)

Module Busqueda.

(** Following the words of the specification: [p] occurs in [s] as a
    substring, letter case apart (ASCII letters). *)
Fixpoint prefijo_ci (p s : string) : bool :=
  match p with
  | EmptyString => true
  | String a p' =>
      match s with
      | EmptyString => false
      | String b s' => (lower a =? lower b)%char && prefijo_ci p' s'
      end
  end.

Fixpoint contiene_ci (p s : string) : bool :=
  prefijo_ci p s
  || match s with
     | EmptyString => false
     | String _ r => contiene_ci p r
     end.

(** The same test on a cell: a cell that is not text contains nothing. *)
Definition celda_contiene (p : string) (v : json) : bool :=
  match v with
  | JStr s => contiene_ci p s
  | _ => false
  end.

(** A pattern of ASCII characters with no special character of [re]. *)
Fixpoint literal (pat : string) : bool :=
  match pat with
  | EmptyString => true
  | String c r =>
      negb (especial c) && negb (c =? ".")%char && ascii7 c && literal r
  end.

Lemma compilar_literal (pat : string) :
  literal pat = true ->
  exists l, compilar pat = Some l
            /\ forall s, match_here l s = prefijo_ci pat s.
Proof.
  induction pat as [|c r IH]; simpl; intros H.
  - exists []. split; [reflexivity|]. intros s. reflexivity.
  - apply andb_prop in H. destruct H as [H Hr].
    apply andb_prop in H. destruct H as [H Ha].
    apply andb_prop in H. destruct H as [He Hd].
    apply negb_true_iff in He, Hd. rewrite He, Hd, Ha. cbn [negb orb].
    destruct (IH Hr) as (l & -> & Hl).
    eexists. split; [reflexivity|].
    intros [|d s]; [reflexivity|]. cbn [match_here]. now rewrite Hl.
Qed.

Lemma search_literal (l : list atomo) (pat : string) :
  (forall s, match_here l s = prefijo_ci pat s) ->
  forall s, search l s = contiene_ci pat s.
Proof.
  intros H. induction s as [|d s IH]; cbn [search contiene_ci].
  - now rewrite H.
  - now rewrite H, IH.
Qed.

End Busqueda.
Import Busqueda.

(* ================================================================= *)
(** ** Sample data *)

Module Muestra.

(** A renderer that always succeeds. *)
Definition pdf_fijo (reloj : N) (story : list flowable) : option string :=
  Some "%PDF-1.4".

Definition raiz : path := ["reports"].

Definition resolver (s : string) : path := parts s.

(** A disk that holds an empty [reports] directory. *)
Definition disco_inicial : disco := [("reports", Dir [])].

Definition informe_de (id cli creado : string) : InformeQC :=
  {| identificador := id;
     modelo := "X1";
     cliente := cli;
     fecha_inspeccion := "01/02/2024";
     fecha_fabricacion := "01/2024";
     documento := "DOC-7";
     secciones := [ {| titulo := "REVISIONES DE SOFTWARE";
                       items := [ {| descripcion := "Lectura CAN";
                                     estado := "OK";
                                     observacion := "" |};
                                  {| descripcion := "Conexión WiFi";
                                     estado := "NOK";
                                     observacion := "sin señal" |} ];
                       observacion_general := "repetir" |} ];
     creado_en := creado |}.

Definition informe1 : InformeQC :=
  informe_de "Q-001" "Acme" "2024-01-01 10:00:00".

Definition informe2 : InformeQC :=
  informe_de "Q-002" "Beta" "2024-02-01 09:00:00".

Definition guardar (informe : InformeQC) (d : disco)
  : result (path * path) * disco :=
  guardar_informe raiz pdf_fijo 0 informe None d.

(** A renderer whose build raises. *)
Definition pdf_falla (reloj : N) (story : list flowable) : option string :=
  None.

(** The save of the confirmation page, with the failing renderer. *)
Definition guardar_en (informe : InformeQC) : result (path * path) * disco :=
  guardar_informe raiz pdf_falla 0 informe (Some ["reports"]) disco_inicial.

Definition disco1 : disco := snd (guardar informe1 disco_inicial).
Definition disco2 : disco := snd (guardar informe2 disco1).

End Muestra.

(* ================================================================= *)
(** ** The claims *)

(** *** C1 *)

(** C1: for every report with a non-empty identifier, when
    [guardar_informe] returns, the JSON file at the path it returns is
    read back by [json.load] as the dictionary of the report; that
    dictionary determines the report: every scalar field, and the sections
    and their items in order. *)
Theorem C1_guardar_y_cargar
        (REPORTS_DIR : path) (doc_build : N -> list flowable -> option string)
        (reloj : N) (informe : InformeQC) (base_dir : option path)
        (disk disk' : disco) (jp pp : path) :
  identificador informe <> "" ->
  guardar_informe REPORTS_DIR doc_build reloj informe base_dir disk
  = (Ok (jp, pp), disk') ->
  exists text,
    read_file disk' jp = Ok text
    /\ json_load text = Some (asdict informe)
    /\ forall otro, asdict otro = asdict informe -> otro = informe.
Proof.
  intros _ H.
  destruct (guardar_informe_lee _ _ _ _ _ _ _ _ _ H) as [Hr _].
  exists (json_dump (asdict informe)).
  split; [exact Hr|]. split; [apply json_load_dump_asdict|].
  intros otro. apply asdict_inj.
Qed.

Lemma C1_guardar_y_cargar_witness :
  identificador Muestra.informe1 <> ""
  /\ exists text,
       read_file Muestra.disco1 ["reports"; "Q-001"; "Q-001.json"] = Ok text
       /\ json_load text = Some (asdict Muestra.informe1)
       /\ forall otro, asdict otro = asdict Muestra.informe1 ->
                       otro = Muestra.informe1.
Proof.
  split; [discriminate|].
  apply (C1_guardar_y_cargar Muestra.raiz Muestra.pdf_fijo 0
           Muestra.informe1 None Muestra.disco_inicial Muestra.disco1
           ["reports"; "Q-001"; "Q-001.json"]
           ["reports"; "Q-001"; "Q-001.pdf"]).
  - discriminate.
  - vm_compute. reflexivity.
Defined.

(** *** C2 *)

(** C2 as stated fails: [guardar_informe] does not validate.  With an
    empty identifier it returns normally and writes [.json] and [.pdf]
    in the root folder; with a blank one it creates a folder named by the
    blank. *)
Lemma C2_guardar_informe_no_valida :
  Muestra.guardar (Muestra.informe_de "" "Acme" "2024-01-01 10:00:00")
                  Muestra.disco_inicial
  = (Ok (["reports"; ".json"], ["reports"; ".pdf"]),
     [("reports",
       Dir [(".json",
             File (json_dump
                     (asdict (Muestra.informe_de "" "Acme"
                                                 "2024-01-01 10:00:00"))));
            (".pdf", File "%PDF-1.4")])])
  /\ fst (Muestra.guardar (Muestra.informe_de " " "Acme" "2024-01-01 10:00:00")
                          Muestra.disco_inicial)
     = Ok (["reports"; " "; " .json"], ["reports"; " "; " .pdf"]).
Proof. split; vm_compute; reflexivity. Qed.

(** *** C3 *)

(** A disk on which the document of [Q-001] cannot be written: a
    directory stands in its place. *)
Definition disco_pdf_ocupado : disco :=
  [("reports", Dir [("Q-001", Dir [("Q-001.pdf", Dir [])])])].

(** C3 as stated fails: the save raises at the document, and the JSON
    file written before it is left behind. *)
Lemma C3_json_sin_documento :
  stat disco_pdf_ocupado ["reports"; "Q-001"; "Q-001.json"] = None
  /\ fst (Muestra.guardar Muestra.informe1 disco_pdf_ocupado)
     = Err IsADirectoryError
  /\ stat (snd (Muestra.guardar Muestra.informe1 disco_pdf_ocupado))
          ["reports"; "Q-001"; "Q-001.json"]
     = Some (IsFile (json_dump (asdict Muestra.informe1))).
Proof. repeat split; vm_compute; reflexivity. Qed.

(** C3 (amended): for an identifier that is a plain name, an existing
    root and a free folder, [guardar_informe] writes the JSON file and
    then the document, both in the folder [root/id]; nothing is rolled
    back: when the build of the document raises, the call fails, the JSON
    file written before it stays, and the document is as it was. *)
Theorem C3_guardar_informe_sin_rollback
        (REPORTS_DIR : path) (doc_build : N -> list flowable -> option string)
        (reloj : N) (informe : InformeQC) (root croot : path) (disk : disco) :
  let id := identificador informe in
  let jp := (root ++ [id; (id ++ ".json")%string])%list in
  let pp := (root ++ [id; (id ++ ".pdf")%string])%list in
  nombre_simple id = true ->
  walk disk [] root = Ok croot ->
  carpeta_libre disk (croot ++ [id])%list id ->
  exists disk',
    read_file disk' jp = Ok (json_dump (asdict informe))
    /\ match doc_build reloj (contenido informe) with
       | Some bytes =>
           guardar_informe REPORTS_DIR doc_build reloj informe (Some root) disk
           = (Ok (jp, pp), disk')
           /\ read_file disk' pp = Ok bytes
       | None =>
           guardar_informe REPORTS_DIR doc_build reloj informe (Some root) disk
           = (Err BuildError, disk')
           /\ stat disk' (croot ++ [id; (id ++ ".pdf")%string])%list
              = stat disk (croot ++ [id; (id ++ ".pdf")%string])%list
       end.
Proof. apply guardar_informe_simple. Qed.

Lemma C3_guardar_informe_sin_rollback_witness :
  exists disk',
    read_file disk' ["reports"; "Q-001"; "Q-001.json"]
    = Ok (json_dump (asdict Muestra.informe1))
    /\ Muestra.guardar_en Muestra.informe1 = (Err BuildError, disk')
    /\ stat disk' ["reports"; "Q-001"; "Q-001.pdf"] = None.
Proof.
  destruct (C3_guardar_informe_sin_rollback Muestra.raiz Muestra.pdf_falla 0
              Muestra.informe1 ["reports"] ["reports"] Muestra.disco_inicial)
    as (disk' & Hr & Hg & Hs).
  - reflexivity.
  - reflexivity.
  - left. reflexivity.
  - exists disk'. repeat split; assumption.
Defined.

(** *** C4 *)

(** C4: a storage root that holds one folder with the JSON of a report
    and one folder whose JSON file does not parse, in either order:
    [cargar_informes] returns exactly one row, the row of the report. *)
Theorem C4_un_valido_un_corrupto
        (REPORTS_DIR : path) (disk : disco) (informe : InformeQC)
        (fa fb na nb pa pb bad : string) (es : list (string * node)) :
  Forall (fun c => c <> "..") REPORTS_DIR ->
  fa <> ".." -> fb <> ".." -> fa <> fb ->
  json_load bad = None ->
  lookup (Dir disk) REPORTS_DIR = Some (Dir es) ->
  es = [ (fa, carpeta_informe na (json_dump (asdict informe)) pa);
         (fb, carpeta_informe nb bad pb) ]
  \/ es = [ (fb, carpeta_informe nb bad pb);
            (fa, carpeta_informe na (json_dump (asdict informe)) pa) ] ->
  exists r,
    cargar_informes REPORTS_DIR disk = Some [r]
    /\ col_identificador r = JStr (identificador informe)
    /\ col_modelo r = JStr (modelo informe)
    /\ col_cliente r = JStr (cliente informe)
    /\ col_fecha_inspeccion r = JStr (fecha_inspeccion informe)
    /\ col_fecha_fabricacion r = JStr (fecha_fabricacion informe)
    /\ col_documento r = JStr (documento informe)
    /\ col_creado_en r = JStr (creado_en informe)
    /\ col_json r = str (REPORTS_DIR ++ [fa; (na ++ ".json")%string])%list.
Proof.
  intros HRD Hfa Hfb Hab Hbad Hl Hes.
  eexists. split.
  - apply (cargar_informes_uno_valido REPORTS_DIR disk informe
             fa fb na nb pa pb bad es); assumption.
  - repeat split. cbn [fila_de col_json]. now rewrite <- app_assoc.
Qed.

(** The JSON file of a report, cut after 57 characters. *)
Definition json_truncado : string :=
  substring 0 57 (json_dump (asdict Muestra.informe2)).

Definition carpetas_mixtas : list (string * node) :=
  [ ("Q-002", carpeta_informe "Q-002" json_truncado "%PDF-1.4");
    ("Q-001", carpeta_informe "Q-001"
                (json_dump (asdict Muestra.informe1)) "%PDF-1.4") ].

Lemma C4_un_valido_un_corrupto_witness :
  exists r,
    cargar_informes ["reports"] [("reports", Dir carpetas_mixtas)] = Some [r]
    /\ col_identificador r = JStr "Q-001"
    /\ col_modelo r = JStr "X1"
    /\ col_cliente r = JStr "Acme"
    /\ col_fecha_inspeccion r = JStr "01/02/2024"
    /\ col_fecha_fabricacion r = JStr "01/2024"
    /\ col_documento r = JStr "DOC-7"
    /\ col_creado_en r = JStr "2024-01-01 10:00:00"
    /\ col_json r = "/reports/Q-001/Q-001.json".
Proof.
  apply (C4_un_valido_un_corrupto ["reports"]
           [("reports", Dir carpetas_mixtas)] Muestra.informe1
           "Q-001" "Q-002" "Q-001" "Q-002" "%PDF-1.4" "%PDF-1.4"
           json_truncado carpetas_mixtas).
  - repeat constructor; discriminate.
  - discriminate.
  - discriminate.
  - discriminate.
  - vm_compute. reflexivity.
  - reflexivity.
  - right. reflexivity.
Defined.

(** *** C5 *)

Lemma string_leb_refl (s : string) : (s <=? s)%string = true.
Proof. now destruct (String.leb_total s s). Qed.

(** In a list in descending order, a row with a greater key stands before
    a row with a smaller one. *)
Lemma orden_posicion (rows : list fila) (a b : fila) :
  StronglySorted descendente rows ->
  In a rows -> In b rows ->
  (clave b <=? clave a)%string = false ->
  exists l1 l2 l3, rows = (l1 ++ b :: l2 ++ a :: l3)%list.
Proof.
  intros S. induction S as [|x l S IH HF]; intros Ha Hb Hlt; [contradiction|].
  rewrite Forall_forall in HF.
  destruct Ha as [-> | Ha].
  - exfalso. destruct Hb as [-> | Hb].
    + now rewrite string_leb_refl in Hlt.
    + specialize (HF b Hb). unfold descendente in HF. congruence.
  - destruct Hb as [-> | Hb].
    + destruct (in_split _ _ Ha) as (l2 & l3 & ->).
      now exists [], l2, l3.
    + destruct (IH Ha Hb Hlt) as (l1 & l2 & l3 & ->).
      now exists (x :: l1), l2, l3.
Qed.

(** C5: the rows [cargar_informes] returns are in descending order of
    ["creado_en"], compared as strings; a row created at
    "2024-02-01 09:00:00" stands before a row created at
    "2024-01-01 10:00:00". *)
Theorem C5_orden_descendente
        (REPORTS_DIR : path) (disk : disco) (rows : list fila) :
  cargar_informes REPORTS_DIR disk = Some rows ->
  StronglySorted descendente rows
  /\ forall a b,
       In a rows -> In b rows ->
       col_creado_en a = JStr "2024-01-01 10:00:00" ->
       col_creado_en b = JStr "2024-02-01 09:00:00" ->
       exists l1 l2 l3, rows = (l1 ++ b :: l2 ++ a :: l3)%list.
Proof.
  intros H. apply sort_values_ordenado in H. destruct H as (S & _ & _).
  split; [exact S|].
  intros a b Ha Hb Ea Eb. apply orden_posicion; auto.
  unfold clave. now rewrite Ea, Eb.
Qed.

(** The listing of the disk that holds the two sample reports. *)
Definition filas_muestra : list fila :=
  [ fila_de ["reports"; "Q-002"] "Q-002.json" (campos Muestra.informe2);
    fila_de ["reports"; "Q-001"] "Q-001.json" (campos Muestra.informe1) ].

Lemma C5_orden_descendente_witness :
  cargar_informes Muestra.raiz Muestra.disco2 = Some filas_muestra
  /\ StronglySorted descendente filas_muestra
  /\ forall a b,
       In a filas_muestra -> In b filas_muestra ->
       col_creado_en a = JStr "2024-01-01 10:00:00" ->
       col_creado_en b = JStr "2024-02-01 09:00:00" ->
       exists l1 l2 l3, filas_muestra = (l1 ++ b :: l2 ++ a :: l3)%list.
Proof.
  split; [vm_compute; reflexivity|].
  apply (C5_orden_descendente Muestra.raiz Muestra.disco2 filas_muestra).
  vm_compute. reflexivity.
Defined.

(** *** C6 *)

(** The row of the report [Q-001] of client [Acme], model [X1]. *)
Definition fila_q001 : fila :=
  fila_de ["reports"; "Q-001"] "Q-001.json" (campos Muestra.informe1).

(** C6 (the code at the failing input): the query [.] keeps the row of
    [Q-001], although none of its identifier, client and model contains a
    dot: the query is compiled as a regular expression, in which a dot
    stands for any character. *)
Theorem C6_busqueda_por_patron :
  filtrar [fila_q001] "." = Some [fila_q001]
  /\ celda_contiene "." (col_identificador fila_q001) = false
  /\ celda_contiene "." (col_cliente fila_q001) = false
  /\ celda_contiene "." (col_modelo fila_q001) = false.
Proof. repeat split; vm_compute; reflexivity. Qed.

(** *** C7 *)

(** C7: with the empty query the filter returns the rows it was given,
    unchanged and in the same order. *)
Theorem C7_busqueda_vacia (df : list fila) : filtrar df "" = Some df.
Proof. reflexivity. Qed.

(** *** C8 *)

(** The keys of a dictionary, in order. *)
Definition claves (v : json) : option (list string) :=
  match v with
  | JObj m => Some (map fst m)
  | _ => None
  end.

(** The value of a key of a dictionary. *)
Definition valor (k : string) (v : json) : json :=
  match v with
  | JObj m => dict_get k m JNull
  | _ => JNull
  end.

Definition esquema_item (v : json) : Prop :=
  claves v = Some ["descripcion"; "estado"; "observacion"].

Definition esquema_seccion (v : json) : Prop :=
  claves v = Some ["titulo"; "items"; "observacion_general"]
  /\ exists l, valor "items" v = JArr l /\ Forall esquema_item l.

Definition esquema_informe (v : json) : Prop :=
  claves v = Some ["identificador"; "modelo"; "cliente"; "fecha_inspeccion";
                   "fecha_fabricacion"; "documento"; "secciones";
                   "creado_en"]
  /\ exists l, valor "secciones" v = JArr l /\ Forall esquema_seccion l.

Lemma esquema_asdict (informe : InformeQC) : esquema_informe (asdict informe).
Proof.
  split; [reflexivity|].
  exists (map asdict_seccion (secciones informe)). split; [reflexivity|].
  apply Forall_forall. intros v Hv. apply in_map_iff in Hv.
  destruct Hv as (s & <- & _). split; [reflexivity|].
  exists (map asdict_item (items s)). split; [reflexivity|].
  apply Forall_forall. intros w Hw. apply in_map_iff in Hw.
  destruct Hw as (it & <- & _). reflexivity.
Qed.

(** C8: the JSON file a save writes is the dump of a dictionary with
    exactly the eight keys of the report, in which ["secciones"] is a list
    of dictionaries with the keys [titulo], [items], [observacion_general],
    and every entry of ["items"] is a dictionary with the keys
    [descripcion], [estado], [observacion]. *)
Theorem C8_esquema_del_json
        (REPORTS_DIR : path) (doc_build : N -> list flowable -> option string)
        (reloj : N) (informe : InformeQC) (base_dir : option path)
        (disk disk' : disco) (jp pp : path) :
  guardar_informe REPORTS_DIR doc_build reloj informe base_dir disk
  = (Ok (jp, pp), disk') ->
  exists text v,
    read_file disk' jp = Ok text
    /\ json_load text = Some v
    /\ esquema_informe v.
Proof.
  intros H.
  destruct (guardar_informe_lee _ _ _ _ _ _ _ _ _ H) as [Hr _].
  exists (json_dump (asdict informe)), (asdict informe).
  split; [exact Hr|]. split; [apply json_load_dump_asdict|].
  apply esquema_asdict.
Qed.

Lemma C8_esquema_del_json_witness :
  exists text v,
    read_file Muestra.disco1 ["reports"; "Q-001"; "Q-001.json"] = Ok text
    /\ json_load text = Some v
    /\ esquema_informe v.
Proof.
  apply (C8_esquema_del_json Muestra.raiz Muestra.pdf_fijo 0
           Muestra.informe1 None Muestra.disco_inicial Muestra.disco1
           ["reports"; "Q-001"; "Q-001.json"]
           ["reports"; "Q-001"; "Q-001.pdf"]).
  vm_compute. reflexivity.
Defined.

(** *** C10 *)

(** C10 as stated fails: a file [x.json] that holds the JSON text of an
    empty list parses, and gives no row ([data.get] raises on a list and
    the file is skipped); and the document path of a file named [.json],
    which has no suffix, is [.json.pdf]. *)
Lemma C10_json_sin_fila :
  json_load "[]" = Some (JArr [])
  /\ cargar_informes ["reports"] [("reports", Dir [("x.json", File "[]")])]
     = Some []
  /\ option_map (map col_pdf)
       (cargar_informes ["reports"] [("reports", Dir [(".json", File "{}")])])
     = Some ["/reports/.json.pdf"].
Proof. repeat split; vm_compute; reflexivity. Qed.

(** A code unit between [lo] and [hi]. *)
Definition entre (lo hi : N) (c : ascii) : bool :=
  ((lo <=? N_of_ascii c) && (N_of_ascii c <=? hi))%N.

(** The text decodes as UTF-8, which is what reading a file opened with
    [encoding="utf-8"] requires of its bytes: characters of one to four
    code units, none encoded longer than needed, no surrogate, none above
    U+10FFFF. *)
Fixpoint utf8_valido (s : string) : bool :=
  match s with
  | EmptyString => true
  | String a r =>
      if entre 0 127 a then utf8_valido r
      else
        match r with
        | EmptyString => false
        | String b r1 =>
            if entre 194 223 a && entre 128 191 b then utf8_valido r1
            else
              match r1 with
              | EmptyString => false
              | String c r2 =>
                  if ((entre 224 224 a && entre 160 191 b)
                      || (entre 225 236 a && entre 128 191 b)
                      || (entre 237 237 a && entre 128 159 b)
                      || (entre 238 239 a && entre 128 191 b))
                     && entre 128 191 c
                  then utf8_valido r2
                  else
                    match r2 with
                    | EmptyString => false
                    | String d r3 =>
                        if ((entre 240 240 a && entre 144 191 b)
                            || (entre 241 243 a && entre 128 191 b)
                            || (entre 244 244 a && entre 128 143 b))
                           && entre 128 191 c && entre 128 191 d
                        then utf8_valido r3
                        else false
                    end
              end
        end
  end.

(** Every file [rglob] yields that can be read holds UTF-8 text. *)
Definition json_en_utf8 (REPORTS_DIR : path) (disk : disco) : bool :=
  forallb (fun jf => match read_file disk jf with
                     | Ok text => utf8_valido text
                     | Err _ => true
                     end)
          (rglob disk REPORTS_DIR).

(** C10 (amended): on a root whose [.json] files hold UTF-8 text, the loop
    of [cargar_informes] collects a row for every file, at any depth below
    the root, whose name ends in [.json] and whose text parses as a JSON
    object, whatever the layout; every collected row comes from such a
    file, and no path gives more than one; when the [creado_en] of every
    collected row is text, [cargar_informes] returns the collected rows,
    reordered; and the document path of a row is [with_suffix(".pdf")] of
    the path of its file, which for a name [stem.json] with a non-empty
    stem is [stem.pdf], whether or not that file exists. *)
Theorem C10_cargar_informes_filas (REPORTS_DIR : path) (disk : disco) :
  json_en_utf8 REPORTS_DIR disk = true ->
  (forall (rel : path) (name text : string) (data : list (string * json)),
      Forall (fun c => c <> "..") (REPORTS_DIR ++ rel ++ [name])%list ->
      lookup (Dir disk) (REPORTS_DIR ++ rel ++ [name])%list
      = Some (File text) ->
      ends_with ".json" name = true ->
      json_load text = Some (JObj data) ->
      In (fila_de (REPORTS_DIR ++ rel)%list name data)
         (recoger REPORTS_DIR disk))
  /\ (forall r, In r (recoger REPORTS_DIR disk) ->
        exists carpeta name text data,
          In (carpeta ++ [name])%list (rglob disk REPORTS_DIR)
          /\ read_file disk (carpeta ++ [name])%list = Ok text
          /\ utf8_valido text = true
          /\ json_load text = Some (JObj data)
          /\ r = fila_de carpeta name data)
  /\ length (recoger REPORTS_DIR disk) <= length (rglob disk REPORTS_DIR)
  /\ (forallb (fun r => es_texto (col_creado_en r))
              (recoger REPORTS_DIR disk) = true ->
      exists rows,
        cargar_informes REPORTS_DIR disk = Some rows
        /\ Permutation (recoger REPORTS_DIR disk) rows)
  /\ (forall (carpeta : path) (stem : string) (data : list (string * json)),
        stem <> "" ->
        col_pdf (fila_de carpeta (stem ++ ".json") data)
        = str (carpeta ++ [(stem ++ ".pdf")%string])%list).
Proof.
  intros HU. split; [|split; [|split; [|split]]].
  - intros rel name text data HF Hl He Hj.
    apply In_recoger.
    exists (REPORTS_DIR ++ rel ++ [name])%list. split.
    + unfold rglob. rewrite lookup_app in Hl.
      destruct (lookup (Dir disk) REPORTS_DIR) as [n|]; [|discriminate].
      now apply (rglob_json_completo rel name n (File text)).
    + rewrite app_assoc. apply (leer_fila_objeto disk _ _ text); [|exact Hj].
      rewrite <- app_assoc. now apply read_file_lookup.
  - intros r Hr.
    apply In_recoger in Hr. destruct Hr as (jf & Hin & Hl).
    apply leer_fila_inv in Hl.
    destruct Hl as (D & name & text & data & -> & Hread & Hj & ->).
    exists D, name, text, data. repeat split; auto.
    unfold json_en_utf8 in HU. rewrite forallb_forall in HU.
    specialize (HU _ Hin). now rewrite Hread in HU.
  - unfold recoger. generalize (rglob disk REPORTS_DIR).
    intros l. induction l as [|jf l IH]; [reflexivity|].
    cbn [flat_map length]. rewrite length_app.
    destruct (leer_fila disk jf); cbn [length]; lia.
  - intros Ht. unfold cargar_informes, sort_values. rewrite Ht.
    eexists. split; [reflexivity|]. apply Orden.Permuted_sort.
  - intros carpeta stem data Hne. cbn [fila_de col_pdf].
    now rewrite with_suffix_name_json.
Qed.

Lemma C10_cargar_informes_filas_witness :
  In (fila_de ["reports"; "Q-001"] "Q-001.json" (campos Muestra.informe1))
     (recoger Muestra.raiz Muestra.disco2)
  /\ (exists rows,
         cargar_informes Muestra.raiz Muestra.disco2 = Some rows
         /\ Permutation (recoger Muestra.raiz Muestra.disco2) rows)
  /\ col_pdf (fila_de ["reports"; "Q-001"] "Q-001.json"
                      (campos Muestra.informe1))
     = "/reports/Q-001/Q-001.pdf".
Proof.
  destruct (C10_cargar_informes_filas Muestra.raiz Muestra.disco2)
    as (Hin & _ & _ & Hs & Hpdf).
  - vm_compute. reflexivity.
  - split; [|split].
    + apply (Hin ["Q-001"] "Q-001.json"
                 (json_dump (asdict Muestra.informe1))
                 (campos Muestra.informe1)).
      * repeat constructor; discriminate.
      * vm_compute. reflexivity.
      * reflexivity.
      * apply json_load_dump_asdict.
    + apply Hs. vm_compute. reflexivity.
    + apply (Hpdf ["reports"; "Q-001"] "Q-001" (campos Muestra.informe1)).
      discriminate.
Defined.

(* ================================================================= *)
(** ** Further properties of the program *)

Section Directorios.
Local Open Scope list_scope.

(** *** Directories are never lost *)

Lemma os_mkdir_inv (d d' : disco) (p : path) :
  os_mkdir d p = Ok d' ->
  exists q, resolve_file d p = Ok (Some q) /\ stat d q = None
            /\ d' = update q (Dir []) d.
Proof.
  unfold os_mkdir. destruct (resolve_file d p) as [[q|]|e]; try discriminate.
  destruct (stat d q) eqn:E; [discriminate|].
  intros H. injection H as <-. now exists q.
Qed.

Lemma os_mkdir_walk (d d' : disco) (p cur comps r : path) :
  os_mkdir d p = Ok d' ->
  walk d cur comps = Ok r -> walk d' cur comps = Ok r.
Proof.
  intros H W. destruct (os_mkdir_inv _ _ _ H) as (q & _ & Hq & ->).
  apply walk_update; [reflexivity | congruence | exact W].
Qed.

Lemma os_mkdir_is_dir (d d' : disco) (p : path) :
  os_mkdir d p = Ok d' -> is_dir d' p = true.
Proof.
  intros H. destruct (os_mkdir_inv _ _ _ H) as (q & Hr & Hq & ->).
  destruct (resolve_file_inv _ _ _ Hr) as (D & c & cur & -> & -> & Hc & W & Hd).
  unfold is_dir. rewrite (walk_hijo _ D cur c); auto.
  - apply walk_update; [reflexivity | congruence | exact W].
  - unfold stat. now rewrite (stat_update_same cur c (Dir []) d Hd).
Qed.

Lemma mkdir_rev_walk (rp : list string) :
  forall (d d' : disco) (o : option exn) (cur comps r : path),
    mkdir_rev d rp = (o, d') ->
    walk d cur comps = Ok r -> walk d' cur comps = Ok r.
Proof.
  induction rp as [|c rp IH]; intros d d' o cur comps r H W;
    cbn [mkdir_rev] in H.
  - destruct (os_mkdir d (rev [])) as [d1|e] eqn:E.
    + injection H as _ <-. now apply (os_mkdir_walk d d1 (rev [])).
    + destruct e; try (destruct (is_dir d (rev [])));
        injection H as _ <-; exact W.
  - destruct (os_mkdir d (rev (c :: rp))) as [d1|e] eqn:E.
    + injection H as _ <-. now apply (os_mkdir_walk d d1 (rev (c :: rp))).
    + destruct e;
        try (destruct (is_dir d (rev (c :: rp)));
             injection H as _ <-; exact W).
      destruct (mkdir_rev d rp) as [[e1|] d1] eqn:E1.
      * injection H as _ <-. now apply (IH d d1 (Some e1)).
      * assert (W1 : walk d1 cur comps = Ok r) by now apply (IH d d1 None).
        destruct (os_mkdir d1 (rev (c :: rp))) as [d2|e2] eqn:E2.
        -- injection H as _ <-.
           now apply (os_mkdir_walk d1 d2 (rev (c :: rp))).
        -- destruct e2;
             try (destruct (is_dir d1 (rev (c :: rp))));
             injection H as _ <-; exact W1.
Qed.

Lemma mkdir_rev_is_dir (rp : list string) (d d' : disco) :
  mkdir_rev d rp = (None, d') -> is_dir d' (rev rp) = true.
Proof.
  intros H. destruct rp as [|c rp]; cbn [mkdir_rev] in H.
  - destruct (os_mkdir d (rev [])) as [d1|e] eqn:E.
    + injection H as <-. exact (os_mkdir_is_dir _ _ _ E).
    + destruct e; try discriminate;
        destruct (is_dir d (rev [])) eqn:I; try discriminate;
        injection H as <-; exact I.
  - destruct (os_mkdir d (rev (c :: rp))) as [d1|e] eqn:E.
    + injection H as <-. exact (os_mkdir_is_dir _ _ _ E).
    + destruct e;
        try (destruct (is_dir d (rev (c :: rp))) eqn:I; try discriminate;
             injection H as <-; exact I).
      destruct (mkdir_rev d rp) as [[e1|] d1] eqn:E1; [discriminate|].
      destruct (os_mkdir d1 (rev (c :: rp))) as [d2|e2] eqn:E2.
      * injection H as <-. exact (os_mkdir_is_dir _ _ _ E2).
      * destruct e2; try discriminate;
          destruct (is_dir d1 (rev (c :: rp))) eqn:I; try discriminate;
          injection H as <-; exact I.
Qed.

(** [mkdir(parents=True, exist_ok=True)] that returns has made its path
    a directory, and has kept every directory there was. *)
Lemma mkdir_parents_ok (d d' : disco) (p : path) :
  mkdir_parents d p = (None, d') ->
  is_dir d' p = true
  /\ forall cur comps r, walk d cur comps = Ok r -> walk d' cur comps = Ok r.
Proof.
  intros H. split.
  - rewrite <- (rev_involutive p). now apply (mkdir_rev_is_dir (rev p) d).
  - intros cur comps r. now apply (mkdir_rev_walk (rev p) d d' None).
Qed.

Lemma write_file_walk (d d' : disco) (p : path) (x : string)
      (cur comps r : path) :
  write_file d p x = Ok d' ->
  walk d cur comps = Ok r -> walk d' cur comps = Ok r.
Proof.
  intros H W. destruct (write_file_inv _ _ _ _ H) as (q & _ & Hq & ->).
  now apply walk_update.
Qed.

End Directorios.

Section Archivos.
Local Open Scope list_scope.

(** *** Files are never lost *)

Lemma os_mkdir_stat (d d' : disco) (p q : path) (x : string) :
  os_mkdir d p = Ok d' ->
  stat d q = Some (IsFile x) -> stat d' q = Some (IsFile x).
Proof.
  intros H S. destruct (os_mkdir_inv _ _ _ H) as (q0 & _ & Hq & ->).
  rewrite stat_update_other; auto; [reflexivity | congruence | congruence].
Qed.

Lemma mkdir_rev_stat (rp : list string) :
  forall (d d' : disco) (o : option exn) (q : path) (x : string),
    mkdir_rev d rp = (o, d') ->
    stat d q = Some (IsFile x) -> stat d' q = Some (IsFile x).
Proof.
  induction rp as [|c rp IH]; intros d d' o q x H W;
    cbn [mkdir_rev] in H.
  - destruct (os_mkdir d (rev [])) as [d1|e] eqn:E.
    + injection H as _ <-. exact (os_mkdir_stat _ _ _ _ _ E W).
    + destruct e; try (destruct (is_dir d (rev [])));
        injection H as _ <-; exact W.
  - destruct (os_mkdir d (rev (c :: rp))) as [d1|e] eqn:E.
    + injection H as _ <-. exact (os_mkdir_stat _ _ _ _ _ E W).
    + destruct e;
        try (destruct (is_dir d (rev (c :: rp)));
             injection H as _ <-; exact W).
      destruct (mkdir_rev d rp) as [[e1|] d1] eqn:E1.
      * injection H as _ <-. exact (IH d d1 (Some e1) q x E1 W).
      * pose proof (IH d d1 None q x E1 W) as W1.
        destruct (os_mkdir d1 (rev (c :: rp))) as [d2|e2] eqn:E2.
        -- injection H as _ <-. exact (os_mkdir_stat _ _ _ _ _ E2 W1).
        -- destruct e2;
             try (destruct (is_dir d1 (rev (c :: rp))));
             injection H as _ <-; exact W1.
Qed.

(** After a write, a file holds what it held, or what was written. *)
Lemma write_file_stat (d d' : disco) (p q : path) (x y : string) :
  write_file d p y = Ok d' ->
  stat d q = Some (IsFile x) ->
  stat d' q = Some (IsFile x) \/ stat d' q = Some (IsFile y).
Proof.
  intros H S. destruct (write_file_inv _ _ _ _ H) as (q0 & Hr & Hq & ->).
  destruct (list_eq_dec string_dec q0 q) as [<-|Hne].
  - right.
    destruct (resolve_file_inv _ _ _ Hr) as (D & c & cur & _ & -> & _ & _ & Hd).
    unfold stat. now rewrite (stat_update_same cur c (File y) d Hd).
  - left. rewrite stat_update_other; auto. exact I.
Qed.

End Archivos.

Section GuardarMas.
Local Open Scope list_scope.

Variable REPORTS_DIR : path.
Variable doc_build : N -> list flowable -> option string.

Lemma guardar_informe_walk
      (reloj : N) (informe : InformeQC) (base_dir : option path)
      (disk disk' : disco) (res : result (path * path))
      (cur comps r : path) :
  guardar_informe REPORTS_DIR doc_build reloj informe base_dir disk
  = (res, disk') ->
  walk disk cur comps = Ok r -> walk disk' cur comps = Ok r.
Proof.
  unfold guardar_informe, bind, mkdir, escribir, construir_pdf, ret.
  set (base := joinpath _ (identificador informe)).
  intros H W.
  destruct (mkdir_parents disk base) as [[e|] d1] eqn:M;
    pose proof (mkdir_rev_walk _ _ _ _ _ _ _ M W) as W1.
  - injection H as _ <-. exact W1.
  - destruct (write_file d1 _ _) as [d2|e] eqn:E1.
    + pose proof (write_file_walk _ _ _ _ _ _ _ E1 W1) as W2.
      destruct (doc_build reloj (contenido informe)) as [bytes|].
      * unfold escribir in H.
        destruct (write_file d2 _ bytes) as [d3|e] eqn:E2.
        -- injection H as _ <-. exact (write_file_walk _ _ _ _ _ _ _ E2 W2).
        -- injection H as _ <-. exact W2.
      * injection H as _ <-. exact W2.
    + injection H as _ <-. exact W1.
Qed.

(** X1: Whatever its outcome, a save keeps every directory: a path that
    resolved to a directory before it resolves to the same one after. *)
Theorem guardar_informe_conserva_directorios
        (reloj : N) (informe : InformeQC) (base_dir : option path)
        (disk disk' : disco) (res : result (path * path))
        (cur comps r : path) :
  guardar_informe REPORTS_DIR doc_build reloj informe base_dir disk
  = (res, disk') ->
  walk disk cur comps = Ok r -> walk disk' cur comps = Ok r.
Proof. apply guardar_informe_walk. Qed.

(** X2: Whatever its outcome, a save deletes no file and turns none into a
    directory: a file holds afterwards what it held, or the JSON text of
    the report, or the bytes of its document. *)
Theorem guardar_informe_conserva_archivos
        (reloj : N) (informe : InformeQC) (base_dir : option path)
        (disk disk' : disco) (res : result (path * path))
        (q : path) (x : string) :
  guardar_informe REPORTS_DIR doc_build reloj informe base_dir disk
  = (res, disk') ->
  stat disk q = Some (IsFile x) ->
  stat disk' q = Some (IsFile x)
  \/ stat disk' q = Some (IsFile (json_dump (asdict informe)))
  \/ exists bytes, doc_build reloj (contenido informe) = Some bytes
                   /\ stat disk' q = Some (IsFile bytes).
Proof.
  unfold guardar_informe, bind, mkdir, escribir, construir_pdf, ret.
  set (base := joinpath _ (identificador informe)).
  intros H S.
  destruct (mkdir_parents disk base) as [[e|] d1] eqn:M;
    pose proof (mkdir_rev_stat _ _ _ _ _ _ M S) as S1.
  - injection H as _ <-. now left.
  - destruct (write_file d1 _ _) as [d2|e] eqn:E1.
    + destruct (doc_build reloj (contenido informe)) as [bytes|] eqn:B.
      * unfold escribir in H.
        destruct (write_file d2 _ bytes) as [d3|e] eqn:E2.
        -- injection H as _ <-.
           destruct (write_file_stat _ _ _ _ _ _ E1 S1) as [S2|S2];
             destruct (write_file_stat _ _ _ _ _ _ E2 S2) as [S3|S3];
             auto; right; right; now exists bytes.
        -- injection H as _ <-.
           destruct (write_file_stat _ _ _ _ _ _ E1 S1) as [S2|S2]; auto.
      * injection H as _ <-.
        destruct (write_file_stat _ _ _ _ _ _ E1 S1) as [S2|S2]; auto.
    + injection H as _ <-. now left.
Qed.

(** X3: A folder name taken by a regular file: the save raises
    [FileExistsError] and the disk is as it was. *)
Theorem guardar_informe_carpeta_ocupada
        (reloj : N) (informe : InformeQC) (root croot : path)
        (disk : disco) (x : string) :
  nombre_simple (identificador informe) = true ->
  walk disk [] root = Ok croot ->
  stat disk (croot ++ [identificador informe]) = Some (IsFile x) ->
  guardar_informe REPORTS_DIR doc_build reloj informe (Some root) disk
  = (Err FileExistsError, disk).
Proof.
  intros Hid W S.
  destruct (nombre_simple_parts _ Hid) as (_ & _ & Hdd).
  unfold guardar_informe, bind, mkdir.
  rewrite (joinpath_simple root _ Hid).
  now rewrite (mkdir_parents_hijo disk root croot _ W Hdd), S.
Qed.

(** X4: An identifier that starts with a slash: the folder and the two files
    do not depend on the root the save is given. *)
Theorem guardar_informe_id_absoluto
        (reloj : N) (informe : InformeQC) (bd bd' : option path)
        (disk : disco) :
  is_absolute (identificador informe) = true ->
  guardar_informe REPORTS_DIR doc_build reloj informe bd disk
  = guardar_informe REPORTS_DIR doc_build reloj informe bd' disk.
Proof.
  intros H. unfold guardar_informe, joinpath. now rewrite H.
Qed.

End GuardarMas.

Section Sobrescribir.
Local Open Scope list_scope.

Variable REPORTS_DIR : path.
Variable doc_build : N -> list flowable -> option string.

Lemma walk_funcional (d : disco) (cur comps r r' : path) :
  walk d cur comps = Ok r -> walk d cur comps = Ok r' -> r = r'.
Proof. congruence. Qed.

(** What a file read below a resolved directory tells of the disk. *)
Lemma read_file_hijo_inv (d : disco) (D cur : path) (c x : string) :
  walk d [] D = Ok cur -> c <> ".."%string ->
  read_file d (D ++ [c]) = Ok x ->
  stat d (cur ++ [c]) = Some (IsFile x).
Proof.
  intros W Hc. unfold read_file.
  rewrite (resolve_file_hijo d D cur c W Hc).
  destruct (stat d (cur ++ [c])) as [[y|]|]; try discriminate.
  now intros [= ->].
Qed.

Lemma walk_hijo_inv (d : disco) (D cur r : path) (c : string) :
  walk d [] D = Ok cur -> c <> ".."%string ->
  walk d [] (D ++ [c]) = Ok r ->
  r = cur ++ [c] /\ stat d (cur ++ [c]) = Some IsDir.
Proof.
  intros W Hc. rewrite walk_app, W. cbn [walk].
  destruct (String.eqb_spec c ".."); [contradiction|].
  destruct (stat d (cur ++ [c])) as [[y|]|]; try discriminate.
  now intros [= <-].
Qed.

(** After a save in a free folder, the folder is free for the next save of
    the same identifier. *)
Lemma carpeta_libre_tras_guardar (d : disco) (root croot : path)
      (id x y : string) :
  nombre_simple id = true ->
  walk d [] root = Ok croot ->
  read_file d (root ++ [id; (id ++ ".json")%string]) = Ok x ->
  read_file d (root ++ [id; (id ++ ".pdf")%string]) = Ok y ->
  carpeta_libre d (croot ++ [id]) id.
Proof.
  intros Hid W Rj Rp.
  destruct (nombre_simple_parts _ Hid) as (_ & _ & Hdd).
  assert (NJ : forall t, 2 <= String.length t -> (id ++ t)%string <> ".."%string).
  { intros t Ht E. apply (f_equal String.length) in E.
    rewrite length_append in E. simpl in E.
    destruct id; [discriminate Hid|]. simpl in E. lia. }
  change (root ++ [id; (id ++ ".json")%string])
    with (root ++ [id] ++ [(id ++ ".json")%string]) in Rj.
  change (root ++ [id; (id ++ ".pdf")%string])
    with (root ++ [id] ++ [(id ++ ".pdf")%string]) in Rp.
  rewrite app_assoc in Rj, Rp.
  assert (Wid : exists r, walk d [] (root ++ [id]) = Ok r).
  { unfold read_file, resolve_file in Rj. rewrite split_last_app in Rj.
    destruct (walk d [] (root ++ [id])) as [r|e]; [now exists r | discriminate]. }
  destruct Wid as [r Wid].
  destruct (walk_hijo_inv d root croot r id W Hdd Wid) as [-> Sd].
  right. split; [exact Sd|].
  rewrite (read_file_hijo_inv d _ _ _ _ Wid (NJ ".json" ltac:(simpl; lia)) Rj).
  rewrite (read_file_hijo_inv d _ _ _ _ Wid (NJ ".pdf" ltac:(simpl; lia)) Rp).
  split; discriminate.
Qed.

(** X6: Two saves with the same identifier under the same root: both return,
    to the same paths, and afterwards the two files hold the JSON text and
    the document of the second report. *)
Theorem guardar_informe_sobrescribe
        (reloj1 reloj2 : N) (primero segundo : InformeQC)
        (root croot : path) (disk : disco) (b1 b2 : string) :
  let id := identificador primero in
  let jp := root ++ [id; (id ++ ".json")%string] in
  let pp := root ++ [id; (id ++ ".pdf")%string] in
  identificador segundo = id ->
  nombre_simple id = true ->
  walk disk [] root = Ok croot ->
  carpeta_libre disk (croot ++ [id]) id ->
  doc_build reloj1 (contenido primero) = Some b1 ->
  doc_build reloj2 (contenido segundo) = Some b2 ->
  exists disk1 disk2,
    guardar_informe REPORTS_DIR doc_build reloj1 primero (Some root) disk
    = (Ok (jp, pp), disk1)
    /\ guardar_informe REPORTS_DIR doc_build reloj2 segundo (Some root) disk1
       = (Ok (jp, pp), disk2)
    /\ read_file disk2 jp = Ok (json_dump (asdict segundo))
    /\ read_file disk2 pp = Ok b2.
Proof.
  intros id jp pp Eid Hid W Hl B1 B2.
  destruct (guardar_informe_simple REPORTS_DIR doc_build reloj1 primero
              root croot disk Hid W Hl) as (disk1 & Rj1 & H1).
  rewrite B1 in H1. destruct H1 as [G1 Rp1].
  assert (W1 : walk disk1 [] root = Ok croot)
    by exact (guardar_informe_walk _ _ _ _ _ _ _ _ _ _ _ G1 W).
  assert (Hl1 : carpeta_libre disk1 (croot ++ [id]) id)
    by exact (carpeta_libre_tras_guardar disk1 root croot id _ _ Hid W1 Rj1 Rp1).
  assert (Hid2 : nombre_simple (identificador segundo) = true)
    by now rewrite Eid.
  pose proof (guardar_informe_simple REPORTS_DIR doc_build reloj2 segundo
                root croot disk1 Hid2 W1) as H2.
  cbv zeta in H2. rewrite Eid in H2. specialize (H2 Hl1).
  destruct H2 as (disk2 & Rj2 & H2).
  rewrite B2 in H2. destruct H2 as [G2 Rp2].
  exists disk1, disk2. repeat split; assumption.
Qed.

End Sobrescribir.

Section GuardarYListar.
Local Open Scope list_scope.

Variable REPORTS_DIR : path.
Variable doc_build : N -> list flowable -> option string.

Lemma walk_sin_puntos (d : disco) (comps : path) :
  forall cur r,
    Forall (fun c => c <> ".."%string) comps ->
    walk d cur comps = Ok r -> r = cur ++ comps.
Proof.
  induction comps as [|c rest IH]; intros cur r HF H.
  - injection H as <-. now rewrite app_nil_r.
  - inversion HF as [|? ? Hc Hrest]; subst. cbn [walk] in H.
    destruct (String.eqb_spec c ".."); [contradiction|].
    destruct (stat d (cur ++ [c])) as [[y|]|]; try discriminate.
    rewrite (IH _ _ Hrest H). now rewrite <- app_assoc.
Qed.

(** A file read through a path without [..] stands in the tree at that
    path. *)
Lemma read_file_lookup_inv (d : disco) (p : path) (x : string) :
  Forall (fun c => c <> ".."%string) p ->
  read_file d p = Ok x -> lookup (Dir d) p = Some (File x).
Proof.
  intros HF H. unfold read_file in H.
  destruct (resolve_file d p) as [[q|]|e] eqn:R; try discriminate.
  destruct (resolve_file_inv _ _ _ R) as (D & c & cur & -> & -> & _ & W & _).
  apply Forall_app in HF. destruct HF as [HD _].
  rewrite (walk_sin_puntos d D [] cur HD W) in H. cbn [app] in H.
  unfold stat in H.
  destruct (lookup (Dir d) (D ++ [c])) as [[y|sub]|]; try discriminate.
  now injection H as ->.
Qed.

(** Every file below the root whose name ends in [.json] and whose text is
    a JSON object has its row in the listing. *)
Lemma cargar_informes_completo (disk : disco) (rows : list fila)
      (rel : path) (name text : string) (data : list (string * json)) :
  cargar_informes REPORTS_DIR disk = Some rows ->
  Forall (fun c => c <> ".."%string) (REPORTS_DIR ++ rel ++ [name]) ->
  lookup (Dir disk) (REPORTS_DIR ++ rel ++ [name]) = Some (File text) ->
  ends_with ".json" name = true ->
  json_load text = Some (JObj data) ->
  In (fila_de (REPORTS_DIR ++ rel) name data) rows.
Proof.
  intros H HF Hl He Hj.
  apply sort_values_ordenado in H. destruct H as (_ & P & _).
  apply (Permutation_in _ P). apply In_recoger.
  exists (REPORTS_DIR ++ rel ++ [name]). split.
  - unfold rglob. rewrite lookup_app in Hl.
    destruct (lookup (Dir disk) REPORTS_DIR) as [n|]; [|discriminate].
    now apply (rglob_json_completo rel name n (File text)).
  - rewrite app_assoc. apply (leer_fila_objeto disk _ _ text); [|exact Hj].
    rewrite <- app_assoc. now apply read_file_lookup.
Qed.

(** X7: A report saved under [REPORTS_DIR] with a plain identifier is listed:
    its row holds its scalar fields, its folder and the two paths the save
    returned. *)
Theorem guardar_y_listar
        (reloj : N) (informe : InformeQC) (disk disk' : disco)
        (jp pp : path) (rows : list fila) :
  Forall (fun c => c <> ".."%string) REPORTS_DIR ->
  nombre_simple (identificador informe) = true ->
  guardar_informe REPORTS_DIR doc_build reloj informe None disk
  = (Ok (jp, pp), disk') ->
  cargar_informes REPORTS_DIR disk' = Some rows ->
  exists r,
    In r rows
    /\ col_identificador r = JStr (identificador informe)
    /\ col_modelo r = JStr (modelo informe)
    /\ col_cliente r = JStr (cliente informe)
    /\ col_fecha_inspeccion r = JStr (fecha_inspeccion informe)
    /\ col_fecha_fabricacion r = JStr (fecha_fabricacion informe)
    /\ col_documento r = JStr (documento informe)
    /\ col_creado_en r = JStr (creado_en informe)
    /\ col_carpeta r = str (REPORTS_DIR ++ [identificador informe])
    /\ col_json r = str jp
    /\ col_pdf r = str pp.
Proof.
  intros HRD Hid G C.
  destruct (guardar_informe_lee _ _ _ _ _ _ _ _ _ G) as [Rj _].
  apply guardar_informe_inv in G.
  destruct G as (_ & _ & _ & _ & Ej & Ep & _).
  unfold carpeta_de in Ej, Ep.
  set (id := identificador informe) in *.
  assert (Hj : nombre_simple (id ++ ".json")%string = true)
    by (apply nombre_simple_append; auto; simpl; lia).
  assert (Hp : nombre_simple (id ++ ".pdf")%string = true)
    by (apply nombre_simple_append; auto; simpl; lia).
  rewrite (joinpath_simple _ _ Hid) in Ej, Ep.
  rewrite (joinpath_simple _ _ Hj) in Ej.
  rewrite (joinpath_simple _ _ Hp) in Ep.
  destruct (nombre_simple_parts _ Hid) as (_ & _ & Hdd).
  destruct (nombre_simple_parts _ Hj) as (_ & _ & Hjdd).
  assert (HF : Forall (fun c => c <> ".."%string)
                 (REPORTS_DIR ++ [id] ++ [(id ++ ".json")%string])).
  { apply Forall_app; split; [exact HRD|]. repeat constructor; assumption. }
  rewrite <- app_assoc in Ej. subst jp.
  pose proof (read_file_lookup_inv disk' _ _ HF Rj) as L.
  pose proof (cargar_informes_completo disk' rows [id] _ _ (campos informe)
                C HF L (ends_with_append id ".json")
                (json_load_dump_asdict informe)) as Hin.
  eexists. split; [exact Hin|].
  repeat split.
  - cbn [fila_de col_json]. now rewrite <- app_assoc.
  - cbn [fila_de col_pdf]. subst pp.
    rewrite with_suffix_name_json; [reflexivity|].
    intros E. unfold id in *. rewrite E in Hid. discriminate Hid.
Qed.

End GuardarYListar.

Section IdConBarra.
Local Open Scope list_scope.

Variable REPORTS_DIR : path.
Variable doc_build : N -> list flowable -> option string.

Lemma split_slash_con_barra (a s : string) :
  sin_barra a = true ->
  split_slash (a ++ "/" ++ s)%string = a :: split_slash s.
Proof.
  induction a as [|c r IH]; [reflexivity|].
  cbn [sin_barra]. intros H. apply andb_prop in H. destruct H as [Hc Hr].
  apply negb_true_iff in Hc.
  change (String c r ++ "/" ++ s)%string with (String c (r ++ "/" ++ s))%string.
  cbn [split_slash]. now rewrite Hc, (IH Hr).
Qed.

Lemma nombre_simple_inv (s : string) :
  nombre_simple s = true ->
  sin_barra s = true /\ keep_part s = true /\ s <> ".."%string.
Proof.
  unfold nombre_simple. intros H.
  apply andb_prop in H. destruct H as [H Hdd].
  apply andb_prop in H. destruct H as [Hs Hk].
  repeat split; auto.
  apply negb_true_iff in Hdd. now destruct (String.eqb_spec s "..").
Qed.

Lemma joinpath_con_barra (base : path) (a b : string) :
  nombre_simple a = true -> nombre_simple b = true ->
  joinpath base (a ++ "/" ++ b)%string = base ++ [a; b].
Proof.
  intros Ha Hb.
  destruct (nombre_simple_inv a Ha) as (Sa & Ka & _).
  destruct (nombre_simple_inv b Hb) as (Sb & Kb & _).
  unfold joinpath, parts. rewrite (split_slash_con_barra a b Sa).
  rewrite (split_slash_plain b Sb). cbn [filter]. rewrite Ka, Kb.
  destruct a as [|c r]; [discriminate Ha|].
  simpl in Sa |- *. apply andb_prop in Sa. destruct Sa as [Hc _].
  apply negb_true_iff in Hc. now rewrite Hc.
Qed.

(** X5: An identifier [a/b]: the folder [a/b] is created below the root, the
    JSON file is then sought in [a/b/a], which does not exist, and the
    save raises [FileNotFoundError]; the two folders stay, and no file is
    written. *)
Theorem guardar_informe_id_con_barra
        (reloj : N) (informe : InformeQC) (a b : string)
        (root croot : path) (disk : disco) :
  identificador informe = (a ++ "/" ++ b)%string ->
  nombre_simple a = true -> nombre_simple b = true ->
  walk disk [] root = Ok croot ->
  stat disk (croot ++ [a]) = None ->
  guardar_informe REPORTS_DIR doc_build reloj informe (Some root) disk
  = (Err FileNotFoundError,
     update (croot ++ [a; b]) (Dir []) (update (croot ++ [a]) (Dir []) disk)).
Proof.
  intros Eid Ha Hb W Sa.
  destruct (nombre_simple_inv a Ha) as (_ & _ & Hadd).
  destruct (nombre_simple_inv b Hb) as (_ & _ & Hbdd).
  assert (Hbj : nombre_simple (b ++ ".json")%string = true)
    by (apply nombre_simple_append; auto; simpl; lia).
  destruct (nombre_simple_inv _ Hbj) as (_ & _ & Hjdd).
  assert (Hd : stat disk croot = Some IsDir)
    by (apply (walk_dir disk root [] croot (stat_nil disk) W)).
  set (d1 := update (croot ++ [a]) (Dir []) disk).
  set (d2 := update (croot ++ [a; b]) (Dir []) d1).
  assert (Hold1 : stat disk (croot ++ [a]) <> Some IsDir) by congruence.
  (* the first folder *)
  assert (M1 : mkdir_parents disk (root ++ [a]) = (None, d1))
    by (rewrite (mkdir_parents_hijo disk root croot a W Hadd), Sa; reflexivity).
  assert (Sa1 : stat d1 (croot ++ [a]) = Some IsDir)
    by (unfold stat, d1; now rewrite (stat_update_same croot a (Dir []) disk Hd)).
  assert (Wa1 : walk d1 [] (root ++ [a]) = Ok (croot ++ [a])).
  { apply walk_hijo; auto.
    exact (walk_update _ (Dir []) disk eq_refl Hold1 root [] croot W). }
  assert (Sab1 : stat d1 ((croot ++ [a]) ++ [b]) = None).
  { unfold d1.
    rewrite (stat_update_other (croot ++ [a]) (Dir []) eq_refl disk
               ((croot ++ [a]) ++ [b]) (app_neq_self _ _) Hold1).
    now apply stat_hijo_none. }
  (* the second folder *)
  assert (O2 : os_mkdir d1 ((root ++ [a]) ++ [b]) = Ok d2).
  { unfold os_mkdir. rewrite (resolve_file_hijo d1 _ _ b Wa1 Hbdd), Sab1.
    unfold d2. now rewrite <- app_assoc. }
  assert (Hold2 : stat d1 ((croot ++ [a]) ++ [b]) <> Some IsDir) by congruence.
  assert (Lab2 : lookup (Dir d2) ((croot ++ [a]) ++ [b]) = Some (Dir [])).
  { unfold d2. replace (croot ++ [a; b]) with ((croot ++ [a]) ++ [b])
      by now rewrite <- app_assoc.
    now apply stat_update_same. }
  assert (Wab2 : walk d2 [] ((root ++ [a]) ++ [b]) = Ok ((croot ++ [a]) ++ [b])).
  { apply walk_hijo; auto.
    - unfold d2. replace (croot ++ [a; b]) with ((croot ++ [a]) ++ [b])
        by now rewrite <- app_assoc.
      exact (walk_update _ (Dir []) d1 eq_refl Hold2 _ [] _ Wa1).
    - unfold stat. now rewrite Lab2. }
  assert (Saba2 : stat d2 (((croot ++ [a]) ++ [b]) ++ [a]) = None).
  { unfold stat. now rewrite lookup_app, Lab2. }
  (* the save *)
  unfold guardar_informe, bind, mkdir, escribir.
  rewrite Eid, (joinpath_con_barra root a b Ha Hb).
  assert (M2 : mkdir_parents disk (root ++ [a; b]) = (None, d2)).
  { unfold mkdir_parents.
    replace (rev (root ++ [a; b])) with (b :: rev (root ++ [a]))
      by (rewrite !rev_app_distr; reflexivity).
    cbn [mkdir_rev].
    replace (rev (b :: rev (root ++ [a]))) with ((root ++ [a]) ++ [b])
      by (cbn [rev]; now rewrite rev_involutive).
    assert (O1 : os_mkdir disk ((root ++ [a]) ++ [b]) = Err FileNotFoundError).
    { unfold os_mkdir, resolve_file. rewrite split_last_app, walk_app, W.
      cbn [walk]. destruct (String.eqb_spec a ".."); [contradiction|].
      now rewrite Sa. }
    rewrite O1. fold (mkdir_parents disk (root ++ [a])). now rewrite M1, O2. }
  rewrite M2.
  replace ((a ++ "/" ++ b) ++ ".json")%string
    with (a ++ "/" ++ (b ++ ".json"))%string
    by (now rewrite !append_assoc).
  rewrite (joinpath_con_barra _ a _ Ha Hbj).
  replace ((root ++ [a; b]) ++ [a; (b ++ ".json")%string])
    with ((((root ++ [a]) ++ [b]) ++ [a]) ++ [(b ++ ".json")%string])
    by (now rewrite <- !app_assoc).
  unfold write_file, resolve_file.
  rewrite split_last_app, walk_app, Wab2. cbn [walk].
  destruct (String.eqb_spec a ".."); [contradiction|].
  now rewrite Saba2.
Qed.

End IdConBarra.

(* ================================================================= *)
(** ** [str.strip] *)

Module StripFacts.

Lemma rev_string_involutive (s : string) :
  rev_string "" (rev_string "" s) = s.
Proof.
  induction s as [|c r IH]; [reflexivity|].
  cbn [rev_string]. rewrite (rev_string_acc r (String c "")).
  rewrite rev_string_append, IH. reflexivity.
Qed.

Lemma rev_string_length (s : string) :
  String.length (rev_string "" s) = String.length s.
Proof.
  induction s as [|c r IH]; [reflexivity|].
  cbn [rev_string]. rewrite (rev_string_acc r (String c "")).
  rewrite length_append, IH. cbn. lia.
Qed.

Section Quitar.

Variable q : string -> option string.
Hypothesis q_sufijo :
  forall s r, q s = Some r ->
              exists p, s = p ++ r /\ 0 < String.length p.

Lemma quitar_limpio (n : nat) :
  forall s, String.length s <= n -> q (quitar q n s) = None.
Proof.
  induction n as [|n IH]; intros s Hn; cbn [quitar].
  - destruct (q s) as [r|] eqn:E; [|reflexivity].
    destruct (q_sufijo s r E) as (p & -> & Hp).
    rewrite length_append in Hn. lia.
  - destruct (q s) as [r|] eqn:E; [|exact E].
    apply IH. destruct (q_sufijo s r E) as (p & -> & Hp).
    rewrite length_append in Hn. lia.
Qed.

Lemma quitar_fijo (n : nat) (s : string) : q s = None -> quitar q n s = s.
Proof. intros E. destruct n; cbn [quitar]; [reflexivity | now rewrite E]. Qed.

Lemma quitar_sufijo (n : nat) :
  forall s, exists p, s = p ++ quitar q n s.
Proof.
  induction n as [|n IH]; intros s; cbn [quitar]; [now exists ""|].
  destruct (q s) as [r|] eqn:E; [|now exists ""].
  destruct (q_sufijo s r E) as (p & -> & _).
  destruct (IH r) as (p' & Hp'). exists (p ++ p').
  rewrite append_assoc. now rewrite <- Hp'.
Qed.

Lemma quitar_length (n : nat) (s : string) :
  String.length (quitar q n s) <= String.length s.
Proof.
  destruct (quitar_sufijo n s) as (p & Hp).
  rewrite Hp at 2. rewrite length_append. lia.
Qed.

Lemma quitar_idem (s : string) :
  let t := quitar q (String.length s) s in
  quitar q (String.length t) t = t.
Proof. intros t. apply quitar_fijo. now apply quitar_limpio. Qed.

End Quitar.

Lemma quita_espacio_sufijo (s r : string) :
  quita_espacio s = Some r ->
  exists p, s = p ++ r /\ 0 < String.length p.
Proof.
  unfold quita_espacio. destruct s as [|a [|b [|c r2]]]; try discriminate;
    repeat match goal with
           | |- context [if ?b then _ else _] => destruct b
           end;
    intros H; try discriminate H; injection H as <-.
  all: first [ exists (String a ""); split; [reflexivity | cbn; lia]
             | exists (String a (String b "")); split;
               [reflexivity | cbn; lia]
             | exists (String a (String b (String c ""))); split;
               [reflexivity | cbn; lia] ].
Qed.

Lemma quita_espacio_rev_sufijo (s r : string) :
  quita_espacio_rev s = Some r ->
  exists p, s = p ++ r /\ 0 < String.length p.
Proof.
  unfold quita_espacio_rev. destruct s as [|a [|b [|c r2]]]; try discriminate;
    repeat match goal with
           | |- context [if ?b then _ else _] => destruct b
           end;
    intros H; try discriminate H; injection H as <-.
  all: first [ exists (String a ""); split; [reflexivity | cbn; lia]
             | exists (String a (String b "")); split;
               [reflexivity | cbn; lia]
             | exists (String a (String b (String c ""))); split;
               [reflexivity | cbn; lia] ].
Qed.

(** What starts with a white-space character still does when text is
    added after it. *)
Lemma quita_espacio_append (u w r : string) :
  quita_espacio u = Some r -> quita_espacio (u ++ w) = Some (r ++ w).
Proof.
  unfold quita_espacio. destruct u as [|a [|b [|c r2]]]; try discriminate;
    cbn [append];
    repeat match goal with
           | |- context [if ?b then _ else _] => destruct b
           end;
    intros H; try discriminate H; injection H as <-; reflexivity.
Qed.

Lemma lstrip_limpio (s : string) : quita_espacio (lstrip s) = None.
Proof.
  unfold lstrip. apply quitar_limpio; [exact quita_espacio_sufijo | lia].
Qed.

Lemma lstrip_fijo (s : string) : quita_espacio s = None -> lstrip s = s.
Proof. intros E. unfold lstrip. now apply quitar_fijo. Qed.

Lemma lstrip_idem (s : string) : lstrip (lstrip s) = lstrip s.
Proof. apply lstrip_fijo, lstrip_limpio. Qed.

Lemma rstrip_idem (s : string) : rstrip (rstrip s) = rstrip s.
Proof.
  unfold rstrip. rewrite rev_string_involutive, !rev_string_length.
  f_equal. rewrite <- (rev_string_length s).
  exact (quitar_idem _ quita_espacio_rev_sufijo (rev_string "" s)).
Qed.

(** [rstrip] leaves the beginning of the text. *)
Lemma rstrip_prefijo (s : string) : exists w, s = rstrip s ++ w.
Proof.
  unfold rstrip.
  destruct (quitar_sufijo _ quita_espacio_rev_sufijo (String.length s)
              (rev_string "" s)) as (p & Hp).
  exists (rev_string "" p).
  rewrite <- rev_string_append, <- Hp. now rewrite rev_string_involutive.
Qed.

Lemma lstrip_rstrip_lstrip (s : string) :
  lstrip (rstrip (lstrip s)) = rstrip (lstrip s).
Proof.
  apply lstrip_fijo.
  destruct (rstrip_prefijo (lstrip s)) as (w & Hw).
  destruct (quita_espacio (rstrip (lstrip s))) as [r|] eqn:E; [|reflexivity].
  apply (quita_espacio_append _ w) in E. rewrite <- Hw in E.
  now rewrite lstrip_limpio in E.
Qed.

(** [s.strip().strip() == s.strip()]. *)
Lemma strip_idem (s : string) : strip (strip s) = strip s.
Proof.
  unfold strip. now rewrite lstrip_rstrip_lstrip, rstrip_idem.
Qed.

End StripFacts.
Import StripFacts.

(* ================================================================= *)
(** ** The page "Nuevo informe" *)

(** The session between two runs: a confirmation is pending only with a
    staged report whose identifier is stripped and not empty. *)
Definition sesion_valida (s : sesion) : Prop :=
  confirmar_guardado s = true ->
  exists informe,
    informe_pendiente s = Some informe
    /\ truthy (identificador informe) = true
    /\ strip (identificador informe) = identificador informe.

(** *** The section objects of the session *)

(** [ui_seccion] changes the [Seccion] it is given and returns that same
    object.  The objects live in [st.session_state.secciones]; the staged
    [InformeQC] holds the list the comprehension built, that is, the same
    objects.  Here the objects are kept in a store and named by their
    positions, and a report is read through the store when it is saved. *)

Module Objetos.

(** The options of [radio_estado]. *)
Inductive opcion : Type :=
| OpVacia
| OpOK
| OpNOK
| OpNA.

Definition texto_opcion (o : opcion) : string :=
  match o with
  | OpVacia => ""
  | OpOK => "OK"
  | OpNOK => "NOK"
  | OpNA => "N/A"
  end.

(** What the widgets and the clock return in one run.  The widgets of the
    checklist are told apart by their keys. *)
Record entradas : Type := {
  w_radio : string -> opcion;
  w_text_input : string -> string;
  w_text_area : string -> string;
  w_identificador : string;
  w_modelo : string;
  w_cliente : string;
  w_fecha_inspeccion : string;
  w_fecha_fabricacion : string;
  w_documento : string;
  w_ahora : string;
  w_nueva_ruta : string;
  w_preparar : bool;
  w_confirmar : bool;
  w_cancelar : bool
}.

(** [str(i)] of a natural number. *)
Definition dec (i : nat) : string := NilEmpty.string_of_uint (Nat.to_uint i).

Definition radio_estado (w : entradas) (key : string) : string :=
  texto_opcion (w_radio w key).

(** The loop of [ui_seccion], from index [i] on: every item is replaced
    by one with the same description and the values of its two widgets. *)
Fixpoint ui_items (w : entradas) (key_prefix : string) (i : nat)
         (its : list ChecklistItem) : list ChecklistItem :=
  match its with
  | [] => []
  | it :: r =>
      {| descripcion := descripcion it;
         estado := radio_estado w (key_prefix ++ "_estado_" ++ dec i);
         observacion := w_text_input w (key_prefix ++ "_obs_" ++ dec i) |}
      :: ui_items w key_prefix (S i) r
  end.

(** The value of the object once [ui_seccion] has run on it. *)
Definition ui_seccion (w : entradas) (seccion : Seccion)
           (key_prefix : string) : Seccion :=
  {| titulo := titulo seccion;
     items := ui_items w key_prefix 0 (items seccion);
     observacion_general := w_text_area w (key_prefix ++ "_obs_general") |}.

(** The [Seccion] objects, by position. *)
Definition almacen : Type := list Seccion.

Fixpoint poner (h : almacen) (a : nat) (v : Seccion) : almacen :=
  match h with
  | [] => []
  | x :: r =>
      match a with
      | O => v :: r
      | S a' => x :: poner r a' v
      end
  end.

(** The values of the objects a list of references names. *)
Definition valores (h : almacen) (refs : list nat) : list Seccion :=
  flat_map (fun a => match nth_error h a with
                     | Some v => [v]
                     | None => []
                     end) refs.

(** [[ui_seccion(sec, f"sec{i}") for i, sec in enumerate(refs)]], from
    index [i] on: the store once every object has been changed.  The list
    built holds the references it was given. *)
Fixpoint ui_secciones (w : entradas) (i : nat) (refs : list nat)
         (h : almacen) : almacen :=
  match refs with
  | [] => h
  | a :: r =>
      ui_secciones w (S i) r
        match nth_error h a with
        | Some sec => poner h a (ui_seccion w sec ("sec" ++ dec i))
        | None => h
        end
  end.

(** An [InformeQC] object: its [secciones] are references. *)
Record informe_obj : Type := {
  o_identificador : string;
  o_modelo : string;
  o_cliente : string;
  o_fecha_inspeccion : string;
  o_fecha_fabricacion : string;
  o_documento : string;
  o_secciones : list nat;
  o_creado_en : string
}.

(** The report as [asdict] and [construir_pdf] read it. *)
Definition valor_informe (h : almacen) (o : informe_obj) : InformeQC :=
  {| identificador := o_identificador o;
     modelo := o_modelo o;
     cliente := o_cliente o;
     fecha_inspeccion := o_fecha_inspeccion o;
     fecha_fabricacion := o_fecha_fabricacion o;
     documento := o_documento o;
     secciones := valores h (o_secciones o);
     creado_en := o_creado_en o |}.

(** [st.session_state], with the store of the objects it reaches. *)
Record session_state : Type := {
  objetos : almacen;
  ss_secciones : option (list nat);
  ss_informe_pendiente : option informe_obj;
  ss_dir_guardado : option string;
  ss_confirmar_guardado : bool
}.

(** The session when the process starts. *)
Definition sesion_inicial : session_state :=
  {| objetos := [];
     ss_secciones := None;
     ss_informe_pendiente := None;
     ss_dir_guardado := None;
     ss_confirmar_guardado := false |}.

(** The references in [st.session_state.secciones] once it is set. *)
Definition refs_secciones (st : session_state) : list nat :=
  match ss_secciones st with
  | Some refs => refs
  | None => seq (length (objetos st)) (length secciones_por_defecto)
  end.

(** The session once the section widgets have run: the default sections
    are created in the first run, and every section is changed. *)
Definition tras_secciones (w : entradas) (st : session_state) : session_state :=
  {| objetos :=
       ui_secciones w 0 (refs_secciones st)
         match ss_secciones st with
         | Some _ => objetos st
         | None => (objetos st ++ secciones_por_defecto)%list
         end;
     ss_secciones := Some (refs_secciones st);
     ss_informe_pendiente := ss_informe_pendiente st;
     ss_dir_guardado := ss_dir_guardado st;
     ss_confirmar_guardado := ss_confirmar_guardado st |}.

Definition cerrar (st : session_state) : session_state :=
  {| objetos := objetos st;
     ss_secciones := ss_secciones st;
     ss_informe_pendiente := None;
     ss_dir_guardado := ss_dir_guardado st;
     ss_confirmar_guardado := false |}.

Section Pagina.

Variable REPORTS_DIR : path.
Variable doc_build : N -> list flowable -> option string.

(** [Path(s).expanduser().resolve()]: it depends on the home and working
    directories of the process. *)
Variable resolve : string -> path.

(** The session once the "Preparar" block has run. *)
Definition tras_preparar (w : entradas) (st : session_state) : session_state :=
  if w_preparar w then
    {| objetos := objetos st;
       ss_secciones := ss_secciones st;
       ss_informe_pendiente :=
         Some {| o_identificador := strip (w_identificador w);
                 o_modelo := strip (w_modelo w);
                 o_cliente := strip (w_cliente w);
                 o_fecha_inspeccion := w_fecha_inspeccion w;
                 o_fecha_fabricacion := strip (w_fecha_fabricacion w);
                 o_documento := strip (w_documento w);
                 o_secciones := refs_secciones st;
                 o_creado_en := w_ahora w |};
       ss_dir_guardado := Some (str REPORTS_DIR);
       ss_confirmar_guardado := true |}
  else st.

(** The [try] block of the confirmation. *)
Definition confirmar_y_guardar (reloj : N) (w : entradas) (st : session_state)
           (disk : disco) : result (path * string) * disco :=
  match mkdir_parents disk (resolve (w_nueva_ruta w)) with
  | (Some e, disk0) => (Err e, disk0)
  | (None, disk0) =>
      match ss_informe_pendiente st with
      | None => (Err AttributeError, disk0)
      | Some o =>
          match guardar_informe REPORTS_DIR doc_build reloj
                                (valor_informe (objetos st) o)
                                (Some (resolve (w_nueva_ruta w))) disk0 with
          | (Err e, disk1) => (Err e, disk1)
          | (Ok r, disk1) =>
              match read_file disk1 (snd r) with
              | Ok bytes => (Ok (snd r, bytes), disk1)
              | Err e => (Err e, disk1)
              end
          end
      end
  end.

Definition pagina_nuevo_informe (reloj : N) (w : entradas) (st : session_state)
           (disk : disco) : list aviso * session_state * disco :=
  let st0 := tras_secciones w st in
  if w_preparar w && negb (truthy (strip (w_identificador w))) then
    ([ErrorObligatorio], st0, disk)
  else
    let st1 := tras_preparar w st0 in
    if ss_confirmar_guardado st1 then
      if w_cancelar w then ([], cerrar st1, disk)
      else if w_confirmar w then
        match confirmar_y_guardar reloj w st1 disk with
        | (Ok (pdf_path, bytes), disk') =>
            ([Guardado pdf_path bytes], cerrar st1, disk')
        | (Err e, disk') => ([ErrorGuardado e], st1, disk')
        end
      else ([], st1, disk)
    else ([], st1, disk).

End Pagina.

(** The three entries the page sets, with the staged report read through
    the store. *)
Definition vista (st : session_state) : sesion :=
  {| informe_pendiente :=
       option_map (valor_informe (objetos st)) (ss_informe_pendiente st);
     dir_guardado := ss_dir_guardado st;
     confirmar_guardado := ss_confirmar_guardado st |}.

End Objetos.


(** *** The section objects *)

Module SeccionesFacts.
Import Objetos.
Local Open Scope list_scope.

(** [ui_seccion] on every section of a list, from index [i] on. *)
Fixpoint ui_todas (w : entradas) (i : nat) (h : list Seccion)
  : list Seccion :=
  match h with
  | [] => []
  | sec :: r => ui_seccion w sec ("sec" ++ dec i)%string :: ui_todas w (S i) r
  end.

(** The sections of the session before the widgets run. *)
Definition secciones_de (st : session_state) : list Seccion :=
  match ss_secciones st with
  | Some _ => objetos st
  | None => secciones_por_defecto
  end.

Lemma nth_error_medio (pre : almacen) (x : Seccion) (r : almacen) :
  nth_error (pre ++ x :: r) (length pre) = Some x.
Proof. induction pre as [|y pre IH]; [reflexivity | exact IH]. Qed.

Lemma poner_medio (pre : almacen) (x v : Seccion) (r : almacen) :
  poner (pre ++ x :: r) (length pre) v = pre ++ v :: r.
Proof.
  induction pre as [|y pre IH]; [reflexivity|].
  cbn [app length poner]. now rewrite IH.
Qed.

Lemma ui_secciones_seq (w : entradas) (r : almacen) :
  forall (pre : almacen) (i : nat),
    ui_secciones w i (seq (length pre) (length r)) (pre ++ r)
    = pre ++ ui_todas w i r.
Proof.
  induction r as [|x r IH]; intros pre i; [reflexivity|].
  cbn [length seq ui_secciones ui_todas].
  rewrite nth_error_medio, poner_medio.
  specialize (IH (pre ++ [ui_seccion w x ("sec" ++ dec i)%string]) (S i)).
  rewrite length_app, Nat.add_comm in IH. cbn [length plus] in IH.
  rewrite <- !app_assoc in IH. exact IH.
Qed.

Lemma valores_seq (r : almacen) :
  forall pre : almacen, valores (pre ++ r) (seq (length pre) (length r)) = r.
Proof.
  unfold valores. induction r as [|x r IH]; intros pre; [reflexivity|].
  cbn [length seq flat_map]. rewrite nth_error_medio.
  specialize (IH (pre ++ [x])).
  rewrite length_app, Nat.add_comm in IH. cbn [length plus] in IH.
  rewrite <- !app_assoc in IH. cbn [app] in IH |- *. now rewrite IH.
Qed.

Lemma valores_todos (h : almacen) : valores h (seq 0 (length h)) = h.
Proof. exact (valores_seq h []). Qed.

Lemma ui_todas_length (w : entradas) (h : list Seccion) :
  forall i, length (ui_todas w i h) = length h.
Proof.
  induction h as [|x h IH]; intros i; [reflexivity|].
  cbn [ui_todas length]. now rewrite IH.
Qed.

Lemma ui_items_absorbe (w1 w2 : entradas) (k1 k2 : string)
      (its : list ChecklistItem) :
  forall i j,
    ui_items w2 k2 i (ui_items w1 k1 j its) = ui_items w2 k2 i its.
Proof.
  induction its as [|it r IH]; intros i j; [reflexivity|].
  cbn [ui_items descripcion]. now rewrite IH.
Qed.

Lemma ui_seccion_absorbe (w1 w2 : entradas) (k1 k2 : string) (s : Seccion) :
  ui_seccion w2 (ui_seccion w1 s k1) k2 = ui_seccion w2 s k2.
Proof.
  unfold ui_seccion. cbn [titulo items]. now rewrite ui_items_absorbe.
Qed.

Lemma ui_todas_absorbe (w1 w2 : entradas) (h : list Seccion) :
  forall i j, ui_todas w2 i (ui_todas w1 j h) = ui_todas w2 i h.
Proof.
  induction h as [|x h IH]; intros i j; [reflexivity|].
  cbn [ui_todas]. now rewrite ui_seccion_absorbe, IH.
Qed.

Lemma ui_items_descripcion (w : entradas) (k : string)
      (its : list ChecklistItem) :
  forall i, map descripcion (ui_items w k i its) = map descripcion its.
Proof.
  induction its as [|it r IH]; intros i; [reflexivity|].
  cbn [ui_items map descripcion]. now rewrite IH.
Qed.

Lemma ui_items_estado (w : entradas) (k : string)
      (its : list ChecklistItem) :
  forall i,
    Forall (fun it => In (estado it) [""; "OK"; "NOK"; "N/A"]%string)
           (ui_items w k i its).
Proof.
  induction its as [|it r IH]; intros i; constructor; [|apply IH].
  cbn [estado]. unfold radio_estado.
  destruct (w_radio w _); cbn; auto.
Qed.

(** The session names its section objects in order, a staged report
    holds the section objects of the session, and the session is valid
    when read through the store. *)
Definition estado_ok (st : session_state) : Prop :=
  match ss_secciones st with
  | Some refs => refs = seq 0 (length (objetos st))
  | None => objetos st = []
  end
  /\ (forall o, ss_informe_pendiente st = Some o ->
                ss_secciones st = Some (o_secciones o))
  /\ sesion_valida (vista st).

Lemma sesion_inicial_ok : estado_ok sesion_inicial.
Proof.
  split; [reflexivity|]. split; [discriminate|].
  intros H. discriminate H.
Qed.

Lemma tras_secciones_objetos (w : entradas) (st : session_state) :
  estado_ok st ->
  objetos (tras_secciones w st) = ui_todas w 0 (secciones_de st)
  /\ refs_secciones st = seq 0 (length (secciones_de st)).
Proof.
  intros (H & _ & _). unfold tras_secciones, refs_secciones, secciones_de.
  cbn [objetos]. destruct (ss_secciones st) as [refs|].
  - subst refs. split; [|reflexivity].
    exact (ui_secciones_seq w (objetos st) [] 0).
  - rewrite H. split; [|reflexivity].
    exact (ui_secciones_seq w secciones_por_defecto [] 0).
Qed.

Lemma sesion_valida_ext (s1 s2 : sesion) :
  confirmar_guardado s2 = confirmar_guardado s1 ->
  (forall a, informe_pendiente s1 = Some a ->
             exists b, informe_pendiente s2 = Some b
                       /\ identificador b = identificador a) ->
  sesion_valida s1 -> sesion_valida s2.
Proof.
  intros Hc Hp Hv H2. rewrite Hc in H2.
  destruct (Hv H2) as (a & Ha & Ht & Hs).
  destruct (Hp a Ha) as (b & Hb & Hid).
  exists b. rewrite Hid. auto.
Qed.

Lemma tras_secciones_ok (w : entradas) (st : session_state) :
  estado_ok st -> estado_ok (tras_secciones w st).
Proof.
  intros Hok. destruct (tras_secciones_objetos w st Hok) as [Ho Hr].
  destruct Hok as (H1 & H2 & H3). split; [|split].
  - cbn [ss_secciones tras_secciones]. fold (tras_secciones w st).
    now rewrite Ho, ui_todas_length.
  - cbn [ss_secciones ss_informe_pendiente tras_secciones].
    intros o Hp. specialize (H2 o Hp). unfold refs_secciones.
    now rewrite H2.
  - apply (sesion_valida_ext (vista st)); [reflexivity| |exact H3].
    unfold vista. cbn [informe_pendiente ss_informe_pendiente tras_secciones].
    intros a Ha. destruct (ss_informe_pendiente st) as [o|]; [|discriminate].
    cbn [option_map] in Ha |- *. injection Ha as <-.
    eexists. split; reflexivity.
Qed.

End SeccionesFacts.

Import SeccionesFacts.

Section PaginaObjetos.
Local Open Scope list_scope.

Variable REPORTS_DIR : path.
Variable doc_build : N -> list flowable -> option string.
Variable resolve : string -> path.

Local Abbreviation pagina := (Objetos.pagina_nuevo_informe REPORTS_DIR doc_build resolve).
Local Abbreviation preparado := (Objetos.tras_preparar REPORTS_DIR).
Local Abbreviation guardar_pendiente :=
  (Objetos.confirmar_y_guardar REPORTS_DIR doc_build resolve).

(** The report an object stands for when its sections have the values
    [secs]. *)
Definition con_secciones (o : Objetos.informe_obj) (secs : list Seccion)
  : InformeQC :=
  {| identificador := Objetos.o_identificador o;
     modelo := Objetos.o_modelo o;
     cliente := Objetos.o_cliente o;
     fecha_inspeccion := Objetos.o_fecha_inspeccion o;
     fecha_fabricacion := Objetos.o_fecha_fabricacion o;
     documento := Objetos.o_documento o;
     secciones := secs;
     creado_en := Objetos.o_creado_en o |}.

(** The ways a run of the page ends. *)
Inductive final (reloj : N) (w : Objetos.entradas) (st : Objetos.session_state)
          (disk : disco) : list aviso * Objetos.session_state * disco -> Prop :=
| FinObligatorio :
    Objetos.w_preparar w = true ->
    truthy (strip (Objetos.w_identificador w)) = false ->
    final reloj w st disk
          ([ErrorObligatorio], Objetos.tras_secciones w st, disk)
| FinSinPendiente :
    Objetos.w_preparar w = false ->
    Objetos.ss_confirmar_guardado st = false ->
    final reloj w st disk ([], Objetos.tras_secciones w st, disk)
| FinCancelar :
    Objetos.ss_confirmar_guardado
      (preparado w (Objetos.tras_secciones w st)) = true ->
    Objetos.w_cancelar w = true ->
    final reloj w st disk
          ([], Objetos.cerrar (preparado w (Objetos.tras_secciones w st)),
           disk)
| FinEspera :
    Objetos.ss_confirmar_guardado
      (preparado w (Objetos.tras_secciones w st)) = true ->
    Objetos.w_cancelar w = false -> Objetos.w_confirmar w = false ->
    final reloj w st disk
          ([], preparado w (Objetos.tras_secciones w st), disk)
| FinGuardado (pdf : path) (bytes : string) (disk' : disco) :
    Objetos.ss_confirmar_guardado
      (preparado w (Objetos.tras_secciones w st)) = true ->
    Objetos.w_cancelar w = false -> Objetos.w_confirmar w = true ->
    guardar_pendiente reloj w (preparado w (Objetos.tras_secciones w st)) disk
    = (Ok (pdf, bytes), disk') ->
    final reloj w st disk
          ([Guardado pdf bytes],
           Objetos.cerrar (preparado w (Objetos.tras_secciones w st)), disk')
| FinError (e : exn) (disk' : disco) :
    Objetos.ss_confirmar_guardado
      (preparado w (Objetos.tras_secciones w st)) = true ->
    Objetos.w_cancelar w = false -> Objetos.w_confirmar w = true ->
    guardar_pendiente reloj w (preparado w (Objetos.tras_secciones w st)) disk
    = (Err e, disk') ->
    final reloj w st disk
          ([ErrorGuardado e], preparado w (Objetos.tras_secciones w st),
           disk').

Lemma pagina_final (reloj : N) (w : Objetos.entradas)
      (st : Objetos.session_state) (disk : disco) :
  final reloj w st disk (pagina reloj w st disk)
  /\ (Objetos.w_preparar w
      && negb (truthy (strip (Objetos.w_identificador w))) = false
      \/ pagina reloj w st disk
         = ([ErrorObligatorio], Objetos.tras_secciones w st, disk)).
Proof.
  unfold Objetos.pagina_nuevo_informe.
  destruct (Objetos.w_preparar w) eqn:Hp; cbn [andb].
  - destruct (truthy (strip (Objetos.w_identificador w))) eqn:Ht; cbn [negb].
    + split; [|now left].
      assert (Hc : Objetos.ss_confirmar_guardado
                     (preparado w (Objetos.tras_secciones w st)) = true)
        by (unfold Objetos.tras_preparar; now rewrite Hp).
      rewrite Hc.
      destruct (Objetos.w_cancelar w) eqn:Hx; [now apply FinCancelar|].
      destruct (Objetos.w_confirmar w) eqn:Hy; [|now apply FinEspera].
      destruct (guardar_pendiente reloj w _ disk) as [[[p b]|e] d'] eqn:E.
      * now apply FinGuardado.
      * now apply FinError.
    + split; [now apply FinObligatorio | now right].
  - split; [|now left].
    destruct (Objetos.ss_confirmar_guardado
                (preparado w (Objetos.tras_secciones w st))) eqn:Hc.
    + destruct (Objetos.w_cancelar w) eqn:Hx; [now apply FinCancelar|].
      destruct (Objetos.w_confirmar w) eqn:Hy; [|now apply FinEspera].
      destruct (guardar_pendiente reloj w _ disk) as [[[p b]|e] d'] eqn:E.
      * now apply FinGuardado.
      * now apply FinError.
    + assert (Hs : preparado w (Objetos.tras_secciones w st)
                   = Objetos.tras_secciones w st)
        by (unfold Objetos.tras_preparar; now rewrite Hp).
      rewrite Hs in *. now apply FinSinPendiente.
Qed.

(** C2 (amended): the identifier is checked by the page, not by the save.
    When "Preparar" is pressed with an identifier that is empty once
    stripped, the page shows the error and returns: no report is staged
    (the pending report, the folder and the confirmation flag of the
    session are as they were) and the disk is not touched.  The section
    widgets have run before the check, so the session holds its section
    objects with the values of the widgets. *)
Theorem C2_identificador_obligatorio
        (reloj : N) (w : Objetos.entradas) (st : Objetos.session_state)
        (disk : disco) :
  Objetos.w_preparar w = true ->
  strip (Objetos.w_identificador w) = ""%string ->
  pagina reloj w st disk
  = ([ErrorObligatorio], Objetos.tras_secciones w st, disk)
  /\ Objetos.ss_informe_pendiente (Objetos.tras_secciones w st)
     = Objetos.ss_informe_pendiente st
  /\ Objetos.ss_dir_guardado (Objetos.tras_secciones w st)
     = Objetos.ss_dir_guardado st
  /\ Objetos.ss_confirmar_guardado (Objetos.tras_secciones w st)
     = Objetos.ss_confirmar_guardado st.
Proof.
  intros Hp Hs. unfold Objetos.pagina_nuevo_informe.
  rewrite Hp, Hs. repeat split.
Qed.

Lemma preparado_ok (w : Objetos.entradas) (st : Objetos.session_state) :
  Objetos.w_preparar w
  && negb (truthy (strip (Objetos.w_identificador w))) = false ->
  estado_ok st ->
  estado_ok (preparado w (Objetos.tras_secciones w st)).
Proof.
  intros Hg Hok. pose proof (tras_secciones_ok w st Hok) as Hok0.
  unfold Objetos.tras_preparar.
  destruct (Objetos.w_preparar w); [|exact Hok0].
  cbn [andb] in Hg. apply negb_false_iff in Hg.
  destruct Hok0 as (H1 & _ & _). split; [exact H1|]. split.
  - cbn [Objetos.ss_informe_pendiente Objetos.ss_secciones
         Objetos.tras_secciones].
    intros o Ho. injection Ho as <-. reflexivity.
  - intros _. eexists. split; [reflexivity|].
    cbn [Objetos.valor_informe identificador Objetos.o_identificador].
    split; [exact Hg | apply strip_idem].
Qed.

Lemma cerrar_ok (st : Objetos.session_state) :
  estado_ok st -> estado_ok (Objetos.cerrar st).
Proof.
  intros (H1 & _ & _). split; [exact H1|]. split; [discriminate|].
  intros H. discriminate H.
Qed.

Lemma pagina_ok (reloj : N) (w : Objetos.entradas)
      (st : Objetos.session_state) (disk : disco) :
  estado_ok st -> estado_ok (snd (fst (pagina reloj w st disk))).
Proof.
  intros Hok. destruct (pagina_final reloj w st disk) as [_ [Hg|E]].
  - pose proof (preparado_ok w st Hg Hok) as Hok1.
    unfold Objetos.pagina_nuevo_informe. rewrite Hg.
    destruct (Objetos.ss_confirmar_guardado _); [|exact Hok1].
    destruct (Objetos.w_cancelar w); [now apply cerrar_ok|].
    destruct (Objetos.w_confirmar w); [|exact Hok1].
    destruct (guardar_pendiente reloj w _ disk) as [[[p b]|e] d'];
      [now apply cerrar_ok | exact Hok1].
  - rewrite E. now apply tras_secciones_ok.
Qed.

(** X15: Every run of the page keeps the session well formed: the session
    names its section objects, a staged report holds those same objects,
    and a confirmation is pending only for a staged report whose
    identifier is stripped and not empty. *)
Theorem pagina_conserva_estado_ok
        (reloj : N) (w : Objetos.entradas) (st : Objetos.session_state)
        (disk : disco) :
  estado_ok st -> estado_ok (snd (fst (pagina reloj w st disk))).
Proof. apply pagina_ok. Qed.

Lemma pagina_objetos (reloj : N) (w : Objetos.entradas)
      (st : Objetos.session_state) (disk : disco) :
  Objetos.objetos (snd (fst (pagina reloj w st disk)))
  = Objetos.objetos (Objetos.tras_secciones w st)
  /\ Objetos.ss_secciones (snd (fst (pagina reloj w st disk)))
     = Some (Objetos.refs_secciones st).
Proof.
  assert (Hp : forall s,
             Objetos.objetos (preparado w s) = Objetos.objetos s
             /\ Objetos.ss_secciones (preparado w s) = Objetos.ss_secciones s)
    by (intros s; unfold Objetos.tras_preparar;
        destruct (Objetos.w_preparar w); split; reflexivity).
  destruct (pagina_final reloj w st disk) as [H _].
  destruct H; cbn [fst snd Objetos.cerrar Objetos.objetos Objetos.ss_secciones];
    try (destruct (Hp (Objetos.tras_secciones w st)) as [-> ->]);
    split; reflexivity.
Qed.

(** X16: [ui_seccion] and [radio_estado]: after a run the sections of the
    session are those it had (the default ones in the first run), with
    the same titles and the same descriptions in the same order; every
    status is one of the four options of the radio. *)
Theorem pagina_conserva_secciones
        (reloj : N) (w : Objetos.entradas) (st : Objetos.session_state)
        (disk : disco) :
  estado_ok st ->
  let despues := Objetos.objetos (snd (fst (pagina reloj w st disk))) in
  map titulo despues = map titulo (secciones_de st)
  /\ map (fun s => map descripcion (items s)) despues
     = map (fun s => map descripcion (items s)) (secciones_de st)
  /\ Forall (fun s =>
               Forall (fun it =>
                         In (estado it) [""; "OK"; "NOK"; "N/A"]%string)
                      (items s))
            despues.
Proof.
  intros Hok despues. subst despues.
  destruct (pagina_objetos reloj w st disk) as [-> _].
  destruct (tras_secciones_objetos w st Hok) as [-> _].
  generalize 0. induction (secciones_de st) as [|s r IH]; intros i.
  - repeat split; constructor.
  - destruct (IH (S i)) as (H1 & H2 & H3).
    cbn [ui_todas map Objetos.ui_seccion titulo items].
    rewrite H1, H2, ui_items_descripcion.
    repeat split. constructor; [apply ui_items_estado | exact H3].
Qed.

(** X17: The page writes nothing unless "Confirmar y guardar" is pressed,
    "Cancelar" is not, and a confirmation is pending or being staged in
    this run. *)
Theorem pagina_sin_confirmar_no_escribe
        (reloj : N) (w : Objetos.entradas) (st : Objetos.session_state)
        (disk : disco) :
  Objetos.w_confirmar w && negb (Objetos.w_cancelar w)
  && (Objetos.w_preparar w || Objetos.ss_confirmar_guardado st) = false ->
  snd (pagina reloj w st disk) = disk.
Proof.
  intros H. destruct (pagina_final reloj w st disk) as [F _].
  destruct F as [| | | |p b d' Hc Hx Hy _|e d' Hc Hx Hy _]; try reflexivity;
    exfalso; rewrite Hx, Hy in H; cbn in H;
    unfold Objetos.tras_preparar in Hc;
    destruct (Objetos.w_preparar w); try discriminate H;
    cbn in H, Hc; congruence.
Qed.

Lemma guardar_pendiente_inv (reloj : N) (w : Objetos.entradas)
      (st : Objetos.session_state) (disk disk' : disco)
      (pdf : path) (bytes : string) :
  guardar_pendiente reloj w st disk = (Ok (pdf, bytes), disk') ->
  exists o d0 jp,
    Objetos.ss_informe_pendiente st = Some o
    /\ mkdir_parents disk (resolve (Objetos.w_nueva_ruta w)) = (None, d0)
    /\ guardar_informe REPORTS_DIR doc_build reloj
         (con_secciones o (Objetos.valores (Objetos.objetos st)
                                           (Objetos.o_secciones o)))
         (Some (resolve (Objetos.w_nueva_ruta w))) d0
       = (Ok (jp, pdf), disk')
    /\ read_file disk' pdf = Ok bytes.
Proof.
  unfold Objetos.confirmar_y_guardar.
  destruct (mkdir_parents disk (resolve (Objetos.w_nueva_ruta w)))
    as [[e|] d0]; [discriminate|].
  destruct (Objetos.ss_informe_pendiente st) as [o|]; [|discriminate].
  change (Objetos.valor_informe (Objetos.objetos st) o)
    with (con_secciones o (Objetos.valores (Objetos.objetos st)
                                           (Objetos.o_secciones o))).
  destruct (guardar_informe _ _ _ _ _ _) as [[[jp pp]|e] d1] eqn:G;
    [|discriminate].
  cbn [snd]. destruct (read_file d1 pp) as [b|e] eqn:R; [|discriminate].
  intros H. injection H as <- <- <-. now exists o, d0, jp.
Qed.

Lemma pagina_guardado (reloj : N) (w : Objetos.entradas)
      (st st' : Objetos.session_state) (disk disk' : disco)
      (avisos : list aviso) (pdf : path) (bytes : string) :
  estado_ok st ->
  pagina reloj w st disk = (avisos, st', disk') ->
  In (Guardado pdf bytes) avisos ->
  exists o d0 jp,
    Objetos.ss_informe_pendiente (preparado w (Objetos.tras_secciones w st))
    = Some o
    /\ truthy (Objetos.o_identificador o) = true
    /\ mkdir_parents disk (resolve (Objetos.w_nueva_ruta w)) = (None, d0)
    /\ guardar_informe REPORTS_DIR doc_build reloj
         (con_secciones o (ui_todas w 0 (secciones_de st)))
         (Some (resolve (Objetos.w_nueva_ruta w))) d0
       = (Ok (jp, pdf), disk')
    /\ read_file disk' pdf = Ok bytes
    /\ Objetos.ss_informe_pendiente st' = None
    /\ Objetos.ss_confirmar_guardado st' = false.
Proof.
  intros Hok E Hin.
  destruct (pagina_final reloj w st disk) as [F Hg]. rewrite E in F, Hg.
  inversion F as [| | | |p b d' Hc Hx Hy G|]; subst;
    try (destruct Hin as [Hin|[]]; discriminate Hin); try (now destruct Hin).
  destruct Hin as [Hin|[]]. injection Hin as -> ->.
  destruct Hg as [Hg|Hg]; [|discriminate Hg].
  pose proof (preparado_ok w st Hg Hok) as (H1 & H2 & H3).
  destruct (guardar_pendiente_inv _ _ _ _ _ _ _ G)
    as (o & d0 & jp & Hp & Hm & Hs & Hr).
  specialize (H2 o Hp). rewrite H2 in H1.
  assert (Ho : Objetos.objetos (preparado w (Objetos.tras_secciones w st))
               = ui_todas w 0 (secciones_de st)).
  { destruct (tras_secciones_objetos w st Hok) as [<- _].
    unfold Objetos.tras_preparar. now destruct (Objetos.w_preparar w). }
  rewrite H1, valores_todos, Ho in Hs.
  destruct (H3 Hc) as (a & Ha & Ht & _).
  unfold Objetos.vista in Ha. cbn [informe_pendiente] in Ha.
  rewrite Hp in Ha. cbn [option_map] in Ha. injection Ha as <-.
  exists o, d0, jp. repeat split; auto.
Qed.

(** X18: The report that is saved has the sections as the widgets of the run
    that saves show them, whatever they showed when it was staged: the
    staged report holds the section objects of the session, and every
    run changes them. *)
Theorem pagina_guarda_secciones_actuales
        (reloj : N) (w : Objetos.entradas) (st st' : Objetos.session_state)
        (disk disk' : disco) (avisos : list aviso)
        (pdf : path) (bytes : string) :
  estado_ok st ->
  pagina reloj w st disk = (avisos, st', disk') ->
  In (Guardado pdf bytes) avisos ->
  exists o d0 jp,
    Objetos.ss_informe_pendiente (preparado w (Objetos.tras_secciones w st))
    = Some o
    /\ truthy (Objetos.o_identificador o) = true
    /\ mkdir_parents disk (resolve (Objetos.w_nueva_ruta w)) = (None, d0)
    /\ guardar_informe REPORTS_DIR doc_build reloj
         (con_secciones o (ui_todas w 0 (secciones_de st)))
         (Some (resolve (Objetos.w_nueva_ruta w))) d0
       = (Ok (jp, pdf), disk')
    /\ read_file disk' pdf = Ok bytes
    /\ Objetos.ss_informe_pendiente st' = None
    /\ Objetos.ss_confirmar_guardado st' = false.
Proof. apply pagina_guardado. Qed.

(** X19: Staged in one run and confirmed in a later one: the identifier, the
    other fields of the form and the time are those of the run that
    staged the report, the sections are those of the run that saves. *)
Theorem preparar_y_confirmar
        (reloj1 reloj2 : N) (w1 w2 : Objetos.entradas)
        (st st1 st2 : Objetos.session_state) (disk disk1 disk2 : disco)
        (avisos1 avisos2 : list aviso) (pdf : path) (bytes : string) :
  estado_ok st ->
  Objetos.w_preparar w1 = true ->
  truthy (strip (Objetos.w_identificador w1)) = true ->
  pagina reloj1 w1 st disk = (avisos1, st1, disk1) ->
  Objetos.w_preparar w2 = false ->
  pagina reloj2 w2 st1 disk1 = (avisos2, st2, disk2) ->
  In (Guardado pdf bytes) avisos2 ->
  exists d0 jp,
    mkdir_parents disk1 (resolve (Objetos.w_nueva_ruta w2)) = (None, d0)
    /\ guardar_informe REPORTS_DIR doc_build reloj2
         {| identificador := strip (Objetos.w_identificador w1);
            modelo := strip (Objetos.w_modelo w1);
            cliente := strip (Objetos.w_cliente w1);
            fecha_inspeccion := Objetos.w_fecha_inspeccion w1;
            fecha_fabricacion := strip (Objetos.w_fecha_fabricacion w1);
            documento := strip (Objetos.w_documento w1);
            secciones := ui_todas w2 0 (secciones_de st);
            creado_en := Objetos.w_ahora w1 |}
         (Some (resolve (Objetos.w_nueva_ruta w2))) d0
       = (Ok (jp, pdf), disk2).
Proof.
  intros Hok Hp1 Ht1 E1 Hp2 E2 Hin.
  assert (Hok1 : estado_ok st1).
  { pose proof (pagina_ok reloj1 w1 st disk Hok) as H.
    now rewrite E1 in H. }
  destruct (pagina_guardado reloj2 w2 st1 st2 disk1 disk2 avisos2 pdf bytes
              Hok1 E2 Hin)
    as (o & d0 & jp & Ho & _ & Hm & Hs & _).
  exists d0, jp. split; [exact Hm|].
  assert (Hsame : preparado w2 (Objetos.tras_secciones w2 st1)
                  = Objetos.tras_secciones w2 st1)
    by (unfold Objetos.tras_preparar; now rewrite Hp2).
  rewrite Hsame in Ho. cbn [Objetos.ss_informe_pendiente
                             Objetos.tras_secciones] in Ho.
  (* the objects after the first run *)
  destruct (pagina_objetos reloj1 w1 st disk) as [Hobj Hrefs].
  rewrite E1 in Hobj, Hrefs. cbn [fst snd] in Hobj, Hrefs.
  destruct (tras_secciones_objetos w1 st Hok) as [Hobj0 _].
  assert (Hsec : secciones_de st1 = ui_todas w1 0 (secciones_de st)).
  { unfold secciones_de at 1. now rewrite Hrefs, Hobj, Hobj0. }
  rewrite Hsec, ui_todas_absorbe in Hs.
  (* the report staged by the first run *)
  assert (Hst1 : Objetos.ss_informe_pendiente st1
                 = Some {| Objetos.o_identificador :=
                             strip (Objetos.w_identificador w1);
                           Objetos.o_modelo := strip (Objetos.w_modelo w1);
                           Objetos.o_cliente := strip (Objetos.w_cliente w1);
                           Objetos.o_fecha_inspeccion :=
                             Objetos.w_fecha_inspeccion w1;
                           Objetos.o_fecha_fabricacion :=
                             strip (Objetos.w_fecha_fabricacion w1);
                           Objetos.o_documento :=
                             strip (Objetos.w_documento w1);
                           Objetos.o_secciones :=
                             Objetos.refs_secciones
                               (Objetos.tras_secciones w1 st);
                           Objetos.o_creado_en := Objetos.w_ahora w1 |}
                 \/ Objetos.ss_informe_pendiente st1 = None).
  { destruct (pagina_final reloj1 w1 st disk) as [F _]. rewrite E1 in F.
    inversion F; subst; try congruence;
      try (now right);
      left; unfold Objetos.tras_preparar; now rewrite Hp1. }
  destruct Hst1 as [Hst1|Hst1]; rewrite Hst1 in Ho; [|discriminate Ho].
  injection Ho as <-. exact Hs.
Qed.

(** X20: When the save fails the report stays staged and the confirmation
    stays pending, so that it can be confirmed again. *)
Theorem pagina_error_guardado
        (reloj : N) (w : Objetos.entradas) (st st' : Objetos.session_state)
        (disk disk' : disco) (avisos : list aviso) (e : exn) :
  estado_ok st ->
  pagina reloj w st disk = (avisos, st', disk') ->
  In (ErrorGuardado e) avisos ->
  st' = preparado w (Objetos.tras_secciones w st)
  /\ Objetos.ss_confirmar_guardado st' = true
  /\ (exists o, Objetos.ss_informe_pendiente st' = Some o)
  /\ fst (guardar_pendiente reloj w st' disk) = Err e.
Proof.
  intros Hok E Hin.
  destruct (pagina_final reloj w st disk) as [F Hg]. rewrite E in F, Hg.
  inversion F as [| | | | |e' d' Hc Hx Hy G]; subst;
    try (destruct Hin as [Hin|[]]; discriminate Hin); try (now destruct Hin).
  destruct Hin as [Hin|[]]. injection Hin as ->.
  destruct Hg as [Hg|Hg]; [|discriminate Hg].
  pose proof (preparado_ok w st Hg Hok) as (_ & _ & H3).
  destruct (H3 Hc) as (a & Ha & _).
  split; [reflexivity|]. split; [exact Hc|]. split.
  - unfold Objetos.vista in Ha. cbn [informe_pendiente] in Ha.
    destruct (Objetos.ss_informe_pendiente _) as [o|]; [|discriminate Ha].
    now exists o.
  - now rewrite G.
Qed.

End PaginaObjetos.

(** *** Two runs of the page on sample data *)

Module MuestraPagina.

(** "Preparar" is pressed with every status at OK. *)
Definition w1 : Objetos.entradas :=
  {| Objetos.w_radio := fun _ => Objetos.OpOK;
     Objetos.w_text_input := fun _ => "";
     Objetos.w_text_area := fun _ => "";
     Objetos.w_identificador := " Q-001 ";
     Objetos.w_modelo := "X1";
     Objetos.w_cliente := "Acme";
     Objetos.w_fecha_inspeccion := "01/02/2024";
     Objetos.w_fecha_fabricacion := "01/2024";
     Objetos.w_documento := "DOC-7";
     Objetos.w_ahora := "2024-01-01 10:00:00";
     Objetos.w_nueva_ruta := "/reports";
     Objetos.w_preparar := true;
     Objetos.w_confirmar := false;
     Objetos.w_cancelar := false |}.

(** "Confirmar y guardar" is pressed after every status was set to NOK
    and the identifier field was cleared. *)
Definition w2 : Objetos.entradas :=
  {| Objetos.w_radio := fun _ => Objetos.OpNOK;
     Objetos.w_text_input := fun _ => "revisar";
     Objetos.w_text_area := fun _ => "";
     Objetos.w_identificador := "";
     Objetos.w_modelo := "X1";
     Objetos.w_cliente := "Acme";
     Objetos.w_fecha_inspeccion := "01/02/2024";
     Objetos.w_fecha_fabricacion := "01/2024";
     Objetos.w_documento := "DOC-7";
     Objetos.w_ahora := "2024-01-01 10:05:00";
     Objetos.w_nueva_ruta := "/reports";
     Objetos.w_preparar := false;
     Objetos.w_confirmar := true;
     Objetos.w_cancelar := false |}.

Definition corrida1 : list aviso * Objetos.session_state * disco :=
  Objetos.pagina_nuevo_informe Muestra.raiz Muestra.pdf_fijo Muestra.resolver
                               0 w1 Objetos.sesion_inicial
                               Muestra.disco_inicial.

Definition corrida2 : list aviso * Objetos.session_state * disco :=
  Objetos.pagina_nuevo_informe Muestra.raiz Muestra.pdf_fijo Muestra.resolver
                               1 w2 (snd (fst corrida1)) (snd corrida1).

(** The second run when the renderer fails. *)
Definition corrida2_falla : list aviso * Objetos.session_state * disco :=
  Objetos.pagina_nuevo_informe Muestra.raiz Muestra.pdf_falla Muestra.resolver
                               1 w2 (snd (fst corrida1)) (snd corrida1).

Definition pdf1 : path := ["reports"; "Q-001"; "Q-001.pdf"].

(** U+00A0, the no-break space, in UTF-8. *)
Definition nbsp : string := String "194" (String "160" "").

(** "Preparar" is pressed again with an identifier of white space only: a
    space, a no-break space and a tabulation. *)
Definition w_blanco : Objetos.entradas :=
  {| Objetos.w_radio := fun _ => Objetos.OpNA;
     Objetos.w_text_input := fun _ => "";
     Objetos.w_text_area := fun _ => "";
     Objetos.w_identificador := " " ++ nbsp ++ String "009" "";
     Objetos.w_modelo := "X1";
     Objetos.w_cliente := "Acme";
     Objetos.w_fecha_inspeccion := "01/02/2024";
     Objetos.w_fecha_fabricacion := "01/2024";
     Objetos.w_documento := "DOC-7";
     Objetos.w_ahora := "2024-01-01 10:03:00";
     Objetos.w_nueva_ruta := "/reports";
     Objetos.w_preparar := true;
     Objetos.w_confirmar := false;
     Objetos.w_cancelar := false |}.

End MuestraPagina.

Lemma corrida1_ok : estado_ok (snd (fst MuestraPagina.corrida1)).
Proof. apply pagina_ok. apply sesion_inicial_ok. Qed.

Lemma C2_identificador_obligatorio_witness :
  Objetos.pagina_nuevo_informe Muestra.raiz Muestra.pdf_fijo Muestra.resolver
    2 MuestraPagina.w_blanco (snd (fst MuestraPagina.corrida1))
    (snd MuestraPagina.corrida1)
  = ([ErrorObligatorio],
     Objetos.tras_secciones MuestraPagina.w_blanco
                            (snd (fst MuestraPagina.corrida1)),
     snd MuestraPagina.corrida1)
  /\ Objetos.ss_informe_pendiente
       (Objetos.tras_secciones MuestraPagina.w_blanco
                               (snd (fst MuestraPagina.corrida1)))
     = Objetos.ss_informe_pendiente (snd (fst MuestraPagina.corrida1))
  /\ Objetos.ss_dir_guardado
       (Objetos.tras_secciones MuestraPagina.w_blanco
                               (snd (fst MuestraPagina.corrida1)))
     = Objetos.ss_dir_guardado (snd (fst MuestraPagina.corrida1))
  /\ Objetos.ss_confirmar_guardado
       (Objetos.tras_secciones MuestraPagina.w_blanco
                               (snd (fst MuestraPagina.corrida1)))
     = Objetos.ss_confirmar_guardado (snd (fst MuestraPagina.corrida1)).
Proof.
  apply (C2_identificador_obligatorio Muestra.raiz Muestra.pdf_fijo
           Muestra.resolver 2 MuestraPagina.w_blanco
           (snd (fst MuestraPagina.corrida1)) (snd MuestraPagina.corrida1)).
  - reflexivity.
  - vm_compute. reflexivity.
Defined.

Lemma corrida2_avisos :
  fst (fst MuestraPagina.corrida2)
  = [Guardado MuestraPagina.pdf1 "%PDF-1.4"]
  /\ fst (fst MuestraPagina.corrida2_falla) = [ErrorGuardado BuildError].
Proof. split; vm_compute; reflexivity. Qed.

Lemma pagina_conserva_estado_ok_witness :
  estado_ok Objetos.sesion_inicial
  /\ estado_ok (snd (fst MuestraPagina.corrida1)).
Proof.
  split; [apply sesion_inicial_ok|].
  apply (pagina_conserva_estado_ok Muestra.raiz Muestra.pdf_fijo
           Muestra.resolver 0 MuestraPagina.w1 Objetos.sesion_inicial
           Muestra.disco_inicial).
  apply sesion_inicial_ok.
Defined.

Lemma pagina_conserva_secciones_witness :
  map titulo (Objetos.objetos (snd (fst MuestraPagina.corrida1)))
  = map titulo secciones_por_defecto
  /\ map (fun s => map descripcion (items s))
         (Objetos.objetos (snd (fst MuestraPagina.corrida1)))
     = map (fun s => map descripcion (items s)) secciones_por_defecto
  /\ Forall (fun s =>
               Forall (fun it =>
                         In (estado it) [""; "OK"; "NOK"; "N/A"]%string)
                      (items s))
            (Objetos.objetos (snd (fst MuestraPagina.corrida1))).
Proof.
  exact (pagina_conserva_secciones Muestra.raiz Muestra.pdf_fijo
           Muestra.resolver 0 MuestraPagina.w1 Objetos.sesion_inicial
           Muestra.disco_inicial sesion_inicial_ok).
Defined.

Lemma pagina_sin_confirmar_no_escribe_witness :
  snd MuestraPagina.corrida1 = Muestra.disco_inicial.
Proof.
  apply (pagina_sin_confirmar_no_escribe Muestra.raiz Muestra.pdf_fijo
           Muestra.resolver 0 MuestraPagina.w1 Objetos.sesion_inicial
           Muestra.disco_inicial).
  reflexivity.
Defined.

Lemma pagina_guarda_secciones_actuales_witness :
  exists o d0 jp,
    Objetos.ss_informe_pendiente
      (Objetos.tras_preparar Muestra.raiz MuestraPagina.w2
         (Objetos.tras_secciones MuestraPagina.w2
            (snd (fst MuestraPagina.corrida1))))
    = Some o
    /\ truthy (Objetos.o_identificador o) = true
    /\ mkdir_parents (snd MuestraPagina.corrida1)
                     (Muestra.resolver
                        (Objetos.w_nueva_ruta MuestraPagina.w2))
       = (None, d0)
    /\ guardar_informe Muestra.raiz Muestra.pdf_fijo 1
         (con_secciones o
            (ui_todas MuestraPagina.w2 0
               (secciones_de (snd (fst MuestraPagina.corrida1)))))
         (Some (Muestra.resolver (Objetos.w_nueva_ruta MuestraPagina.w2)))
         d0
       = (Ok (jp, MuestraPagina.pdf1), snd MuestraPagina.corrida2)
    /\ read_file (snd MuestraPagina.corrida2) MuestraPagina.pdf1
       = Ok "%PDF-1.4"
    /\ Objetos.ss_informe_pendiente (snd (fst MuestraPagina.corrida2)) = None
    /\ Objetos.ss_confirmar_guardado (snd (fst MuestraPagina.corrida2))
       = false.
Proof.
  apply (pagina_guarda_secciones_actuales Muestra.raiz Muestra.pdf_fijo
           Muestra.resolver 1 MuestraPagina.w2
           (snd (fst MuestraPagina.corrida1))
           (snd (fst MuestraPagina.corrida2))
           (snd MuestraPagina.corrida1) (snd MuestraPagina.corrida2)
           (fst (fst MuestraPagina.corrida2))
           MuestraPagina.pdf1 "%PDF-1.4").
  - apply corrida1_ok.
  - vm_compute. reflexivity.
  - vm_compute. left. reflexivity.
Defined.

Lemma preparar_y_confirmar_witness :
  exists d0 jp,
    mkdir_parents (snd MuestraPagina.corrida1)
                  (Muestra.resolver (Objetos.w_nueva_ruta MuestraPagina.w2))
    = (None, d0)
    /\ guardar_informe Muestra.raiz Muestra.pdf_fijo 1
         {| identificador := strip (Objetos.w_identificador MuestraPagina.w1);
            modelo := strip (Objetos.w_modelo MuestraPagina.w1);
            cliente := strip (Objetos.w_cliente MuestraPagina.w1);
            fecha_inspeccion := Objetos.w_fecha_inspeccion MuestraPagina.w1;
            fecha_fabricacion :=
              strip (Objetos.w_fecha_fabricacion MuestraPagina.w1);
            documento := strip (Objetos.w_documento MuestraPagina.w1);
            secciones :=
              ui_todas MuestraPagina.w2 0
                       (secciones_de Objetos.sesion_inicial);
            creado_en := Objetos.w_ahora MuestraPagina.w1 |}
         (Some (Muestra.resolver (Objetos.w_nueva_ruta MuestraPagina.w2)))
         d0
       = (Ok (jp, MuestraPagina.pdf1), snd MuestraPagina.corrida2).
Proof.
  apply (preparar_y_confirmar Muestra.raiz Muestra.pdf_fijo
           Muestra.resolver 0 1 MuestraPagina.w1 MuestraPagina.w2
           Objetos.sesion_inicial
           (snd (fst MuestraPagina.corrida1))
           (snd (fst MuestraPagina.corrida2))
           Muestra.disco_inicial
           (snd MuestraPagina.corrida1) (snd MuestraPagina.corrida2)
           (fst (fst MuestraPagina.corrida1))
           (fst (fst MuestraPagina.corrida2))
           MuestraPagina.pdf1 "%PDF-1.4").
  - apply sesion_inicial_ok.
  - reflexivity.
  - reflexivity.
  - vm_compute. reflexivity.
  - reflexivity.
  - vm_compute. reflexivity.
  - vm_compute. left. reflexivity.
Defined.

Lemma pagina_error_guardado_witness :
  snd (fst MuestraPagina.corrida2_falla)
  = Objetos.tras_preparar Muestra.raiz MuestraPagina.w2
      (Objetos.tras_secciones MuestraPagina.w2
         (snd (fst MuestraPagina.corrida1)))
  /\ Objetos.ss_confirmar_guardado (snd (fst MuestraPagina.corrida2_falla))
     = true
  /\ (exists o,
         Objetos.ss_informe_pendiente (snd (fst MuestraPagina.corrida2_falla))
         = Some o)
  /\ fst (Objetos.confirmar_y_guardar Muestra.raiz Muestra.pdf_falla
            Muestra.resolver 1 MuestraPagina.w2
            (snd (fst MuestraPagina.corrida2_falla))
            (snd MuestraPagina.corrida1))
     = Err BuildError.
Proof.
  apply (pagina_error_guardado Muestra.raiz Muestra.pdf_falla
           Muestra.resolver 1 MuestraPagina.w2
           (snd (fst MuestraPagina.corrida1))
           (snd (fst MuestraPagina.corrida2_falla))
           (snd MuestraPagina.corrida1) (snd MuestraPagina.corrida2_falla)
           (fst (fst MuestraPagina.corrida2_falla)) BuildError).
  - apply corrida1_ok.
  - vm_compute. reflexivity.
  - vm_compute. left. reflexivity.
Defined.

(** *** The saves on sample data *)

Module MuestraGuardar.

(** A second report with the identifier of [Muestra.informe1]. *)
Definition informe1_bis : InformeQC :=
  Muestra.informe_de "Q-001" "Beta" "2024-03-01 08:00:00".

(** A disk where the folder name of [Q-001] is taken by a file. *)
Definition disco_ocupado : disco :=
  [("reports", Dir [("Q-001", File "x")])].

Definition informe_abs : InformeQC :=
  Muestra.informe_de "/x" "Acme" "2024-01-01 10:00:00".

Definition informe_barra : InformeQC :=
  Muestra.informe_de "a/b" "Acme" "2024-01-01 10:00:00".

(** The listing after the first sample save. *)
Definition listado1 : list fila :=
  match cargar_informes Muestra.raiz Muestra.disco1 with
  | Some rows => rows
  | None => []
  end.

End MuestraGuardar.

Lemma guardar_informe_conserva_directorios_witness :
  walk Muestra.disco1 [] ["reports"] = Ok ["reports"].
Proof.
  apply (guardar_informe_conserva_directorios Muestra.raiz Muestra.pdf_fijo
           0 Muestra.informe1 None Muestra.disco_inicial Muestra.disco1
           (fst (Muestra.guardar Muestra.informe1 Muestra.disco_inicial))
           [] ["reports"] ["reports"]).
  - vm_compute. reflexivity.
  - reflexivity.
Defined.

Lemma guardar_informe_conserva_archivos_witness :
  stat Muestra.disco2 ["reports"; "Q-001"; "Q-001.pdf"]
  = Some (IsFile "%PDF-1.4")
  \/ stat Muestra.disco2 ["reports"; "Q-001"; "Q-001.pdf"]
     = Some (IsFile (json_dump (asdict Muestra.informe2)))
  \/ exists bytes,
       Muestra.pdf_fijo 0 (contenido Muestra.informe2) = Some bytes
       /\ stat Muestra.disco2 ["reports"; "Q-001"; "Q-001.pdf"]
          = Some (IsFile bytes).
Proof.
  apply (guardar_informe_conserva_archivos Muestra.raiz Muestra.pdf_fijo
           0 Muestra.informe2 None Muestra.disco1 Muestra.disco2
           (fst (Muestra.guardar Muestra.informe2 Muestra.disco1))
           ["reports"; "Q-001"; "Q-001.pdf"] "%PDF-1.4").
  - vm_compute. reflexivity.
  - vm_compute. reflexivity.
Defined.

Lemma guardar_informe_carpeta_ocupada_witness :
  guardar_informe Muestra.raiz Muestra.pdf_fijo 0 Muestra.informe1
                  (Some ["reports"]) MuestraGuardar.disco_ocupado
  = (Err FileExistsError, MuestraGuardar.disco_ocupado).
Proof.
  apply (guardar_informe_carpeta_ocupada Muestra.raiz Muestra.pdf_fijo
           0 Muestra.informe1 ["reports"] ["reports"]
           MuestraGuardar.disco_ocupado "x").
  - reflexivity.
  - reflexivity.
  - reflexivity.
Defined.

Lemma guardar_informe_id_absoluto_witness :
  guardar_informe Muestra.raiz Muestra.pdf_fijo 0 MuestraGuardar.informe_abs
                  (Some ["reports"; "otra"]) Muestra.disco_inicial
  = guardar_informe Muestra.raiz Muestra.pdf_fijo 0
                    MuestraGuardar.informe_abs None Muestra.disco_inicial.
Proof.
  apply (guardar_informe_id_absoluto Muestra.raiz Muestra.pdf_fijo
           0 MuestraGuardar.informe_abs (Some ["reports"; "otra"]) None
           Muestra.disco_inicial).
  reflexivity.
Defined.

Lemma guardar_informe_sobrescribe_witness :
  exists disk1 disk2,
    guardar_informe Muestra.raiz Muestra.pdf_fijo 0 Muestra.informe1
                    (Some ["reports"]) Muestra.disco_inicial
    = (Ok (["reports"; "Q-001"; "Q-001.json"],
           ["reports"; "Q-001"; "Q-001.pdf"]), disk1)
    /\ guardar_informe Muestra.raiz Muestra.pdf_fijo 1
                       MuestraGuardar.informe1_bis (Some ["reports"]) disk1
       = (Ok (["reports"; "Q-001"; "Q-001.json"],
              ["reports"; "Q-001"; "Q-001.pdf"]), disk2)
    /\ read_file disk2 ["reports"; "Q-001"; "Q-001.json"]
       = Ok (json_dump (asdict MuestraGuardar.informe1_bis))
    /\ read_file disk2 ["reports"; "Q-001"; "Q-001.pdf"] = Ok "%PDF-1.4".
Proof.
  apply (guardar_informe_sobrescribe Muestra.raiz Muestra.pdf_fijo 0 1
           Muestra.informe1 MuestraGuardar.informe1_bis
           ["reports"] ["reports"] Muestra.disco_inicial
           "%PDF-1.4" "%PDF-1.4").
  - reflexivity.
  - reflexivity.
  - reflexivity.
  - left. reflexivity.
  - reflexivity.
  - reflexivity.
Defined.

Lemma guardar_y_listar_witness :
  exists r,
    In r MuestraGuardar.listado1
    /\ col_identificador r = JStr "Q-001"
    /\ col_modelo r = JStr "X1"
    /\ col_cliente r = JStr "Acme"
    /\ col_fecha_inspeccion r = JStr "01/02/2024"
    /\ col_fecha_fabricacion r = JStr "01/2024"
    /\ col_documento r = JStr "DOC-7"
    /\ col_creado_en r = JStr "2024-01-01 10:00:00"
    /\ col_carpeta r = str (Muestra.raiz ++ ["Q-001"])%list
    /\ col_json r = str ["reports"; "Q-001"; "Q-001.json"]
    /\ col_pdf r = str ["reports"; "Q-001"; "Q-001.pdf"].
Proof.
  apply (guardar_y_listar Muestra.raiz Muestra.pdf_fijo 0 Muestra.informe1
           Muestra.disco_inicial Muestra.disco1
           ["reports"; "Q-001"; "Q-001.json"]
           ["reports"; "Q-001"; "Q-001.pdf"] MuestraGuardar.listado1).
  - repeat constructor. discriminate.
  - reflexivity.
  - vm_compute. reflexivity.
  - vm_compute. reflexivity.
Defined.

Lemma guardar_informe_id_con_barra_witness :
  guardar_informe Muestra.raiz Muestra.pdf_fijo 0
                  MuestraGuardar.informe_barra (Some ["reports"])
                  Muestra.disco_inicial
  = (Err FileNotFoundError,
     update (["reports"] ++ ["a"; "b"])%list (Dir [])
            (update (["reports"] ++ ["a"])%list (Dir [])
                    Muestra.disco_inicial)).
Proof.
  apply (guardar_informe_id_con_barra Muestra.raiz Muestra.pdf_fijo 0
           MuestraGuardar.informe_barra "a" "b" ["reports"] ["reports"]
           Muestra.disco_inicial).
  - reflexivity.
  - reflexivity.
  - reflexivity.
  - reflexivity.
  - reflexivity.
Defined.

(* ================================================================= *)
(** ** More on the listing *)

Section NodeInd.
Variable P : node -> Prop.
Hypothesis HFile : forall x, P (File x).
Hypothesis HDir : forall es, Forall (fun kv => P (snd kv)) es -> P (Dir es).

Fixpoint node_nested_ind (n : node) : P n :=
  match n with
  | File x => HFile x
  | Dir es =>
      HDir es ((fix go (l : list (string * node))
                  : Forall (fun kv => P (snd kv)) l :=
                  match l with
                  | [] => Forall_nil _
                  | kv :: l' =>
                      Forall_cons kv (node_nested_ind (snd kv)) (go l')
                  end) es)
  end.
End NodeInd.

Section ListadoMas.
Local Open Scope list_scope.

Variable REPORTS_DIR : path.

(** [rglob] yields only paths below the directory it starts from whose
    last component ends in [.json]. *)
Lemma rglob_json_solo (n : node) :
  forall (here p : path),
    In p (rglob_json n here) ->
    exists rel name,
      p = here ++ rel ++ [name] /\ ends_with ".json" name = true.
Proof.
  induction n as [x|es IH] using node_nested_ind; intros here p H;
    [destruct H|].
  rewrite rglob_json_Dir in H. apply in_app_or in H. destruct H as [H|H].
  - apply in_map_iff in H. destruct H as ([k c] & <- & Hf).
    apply filter_In in Hf. destruct Hf as [_ He].
    now exists [], k.
  - apply in_flat_map in H. destruct H as ([k c] & Hkc & H).
    rewrite Forall_forall in IH. specialize (IH (k, c) Hkc).
    cbn [fst snd] in IH, H.
    destruct (IH (here ++ [k]) p H) as (rel & name & -> & He).
    exists (k :: rel), name. split; [|exact He].
    now rewrite <- app_assoc.
Qed.

Lemma length_flat_map_le {A B : Type} (f : A -> list B) (l : list A) :
  (forall a, length (f a) <= 1) -> length (flat_map f l) <= length l.
Proof.
  intros Hf. induction l as [|a l IH]; [reflexivity|].
  cbn [flat_map length]. rewrite length_app. specialize (Hf a). lia.
Qed.

(** X8: Every row of the listing comes from a file below [REPORTS_DIR] whose
    name ends in [.json] and whose text is a JSON object; its folder and
    its two paths are those of that file. *)
Theorem cargar_informes_solo_json
        (disk : disco) (rows : list fila) (r : fila) :
  cargar_informes REPORTS_DIR disk = Some rows ->
  In r rows ->
  exists rel name text data,
    ends_with ".json" name = true
    /\ read_file disk (REPORTS_DIR ++ rel ++ [name]) = Ok text
    /\ json_load text = Some (JObj data)
    /\ r = fila_de (REPORTS_DIR ++ rel) name data.
Proof.
  intros H Hr. apply sort_values_ordenado in H. destruct H as (_ & P & _).
  apply (Permutation_in _ (Permutation_sym P)) in Hr.
  apply In_recoger in Hr. destruct Hr as (jf & Hin & Hl).
  unfold rglob in Hin.
  destruct (lookup (Dir disk) REPORTS_DIR) as [n|]; [|destruct Hin].
  destruct (rglob_json_solo n REPORTS_DIR jf Hin) as (rel & name & -> & He).
  apply leer_fila_inv in Hl.
  destruct Hl as (D & name' & text & data & E & Hread & Hj & ->).
  rewrite app_assoc in E. apply app_inj_tail in E. destruct E as [<- <-].
  exists rel, name, text, data. auto.
Qed.

(** X9: The listing holds the collected rows, each once: sorting drops none
    and repeats none, and no path gives more than one row. *)
Theorem cargar_informes_permutacion (disk : disco) (rows : list fila) :
  cargar_informes REPORTS_DIR disk = Some rows ->
  Permutation (recoger REPORTS_DIR disk) rows
  /\ length rows <= length (rglob disk REPORTS_DIR).
Proof.
  intros H. apply sort_values_ordenado in H. destruct H as (_ & P & _).
  split; [exact P|].
  rewrite <- (Permutation_length P). unfold recoger.
  apply length_flat_map_le. intros jf.
  destruct (leer_fila disk jf); cbn; lia.
Qed.

End ListadoMas.

Lemma cargar_informes_solo_json_witness :
  exists rel name text data,
    ends_with ".json" name = true
    /\ read_file Muestra.disco1 (Muestra.raiz ++ rel ++ [name])%list = Ok text
    /\ json_load text = Some (JObj data)
    /\ hd (fila_de [] "" []) MuestraGuardar.listado1
       = fila_de (Muestra.raiz ++ rel)%list name data.
Proof.
  apply (cargar_informes_solo_json Muestra.raiz Muestra.disco1
           MuestraGuardar.listado1).
  - vm_compute. reflexivity.
  - vm_compute. left. reflexivity.
Defined.

Lemma cargar_informes_permutacion_witness :
  Permutation (recoger Muestra.raiz Muestra.disco2)
              (match cargar_informes Muestra.raiz Muestra.disco2 with
               | Some rows => rows
               | None => []
               end)
  /\ length (match cargar_informes Muestra.raiz Muestra.disco2 with
             | Some rows => rows
             | None => []
             end)
     <= length (rglob Muestra.disco2 Muestra.raiz).
Proof.
  apply (cargar_informes_permutacion Muestra.raiz Muestra.disco2).
  vm_compute. reflexivity.
Defined.

(* ================================================================= *)
(** ** The search with a query that has no special character *)

Section BusquedaLiteral.
Local Open Scope list_scope.

(** The three columns searched hold text, as in every row that comes
    from a report this program saved. *)
Definition columnas_de_texto (r : fila) : bool :=
  es_texto (col_identificador r) && es_texto (col_cliente r)
  && es_texto (col_modelo r).

(** Two ASCII characters that are the same, or the two cases of one
    letter. *)
Definition misma_letra (a b : ascii) : Prop :=
  a = b
  \/ ((65 <= N_of_ascii a <= 90)%N /\ N_of_ascii b = (N_of_ascii a + 32)%N)
  \/ ((65 <= N_of_ascii b <= 90)%N /\ N_of_ascii a = (N_of_ascii b + 32)%N).

(** Two texts of the same length, the same letter by letter. *)
Inductive mismo_texto : string -> string -> Prop :=
| mismo_vacio : mismo_texto "" ""
| mismo_letra (a b : ascii) (p m : string) :
    misma_letra a b -> mismo_texto p m ->
    mismo_texto (String a p) (String b m).

(** The query occurs in the text, letter case apart. *)
Definition ocurre (q s : string) : Prop :=
  exists pre m post, s = (pre ++ m ++ post)%string /\ mismo_texto q m.

Definition celda_ocurre (q : string) (v : json) : Prop :=
  exists s, v = JStr s /\ ocurre q s.

Lemma N_of_ascii_inj (a b : ascii) : N_of_ascii a = N_of_ascii b -> a = b.
Proof.
  intros H. rewrite <- (ascii_N_embedding a), <- (ascii_N_embedding b).
  now rewrite H.
Qed.

Lemma N_of_lower (a : ascii) :
  N_of_ascii (lower a)
  = if ((65 <=? N_of_ascii a) && (N_of_ascii a <=? 90))%N
    then (N_of_ascii a + 32)%N else N_of_ascii a.
Proof.
  unfold lower.
  destruct ((65 <=? N_of_ascii a) && (N_of_ascii a <=? 90))%N eqn:E;
    [|reflexivity].
  apply N_ascii_embedding.
  apply andb_prop in E. destruct E as [_ E]. apply N.leb_le in E. lia.
Qed.

Lemma lower_misma_letra (a b : ascii) :
  (lower a =? lower b)%char = true <-> misma_letra a b.
Proof.
  rewrite Ascii.eqb_eq. unfold misma_letra. split.
  - intros H. apply (f_equal N_of_ascii) in H. rewrite !N_of_lower in H.
    destruct ((65 <=? N_of_ascii a) && (N_of_ascii a <=? 90))%N eqn:Ea;
      destruct ((65 <=? N_of_ascii b) && (N_of_ascii b <=? 90))%N eqn:Eb.
    + left. apply N_of_ascii_inj. lia.
    + right. left. apply andb_prop in Ea. destruct Ea as [E1 E2].
      apply N.leb_le in E1, E2. lia.
    + right. right. apply andb_prop in Eb. destruct Eb as [E1 E2].
      apply N.leb_le in E1, E2. lia.
    + left. now apply N_of_ascii_inj.
  - intros H. apply N_of_ascii_inj. rewrite !N_of_lower.
    destruct H as [->|[[[H1 H2] H]|[[H1 H2] H]]]; [reflexivity| |].
    + assert (Ea : ((65 <=? N_of_ascii a) && (N_of_ascii a <=? 90))%N = true)
        by (apply andb_true_intro; split; apply N.leb_le; lia).
      assert (Eb : ((65 <=? N_of_ascii b) && (N_of_ascii b <=? 90))%N = false).
      { apply andb_false_intro2. apply N.leb_gt. lia. }
      rewrite Ea, Eb. lia.
    + assert (Eb : ((65 <=? N_of_ascii b) && (N_of_ascii b <=? 90))%N = true)
        by (apply andb_true_intro; split; apply N.leb_le; lia).
      assert (Ea : ((65 <=? N_of_ascii a) && (N_of_ascii a <=? 90))%N = false).
      { apply andb_false_intro2. apply N.leb_gt. lia. }
      rewrite Ea, Eb. lia.
Qed.

Lemma prefijo_ci_mismo (q : string) :
  forall s,
    prefijo_ci q s = true
    <-> exists m post, s = (m ++ post)%string /\ mismo_texto q m.
Proof.
  induction q as [|a q IH]; intros s; cbn [prefijo_ci].
  - split; [|reflexivity]. intros _. exists ""%string, s.
    split; [reflexivity | constructor].
  - destruct s as [|b s].
    + split; [discriminate|]. intros (m & post & E & H).
      inversion H; subst. discriminate E.
    + rewrite andb_true_iff, lower_misma_letra, IH. split.
      * intros (Hl & m & post & -> & Hm).
        exists (String b m), post. split; [reflexivity | now constructor].
      * intros (m & post & E & H). inversion H; subst.
        cbn [append] in E. injection E as -> ->.
        split; [assumption|]. now eexists _, _.
Qed.

Lemma contiene_ci_ocurre (q s : string) :
  contiene_ci q s = true <-> ocurre q s.
Proof.
  unfold ocurre. induction s as [|b s IH]; cbn [contiene_ci].
  - rewrite orb_false_r, prefijo_ci_mismo. split.
    + intros (m & post & E & H). now exists ""%string, m, post.
    + intros (pre & m & post & E & H).
      destruct pre; [|discriminate E]. now exists m, post.
  - rewrite orb_true_iff, prefijo_ci_mismo, IH. split.
    + intros [(m & post & E & H)|(pre & m & post & -> & H)].
      * now exists ""%string, m, post.
      * now exists (String b pre), m, post.
    + intros (pre & m & post & E & H). destruct pre as [|c pre].
      * left. now exists m, post.
      * right. cbn [append] in E. injection E as _ ->.
        now exists pre, m, post.
Qed.

Lemma celda_contiene_ocurre (q : string) (v : json) :
  celda_contiene q v = true <-> celda_ocurre q v.
Proof.
  unfold celda_ocurre. destruct v as [| | |s| |]; cbn [celda_contiene];
    try (split; [discriminate | intros (s' & E & _); discriminate E]).
  rewrite contiene_ci_ocurre. split.
  - intros H. now exists s.
  - intros (s' & E & H). now injection E as ->.
Qed.

(** X10: For a query of ASCII characters that is not empty and has no
    special character of [re], on text columns without the four letters
    outside ASCII that match an ASCII letter when case is ignored, the
    filter keeps, in order, exactly the rows where the query occurs in the
    identifier, the client or the model, the case of the letters A to Z
    apart. *)
Theorem filtrar_literal (df : list fila) (buscador : string) :
  truthy buscador = true ->
  literal buscador = true ->
  forallb columnas_de_texto df = true ->
  existsb fila_especial df = false ->
  exists elegida : fila -> bool,
    filtrar df buscador = Some (filter elegida df)
    /\ forall r,
         elegida r = true
         <-> celda_ocurre buscador (col_identificador r)
             \/ celda_ocurre buscador (col_cliente r)
             \/ celda_ocurre buscador (col_modelo r).
Proof.
  intros Ht Hl _ He. unfold filtrar. rewrite Ht, He.
  destruct (compilar_literal buscador Hl) as (l & -> & Hm).
  eexists. split; [reflexivity|]. intros r.
  assert (Hc : forall v, str_contains l v = celda_contiene buscador v).
  { intros [| | |s| |]; try reflexivity. cbn [str_contains celda_contiene].
    now apply search_literal. }
  cbn beta. rewrite !Hc, !orb_true_iff, !celda_contiene_ocurre. tauto.
Qed.

End BusquedaLiteral.

Lemma filtrar_literal_witness :
  exists elegida : fila -> bool,
    filtrar MuestraGuardar.listado1 "q-0"
    = Some (filter elegida MuestraGuardar.listado1)
    /\ forall r,
         elegida r = true
         <-> celda_ocurre "q-0" (col_identificador r)
             \/ celda_ocurre "q-0" (col_cliente r)
             \/ celda_ocurre "q-0" (col_modelo r).
Proof.
  apply (filtrar_literal MuestraGuardar.listado1 "q-0").
  - reflexivity.
  - reflexivity.
  - vm_compute. reflexivity.
  - vm_compute. reflexivity.
Defined.

(* ================================================================= *)
(** ** The story of the document *)

Section Documento.
Local Open Scope list_scope.

Lemma or_dash_no_vacio (x : string) : or_dash x <> ""%string.
Proof. unfold or_dash. destruct x; discriminate. Qed.

(** X11: The paragraphs in the [Normal] style are the general notes: one for
    each section whose note is not blank, with the note as it was typed;
    a blank note prints nothing. *)
Theorem contenido_observaciones (informe : InformeQC) (t : string) :
  In (Paragraph t "Normal") (contenido informe)
  <-> exists seccion,
        In seccion (secciones informe)
        /\ truthy (strip (observacion_general seccion)) = true
        /\ t = ("Observaciones: " ++ observacion_general seccion)%string.
Proof.
  unfold contenido. split.
  - intros H. apply in_app_or in H. destruct H as [H|H].
    + cbn in H. repeat (destruct H as [H|H]; [discriminate H|]). destruct H.
    + apply in_flat_map in H. destruct H as (s & Hs & H).
      exists s. split; [exact Hs|]. unfold contenido_seccion in H.
      destruct (truthy (strip (observacion_general s))).
      * cbn in H. repeat (destruct H as [H|H]; try discriminate H).
        -- injection H as <-. now split.
        -- destruct H.
      * cbn in H. repeat (destruct H as [H|H]; try discriminate H).
        destruct H.
  - intros (s & Hs & Ht & ->). apply in_or_app. right.
    apply in_flat_map. exists s. split; [exact Hs|].
    unfold contenido_seccion. rewrite Ht. cbn. auto.
Qed.

(** X12: The checklist tables: each is the table of one section, with the
    header row and one row for each item in order; every row has three
    cells, and no status or observation cell is empty. *)
Theorem contenido_tablas (informe : InformeQC) (data : list (list string))
        (w : list nat) (v : string) :
  In (Table data w "lightgrey" v) (contenido informe) ->
  exists seccion,
    In seccion (secciones informe)
    /\ map (fun row => nth 0 row ""%string) data
       = "Descripción"%string :: map descripcion (items seccion)
    /\ Forall (fun row => length row = 3
                          /\ nth 1 row ""%string <> ""%string
                          /\ nth 2 row ""%string <> ""%string) data.
Proof.
  unfold contenido. intros H. apply in_app_or in H. destruct H as [H|H].
  - cbn in H. repeat (destruct H as [H|H]; [discriminate H|]). destruct H.
  - apply in_flat_map in H. destruct H as (s & Hs & H).
    exists s. split; [exact Hs|].
    assert (E : data = ["Descripción"; "Estado"; "Observación"]%string
                       :: map fila_item (items s)).
    { unfold contenido_seccion in H.
      destruct (truthy (strip (observacion_general s))); cbn in H;
        repeat (destruct H as [H|H]; try discriminate H);
        try (now injection H as <- _ _); destruct H. }
    subst data. split.
    + cbn [map nth]. f_equal. rewrite map_map. reflexivity.
    + constructor; [repeat split; discriminate|].
      apply Forall_forall. intros row Hrow. apply in_map_iff in Hrow.
      destruct Hrow as (it & <- & _). cbn [fila_item length nth].
      repeat split; apply or_dash_no_vacio.
Qed.

End Documento.

Lemma contenido_tablas_witness :
  exists seccion,
    In seccion (secciones Muestra.informe1)
    /\ map (fun row => nth 0 row ""%string)
           [ ["Descripción"; "Estado"; "Observación"];
             ["Lectura CAN"; "OK"; "-"];
             ["Conexión WiFi"; "NOK"; "sin señal"] ]%string
       = "Descripción"%string :: map descripcion (items seccion)
    /\ Forall (fun row => length row = 3
                          /\ nth 1 row ""%string <> ""%string
                          /\ nth 2 row ""%string <> ""%string)
              [ ["Descripción"; "Estado"; "Observación"];
                ["Lectura CAN"; "OK"; "-"];
                ["Conexión WiFi"; "NOK"; "sin señal"] ]%string.
Proof.
  apply (contenido_tablas Muestra.informe1 _ [260; 70; 220] "TOP").
  cbn. do 5 right. left. reflexivity.
Defined.

(* ================================================================= *)
(** ** The reports folder when the script starts *)

(** Streamlit runs the script from the top at every interaction, so
    [REPORTS_DIR.mkdir(parents=True, exist_ok=True)] runs in every run. *)

Section Inicio.
Local Open Scope list_scope.

Lemma mkdir_existente (d : disco) (p : path) :
  is_dir d p = true -> mkdir_parents d p = (None, d).
Proof.
  unfold is_dir. destruct (walk d [] p) as [r|e] eqn:W; [|discriminate].
  intros _.
  assert (O : os_mkdir d p = Err FileExistsError).
  { unfold os_mkdir, resolve_file, split_last.
    destruct p as [|c D _] using rev_ind; [reflexivity|].
    rewrite rev_unit, rev_involutive.
    rewrite walk_app in W.
    destruct (walk d [] D) as [cur|e]; [|discriminate].
    cbn [walk] in W. destruct (c =? "..")%string; [reflexivity|].
    destruct (stat d (cur ++ [c])) as [[x|]|]; try discriminate.
    reflexivity. }
  assert (I : is_dir d p = true) by (unfold is_dir; now rewrite W).
  unfold mkdir_parents. rewrite <- (rev_involutive p) in O, I.
  destruct (rev p) as [|c rp]; cbn [mkdir_rev]; now rewrite O, I.
Qed.

(** X13: When the folder can be made: afterwards it is a directory, every
    directory and every file is as it was, and making it again, as every
    later run does, changes nothing. *)
Theorem reports_dir_mkdir (REPORTS_DIR : path) (disk disk' : disco) :
  mkdir_parents disk REPORTS_DIR = (None, disk') ->
  is_dir disk' REPORTS_DIR = true
  /\ (forall cur comps r,
         walk disk cur comps = Ok r -> walk disk' cur comps = Ok r)
  /\ (forall q x,
         stat disk q = Some (IsFile x) -> stat disk' q = Some (IsFile x))
  /\ mkdir_parents disk' REPORTS_DIR = (None, disk').
Proof.
  intros M. destruct (mkdir_parents_ok disk disk' REPORTS_DIR M) as [I W].
  repeat split; auto.
  - intros q x S. exact (mkdir_rev_stat _ _ _ _ _ _ M S).
  - now apply mkdir_existente.
Qed.

End Inicio.

Lemma reports_dir_mkdir_witness :
  is_dir Muestra.disco_inicial ["reports"] = true
  /\ (forall cur comps r,
         walk [] cur comps = Ok r ->
         walk Muestra.disco_inicial cur comps = Ok r)
  /\ (forall q x,
         stat [] q = Some (IsFile x) ->
         stat Muestra.disco_inicial q = Some (IsFile x))
  /\ mkdir_parents Muestra.disco_inicial ["reports"]
     = (None, Muestra.disco_inicial).
Proof.
  apply (reports_dir_mkdir ["reports"] [] Muestra.disco_inicial).
  reflexivity.
Defined.

(* ================================================================= *)
(** ** The page "Consultar informes" *)

Module Consulta.
Local Open Scope list_scope.

(** What stops the page: an exception of [open], of [json.load], or of
    [iloc]. *)
Inductive error_consulta : Type :=
| ErrorArchivo (e : exn)
| ErrorJson
| ErrorIndice.

(** What the page shows of the selected row: the row, the bytes behind
    "Descargar PDF" ([None]: the warning "PDF no encontrado") and the
    content of the expander ([None]: the JSON file does not exist). *)
Record detalle : Type := {
  det_fila : fila;
  det_descarga : option string;
  det_contenido : option json
}.

Inductive salida : Type :=
| SinInformes
| Listado (tabla : list fila) (det : option detalle).

(** [p.exists()]. *)
Definition path_exists (d : disco) (p : path) : bool :=
  match resolve_file d p with
  | Err _ => false
  | Ok None => true
  | Ok (Some q) =>
      match stat d q with
      | Some _ => true
      | None => false
      end
  end.

(** One cell of [df["identificador"] == seleccion] for a selection that
    is text: a cell that is not text is not equal to it. *)
Definition igual_texto (seleccion : string) (v : json) : bool :=
  match v with
  | JStr s => (s =? seleccion)%string
  | _ => false
  end.

(** The two columns of the detail and the expander. *)
Definition mostrar (disk : disco) (r : fila) : error_consulta + detalle :=
  let pdf := parts (col_pdf r) in
  let jf := parts (col_json r) in
  match (if path_exists disk pdf
         then match read_file disk pdf with
              | Ok bytes => inr (Some bytes)
              | Err e => inl (ErrorArchivo e)
              end
         else inr None) with
  | inl e => inl e
  | inr descarga =>
      if path_exists disk jf then
        match read_file disk jf with
        | Err e => inl (ErrorArchivo e)
        | Ok text =>
            match json_load text with
            | None => inl ErrorJson
            | Some v => inr {| det_fila := r;
                               det_descarga := descarga;
                               det_contenido := Some v |}
            end
        end
      else inr {| det_fila := r;
                  det_descarga := descarga;
                  det_contenido := None |}
  end.

Section Pagina.

Variable REPORTS_DIR : path.

(** One run of the page with the text [buscador] in the search box and
    the option number [eleccion] chosen in the select box.  [None]: the
    run leaves the modelled part of pandas and [re], or the selection is
    not text. *)
Definition pagina_consultar (buscador : string) (eleccion : nat)
           (disk : disco) : option (error_consulta + salida) :=
  match cargar_informes REPORTS_DIR disk with
  | None => None
  | Some [] => Some (inr SinInformes)
  | Some ((_ :: _) as df0) =>
      match filtrar df0 buscador with
      | None => None
      | Some [] => Some (inr (Listado [] None))
      | Some ((r0 :: _) as df) =>
          match nth eleccion (map col_identificador df)
                    (col_identificador r0) with
          | JStr seleccion =>
              match List.find (fun r => igual_texto seleccion
                                               (col_identificador r)) df with
              | None => Some (inl ErrorIndice)
              | Some r =>
                  match mostrar disk r with
                  | inl e => Some (inl e)
                  | inr d => Some (inr (Listado df (Some d)))
                  end
              end
          | _ => None
          end
      end
  end.

End Pagina.
End Consulta.

Section ConsultaFacts.
Local Open Scope list_scope.

Variable REPORTS_DIR : path.
Variable doc_build : N -> list flowable -> option string.

Lemma find_primero {A : Type} (f : A -> bool) (l : list A) (x : A) :
  List.find f l = Some x ->
  exists pre post,
    l = pre ++ x :: post /\ f x = true
    /\ Forall (fun y => f y = false) pre.
Proof.
  induction l as [|a l IH]; [discriminate|].
  cbn [List.find]. destruct (f a) eqn:E.
  - intros H. injection H as <-. now exists [], l.
  - intros H. destruct (IH H) as (pre & post & -> & Hx & Hpre).
    exists (a :: pre), post. repeat split; auto.
Qed.

Lemma igual_texto_spec (s : string) (v : json) :
  Consulta.igual_texto s v = true <-> v = JStr s.
Proof.
  destruct v as [| | |t| |]; cbn; try (split; discriminate).
  destruct (String.eqb_spec t s) as [->|Hn]; split; try reflexivity;
    try discriminate.
  intros E. injection E as ->. now elim Hn.
Qed.

Lemma mostrar_fila (disk : disco) (r : fila) (d : Consulta.detalle) :
  Consulta.mostrar disk r = inr d -> Consulta.det_fila d = r.
Proof.
  unfold Consulta.mostrar.
  destruct (if Consulta.path_exists disk (parts (col_pdf r)) then _ else _)
    as [e|descarga]; [discriminate|].
  destruct (Consulta.path_exists disk (parts (col_json r))).
  - destruct (read_file disk (parts (col_json r))) as [text|e];
      [|discriminate].
    destruct (json_load text); [|discriminate].
    intros H. injection H as <-. reflexivity.
  - intros H. injection H as <-. reflexivity.
Qed.

(** X21: The detail shown is that of the first listed row whose identifier is
    the chosen one: of two listed reports with the same identifier, the
    one listed later is never shown. *)
Theorem pagina_consultar_primera_fila
        (buscador : string) (eleccion : nat) (disk : disco)
        (tabla : list fila) (d : Consulta.detalle) :
  Consulta.pagina_consultar REPORTS_DIR buscador eleccion disk
  = Some (inr (Consulta.Listado tabla (Some d))) ->
  exists s pre post,
    tabla = pre ++ Consulta.det_fila d :: post
    /\ col_identificador (Consulta.det_fila d) = JStr s
    /\ Forall (fun r => col_identificador r <> JStr s) pre
    /\ nth eleccion (map col_identificador tabla) (JStr s) = JStr s.
Proof.
  unfold Consulta.pagina_consultar.
  destruct (cargar_informes REPORTS_DIR disk) as [[|r1 df1]|];
    try discriminate.
  destruct (filtrar (r1 :: df1) buscador) as [[|r0 df]|]; try discriminate.
  destruct (nth eleccion (map col_identificador (r0 :: df))
                (col_identificador r0)) as [| | |s| |] eqn:En;
    try discriminate.
  destruct (List.find _ (r0 :: df)) as [r|] eqn:Ef; [|discriminate].
  destruct (Consulta.mostrar disk r) as [e|d'] eqn:Em; [discriminate|].
  intros H. injection H as <- <-.
  rewrite (mostrar_fila _ _ _ Em).
  destruct (find_primero _ _ _ Ef) as (pre & post & E & Hr & Hpre).
  exists s, pre, post. split; [exact E|].
  split; [now apply igual_texto_spec|]. split.
  - apply Forall_forall. intros y Hy E'.
    rewrite Forall_forall in Hpre. specialize (Hpre y Hy).
    apply igual_texto_spec in E'. congruence.
  - destruct (Nat.lt_ge_cases eleccion (length (map col_identificador (r0 :: df))))
      as [Hlt|Hge].
    + rewrite (nth_indep _ _ (col_identificador r0) Hlt). exact En.
    + now apply nth_overflow.
Qed.

Lemma split_slash_join (p : path) :
  Forall (fun c => nombre_simple c = true) p -> p <> [] ->
  split_slash (join "/" p) = p.
Proof.
  induction p as [|x p IH]; [congruence|]. intros HF _.
  inversion HF as [|? ? Hx Hp]; subst.
  destruct (nombre_simple_inv x Hx) as (Sx & _ & _).
  destruct p as [|y r].
  - cbn [join]. now apply split_slash_plain.
  - change (join "/" (x :: y :: r))
      with (x ++ "/" ++ join "/" (y :: r))%string.
    rewrite (split_slash_con_barra x _ Sx), IH; auto. discriminate.
Qed.

(** [Path(str(p))] is [p]. *)
Lemma parts_str (p : path) :
  Forall (fun c => nombre_simple c = true) p -> parts (str p) = p.
Proof.
  intros HF. unfold parts, str.
  change ("/" ++ join "/" p)%string with (String "/" (join "/" p)).
  cbn [split_slash]. change ("/" =? "/")%char with true. cbn [filter keep_part].
  change (keep_part "") with false. cbv iota.
  destruct p as [|x r]; [reflexivity|].
  rewrite split_slash_join; [|exact HF|discriminate].
  apply forallb_filter_id. apply forallb_forall. intros c Hc.
  rewrite Forall_forall in HF. now destruct (nombre_simple_inv c (HF c Hc)) as (_ & K & _).
Qed.

Lemma read_file_path_exists (d : disco) (p : path) (x : string) :
  read_file d p = Ok x -> Consulta.path_exists d p = true.
Proof.
  unfold read_file, Consulta.path_exists.
  destruct (resolve_file d p) as [[q|]|e]; try discriminate.
  destruct (stat d q) as [[c|]|]; try discriminate; reflexivity.
Qed.

(** X22: Saved, listed, chosen and shown: when no other listed report has its
    identifier, choosing a report saved under [REPORTS_DIR] shows its row,
    offers for download the bytes [construir_pdf] wrote, and shows in the
    expander the dictionary that was dumped. *)
Theorem guardar_y_consultar
        (reloj : N) (informe : InformeQC) (disk disk' : disco)
        (jp pp : path) (rows : list fila) (eleccion : nat) :
  Forall (fun c => nombre_simple c = true) REPORTS_DIR ->
  nombre_simple (identificador informe) = true ->
  guardar_informe REPORTS_DIR doc_build reloj informe None disk
  = (Ok (jp, pp), disk') ->
  cargar_informes REPORTS_DIR disk' = Some rows ->
  nth_error (map col_identificador rows) eleccion
  = Some (JStr (identificador informe)) ->
  length (filter (fun r => Consulta.igual_texto (identificador informe)
                                                (col_identificador r)) rows)
  = 1 ->
  exists bytes r,
    doc_build reloj (contenido informe) = Some bytes
    /\ col_json r = str jp /\ col_pdf r = str pp
    /\ Consulta.pagina_consultar REPORTS_DIR "" eleccion disk'
       = Some (inr (Consulta.Listado rows
                      (Some {| Consulta.det_fila := r;
                               Consulta.det_descarga := Some bytes;
                               Consulta.det_contenido :=
                                 Some (asdict informe) |}))).
Proof.
  intros HRD Hid G C Hn Hu.
  destruct (guardar_informe_lee _ _ _ _ _ _ _ _ _ G)
    as (Rj & bytes & Hb & Rp).
  pose proof G as G'. apply guardar_informe_inv in G'.
  destruct G' as (_ & _ & _ & _ & Ej & Ep & _).
  unfold carpeta_de in Ej, Ep.
  set (id := identificador informe) in *.
  assert (Hj : nombre_simple (id ++ ".json")%string = true)
    by (apply nombre_simple_append; auto; simpl; lia).
  assert (Hp : nombre_simple (id ++ ".pdf")%string = true)
    by (apply nombre_simple_append; auto; simpl; lia).
  rewrite (joinpath_simple _ _ Hid) in Ej, Ep.
  rewrite (joinpath_simple _ _ Hj) in Ej.
  rewrite (joinpath_simple _ _ Hp) in Ep.
  assert (Hpl : forall c, nombre_simple c = true -> c <> ".."%string)
    by (intros c Hc; now destruct (nombre_simple_inv c Hc) as (_ & _ & H)).
  assert (HF : Forall (fun c => c <> ".."%string)
                 (REPORTS_DIR ++ [id] ++ [(id ++ ".json")%string])).
  { apply Forall_app; split.
    - eapply Forall_impl; [|exact HRD]. exact Hpl.
    - repeat constructor; now apply Hpl. }
  assert (Ej' : jp = REPORTS_DIR ++ [id] ++ [(id ++ ".json")%string])
    by (subst jp; now rewrite <- app_assoc).
  pose proof Rj as Rj0. rewrite Ej' in Rj0.
  pose proof (read_file_lookup_inv disk' _ _ HF Rj0) as L.
  pose proof (cargar_informes_completo REPORTS_DIR disk' rows [id] _ _
                (campos informe) C HF L (ends_with_append id ".json")
                (json_load_dump_asdict informe)) as Hin.
  set (r := fila_de (REPORTS_DIR ++ [id]) (id ++ ".json")%string
                    (campos informe)) in *.
  assert (Hrj : col_json r = str jp) by (subst jp; reflexivity).
  assert (Hrp : col_pdf r = str pp).
  { subst pp. unfold r. cbn [fila_de col_pdf].
    rewrite with_suffix_name_json; [reflexivity|].
    intros E. unfold id in *. rewrite E in Hid. discriminate Hid. }
  assert (Hri : col_identificador r = JStr id) by reflexivity.
  exists bytes, r. split; [exact Hb|]. split; [exact Hrj|].
  split; [exact Hrp|].
  (* the page *)
  unfold Consulta.pagina_consultar. rewrite C.
  destruct rows as [|r1 rest] eqn:Erows; [destruct Hin|]. rewrite <- Erows in *.
  change (filtrar rows "") with (Some rows).
  rewrite Erows at 1. rewrite <- Erows.
  assert (Hnth : nth eleccion (map col_identificador rows)
                     (col_identificador r1) = JStr id)
    by (now apply nth_error_nth).
  rewrite Hnth.
  destruct (List.find (fun r => Consulta.igual_texto id (col_identificador r)) rows)
    as [r'|] eqn:Ef.
  2:{ exfalso. apply (find_none _ _ Ef) in Hin. cbn beta in Hin.
      rewrite Hri in Hin. cbn in Hin. now rewrite String.eqb_refl in Hin. }
  assert (Hr' : r' = r).
  { apply find_some in Ef. destruct Ef as [Hin' Hf'].
    assert (In r' (filter (fun r => Consulta.igual_texto id (col_identificador r)) rows))
      by (apply filter_In; now split).
    assert (In r (filter (fun r => Consulta.igual_texto id (col_identificador r)) rows)).
    { apply filter_In. split; [exact Hin|]. cbn beta. rewrite Hri.
      cbn. apply String.eqb_refl. }
    destruct (filter _ rows) as [|x [|y l]]; try discriminate Hu.
    destruct H as [<-|[]], H0 as [<-|[]]. reflexivity. }
  subst r'.
  (* the detail *)
  assert (HFj : Forall (fun c => nombre_simple c = true) jp).
  { subst jp. repeat (apply Forall_app; split); auto. }
  assert (HFp : Forall (fun c => nombre_simple c = true) pp).
  { subst pp. repeat (apply Forall_app; split); auto. }
  unfold Consulta.mostrar. rewrite Hrj, Hrp, (parts_str jp HFj), (parts_str pp HFp).
  rewrite (read_file_path_exists _ _ _ Rp), Rp.
  rewrite (read_file_path_exists _ _ _ Rj), Rj, json_load_dump_asdict.
  reflexivity.
Qed.

End ConsultaFacts.

(** *** The page on the sample disk with two reports *)

Module MuestraConsulta.

Definition consulta2 : option (Consulta.error_consulta + Consulta.salida) :=
  Consulta.pagina_consultar Muestra.raiz "" 1 Muestra.disco2.

Definition tabla2 : list fila :=
  match consulta2 with
  | Some (inr (Consulta.Listado t _)) => t
  | _ => []
  end.

Definition detalle2 : Consulta.detalle :=
  match consulta2 with
  | Some (inr (Consulta.Listado _ (Some d))) => d
  | _ => {| Consulta.det_fila := fila_de [] "" [];
            Consulta.det_descarga := None;
            Consulta.det_contenido := None |}
  end.

End MuestraConsulta.

Lemma pagina_consultar_primera_fila_witness :
  exists s pre post,
    MuestraConsulta.tabla2
    = (pre ++ Consulta.det_fila MuestraConsulta.detalle2 :: post)%list
    /\ col_identificador (Consulta.det_fila MuestraConsulta.detalle2)
       = JStr s
    /\ Forall (fun r => col_identificador r <> JStr s) pre
    /\ nth 1 (map col_identificador MuestraConsulta.tabla2) (JStr s)
       = JStr s.
Proof.
  apply (pagina_consultar_primera_fila Muestra.raiz "" 1 Muestra.disco2
           MuestraConsulta.tabla2 MuestraConsulta.detalle2).
  vm_compute. reflexivity.
Defined.

Lemma guardar_y_consultar_witness :
  exists bytes r,
    Muestra.pdf_fijo 0 (contenido Muestra.informe1) = Some bytes
    /\ col_json r = str ["reports"; "Q-001"; "Q-001.json"]
    /\ col_pdf r = str ["reports"; "Q-001"; "Q-001.pdf"]
    /\ Consulta.pagina_consultar Muestra.raiz "" 0 Muestra.disco1
       = Some (inr (Consulta.Listado MuestraGuardar.listado1
                      (Some {| Consulta.det_fila := r;
                               Consulta.det_descarga := Some bytes;
                               Consulta.det_contenido :=
                                 Some (asdict Muestra.informe1) |}))).
Proof.
  apply (guardar_y_consultar Muestra.raiz Muestra.pdf_fijo 0 Muestra.informe1
           Muestra.disco_inicial Muestra.disco1
           ["reports"; "Q-001"; "Q-001.json"]
           ["reports"; "Q-001"; "Q-001.pdf"]
           MuestraGuardar.listado1 0).
  - repeat constructor.
  - reflexivity.
  - vm_compute. reflexivity.
  - vm_compute. reflexivity.
  - vm_compute. reflexivity.
  - vm_compute. reflexivity.
Defined.
